(** * The run-cycle protocol of the data donation wizard

    A shallow embedding of
    - [src/framework/processing/worker_engine.ts] (class
      [WorkerProcessingEngine], the Run-Cycle Engine on the main thread),
    - the processing worker script (the Script Host: [onmessage], [runCycle],
      [unwrap], [copyFileToPyFS], [initialise], [generateErrorMessage]),
    - the donation page's [renderBody],
    and of the two threads composed over their message queues.

    JavaScript data is a tree of [Value]s.  Code that reads and writes fields
    of [this], posts messages or may throw runs in the monad [JS]: state
    passing, a list of emitted effects, and a completion that is normal or
    abrupt.  A promise is an entry in a table of pending reactions; whoever
    owns the promise settles it in a later step of the event loop. *)

From stdpp Require Import base strings gmap list.
From Stdlib Require Import ZArith DecimalString.

Open Scope string_scope.
Open Scope list_scope.

(** ** JavaScript values *)

(** Plain (structured-cloneable) data: what travels in [postMessage] and what
    the script's yielded dictionaries convert to.  Numbers are restricted to
    integers; a [File] is its name and its content. *)
#[warnings="-register-all"]
Inductive Value : Type :=
| VUndefined
| VNull
| VBool (b : bool)
| VNum (n : Z)
| VStr (s : string)
| VFile (name : string) (content : string)
| VArr (items : list Value)
| VObj (fields : list (string * Value)).

(** What [error.toString()] gives for a thrown error. *)
Record Error : Type := mkError { toString : string }.

Definition TypeError (message : string) : Error :=
  mkError ("TypeError: " +:+ message).

Inductive Completion (A : Type) : Type :=
| Normal (a : A)
| Abrupt (e : Error).
Arguments Normal {A} a.
Arguments Abrupt {A} e.

(** How a promise settles. *)
Inductive Outcome : Type :=
| Fulfilled (v : Value)
| Rejected (reason : Error).

Fixpoint lookupField (k : string) (fields : list (string * Value)) : option Value :=
  match fields with
  | [] => None
  | (k', v) :: rest => if String.eqb k k' then Some v else lookupField k rest
  end.

(** [v.k]: reading a property of [undefined] or [null] throws; a missing
    property reads as [undefined].  Built-in properties of primitives and
    arrays (such as [length]) are not read by the code and not modelled. *)
Definition getProp (v : Value) (k : string) : Completion Value :=
  match v with
  | VUndefined =>
      Abrupt (TypeError ("Cannot read properties of undefined (reading '" +:+ k +:+ "')"))
  | VNull =>
      Abrupt (TypeError ("Cannot read properties of null (reading '" +:+ k +:+ "')"))
  | VObj fields => Normal (default VUndefined (lookupField k fields))
  | VFile name _ => Normal (if String.eqb k "name" then VStr name else VUndefined)
  | _ => Normal VUndefined
  end.

(** [v === 'literal'] *)
Definition strictEqStr (v : Value) (literal : string) : bool :=
  match v with
  | VStr s => String.eqb s literal
  | _ => false
  end.

Definition stringOfZ (n : Z) : string := NilZero.string_of_int (Z.to_int n).

Fixpoint joinWith (sep : string) (parts : list string) : string :=
  match parts with
  | [] => ""
  | [p] => p
  | p :: rest => p +:+ sep +:+ joinWith sep rest
  end.

(** ToString, as applied by template literals and by [+] on strings. *)
Fixpoint toStr (v : Value) : string :=
  match v with
  | VUndefined => "undefined"
  | VNull => "null"
  | VBool true => "true"
  | VBool false => "false"
  | VNum n => stringOfZ n
  | VStr s => s
  | VFile _ _ => "[object File]"
  | VArr items =>
      joinWith ","
        (map (fun x => match x with VUndefined | VNull => "" | _ => toStr x end) items)
  | VObj _ => "[object Object]"
  end.

(** *** JSON.stringify *)

Definition dquote : string := String (Ascii.ascii_of_nat 34) EmptyString.
Definition backslash : string := String (Ascii.ascii_of_nat 92) EmptyString.

Definition hexDigit (n : nat) : string :=
  String (Ascii.ascii_of_nat (if (n <? 10)%nat then (48 + n)%nat else (87 + n)%nat)) EmptyString.

Definition escapeChar (c : Ascii.ascii) : string :=
  let n := Ascii.nat_of_ascii c in
  if (n =? 34)%nat then backslash +:+ dquote
  else if (n =? 92)%nat then backslash +:+ backslash
  else if (n =? 8)%nat then backslash +:+ "b"
  else if (n =? 9)%nat then backslash +:+ "t"
  else if (n =? 10)%nat then backslash +:+ "n"
  else if (n =? 12)%nat then backslash +:+ "f"
  else if (n =? 13)%nat then backslash +:+ "r"
  else if (n <? 32)%nat
  then backslash +:+ "u00" +:+ hexDigit (n / 16)%nat +:+ hexDigit (n mod 16)%nat
  else String c EmptyString.

Fixpoint escapeString (s : string) : string :=
  match s with
  | EmptyString => EmptyString
  | String c rest => escapeChar c +:+ escapeString rest
  end.

Definition quoteString (s : string) : string := dquote +:+ escapeString s +:+ dquote.

(** [None] is the [undefined] that [JSON.stringify(undefined)] returns.  The
    property of an object whose value is [undefined] is left out; an
    [undefined] array item prints as [null]; a [File] has no enumerable
    property of its own. *)
Fixpoint JSON_stringify (v : Value) : option string :=
  match v with
  | VUndefined => None
  | VNull => Some "null"
  | VBool true => Some "true"
  | VBool false => Some "false"
  | VNum n => Some (stringOfZ n)
  | VStr s => Some (quoteString s)
  | VFile _ _ => Some "{}"
  | VArr items =>
      Some ("[" +:+ joinWith "," (map (fun x => default "null" (JSON_stringify x)) items) +:+ "]")
  | VObj fields =>
      Some ("{" +:+
            joinWith ","
              (omap (fun kv => match JSON_stringify kv.2 with
                               | Some s => Some (quoteString kv.1 +:+ ":" +:+ s)
                               | None => None
                               end) fields) +:+ "}")
  end.

(** ** The monad of a JavaScript thread

    [S] is the thread's mutable state and [E] its observable effects.  State
    changes and effects made before a [throw] stay. *)
Definition JS (S E A : Type) : Type := S -> Completion A * S * list E.

Section Monad.
Context {S E : Type}.

Definition ret {A} (a : A) : JS S E A := fun s => (Normal a, s, []).

Definition bind {A B} (m : JS S E A) (k : A -> JS S E B) : JS S E B :=
  fun s =>
    match m s with
    | (Normal a, s1, es1) =>
        match k a s1 with
        | (c, s2, es2) => (c, s2, es1 ++ es2)
        end
    | (Abrupt e, s1, es1) => (Abrupt e, s1, es1)
    end.

Definition throw {A} (e : Error) : JS S E A := fun s => (Abrupt e, s, []).

(** [try { body } catch (error) { handler }] *)
Definition tryCatch {A} (body : JS S E A) (handler : Error -> JS S E A) : JS S E A :=
  fun s =>
    match body s with
    | (Abrupt e, s1, es1) =>
        match handler e s1 with
        | (c, s2, es2) => (c, s2, es1 ++ es2)
        end
    | done => done
    end.

Definition gets {A} (f : S -> A) : JS S E A := fun s => (Normal (f s), s, []).
Definition modify (f : S -> S) : JS S E unit := fun s => (Normal tt, f s, []).
Definition emit (e : E) : JS S E unit := fun s => (Normal tt, s, [e]).

(** An expression that may throw, evaluated for its value. *)
Definition eval {A} (c : Completion A) : JS S E A := fun s => (c, s, []).

End Monad.

Notation "'let*' x ':=' m 'in' k" := (bind m (fun x => k))
  (at level 10, x pattern, m at level 100, k at level 200).
Notation "m1 ';;;' m2" := (bind m1 (fun _ => m2))
  (at level 100, m2 at level 200, right associativity).

(** ** Effects, messages and commands *)

(** What a thread does to the outside: [Engine] and [Worker] share the
    constructors; [OnCommand] and [WorkerTerminate] are the Engine's only. *)
Inductive Effect : Type :=
| ConsoleLog (args : list Value)
| PostMessage (data : Value)
| OnCommand (command : Value) (promise : nat)
| WorkerTerminate.

Definition msgInitialise : Value := VObj [("eventType", VStr "initialise")].
Definition msgInitialiseDone : Value := VObj [("eventType", VStr "initialiseDone")].
Definition msgFirstRunCycle (sessionId : Value) : Value :=
  VObj [("eventType", VStr "firstRunCycle"); ("sessionId", sessionId)].
Definition msgNextRunCycle (response : Value) : Value :=
  VObj [("eventType", VStr "nextRunCycle"); ("response", response)].
Definition msgRunCycleDone (scriptEvent : Value) : Value :=
  VObj [("eventType", VStr "runCycleDone"); ("scriptEvent", scriptEvent)].

Definition CommandSystemDonate (key json_string : string) : Value :=
  VObj [("__type__", VStr "CommandSystemDonate"); ("key", VStr key);
        ("json_string", VStr json_string)].
Definition CommandSystemEvent (name : string) : Value :=
  VObj [("__type__", VStr "CommandSystemEvent"); ("name", VStr name)].

(** Modelled from the spec: the type guard [isCommand] of [types/commands],
    which is not among the sources.  The spec lists the command tags
    [CommandSystemEvent{name}], [CommandSystemDonate{key, json_string}] and
    [CommandUIRender{page}].  The Engine below takes its guard as a parameter;
    this instance only serves to run it on concrete input. *)
Definition isCommandByTag (arg : Value) : bool :=
  match arg with
  | VObj fields =>
      let has k := bool_decide (is_Some (lookupField k fields)) in
      match lookupField "__type__" fields with
      | Some (VStr tag) =>
          (String.eqb tag "CommandSystemEvent" && has "name")
          || (String.eqb tag "CommandSystemDonate" && has "key" && has "json_string")
          || (String.eqb tag "CommandUIRender" && has "page")
      | _ => false
      end
  | _ => false
  end.

Definition console_log {S} (args : list Value) : JS S Effect unit :=
  emit (ConsoleLog args).

(** [this.worker.postMessage(data)] in the Engine, [self.postMessage(data)]
    in the worker *)
Definition postMessage {S} (data : Value) : JS S Effect unit :=
  emit (PostMessage data).

(** ** The Run-Cycle Engine: class [WorkerProcessingEngine] *)

Module Engine.

(** The handlers passed to [then] on a promise that [commandHandler.onCommand]
    returned: [trackUserStart] and [sendSystemEvent] pass two empty functions,
    [handleRunCycle] passes [(response) => this.nextRunCycle(response)] and an
    empty function. *)
Inductive Reaction : Type := RNoop | RNextRunCycle.

#[global] Instance Reaction_eq_dec : EqDecision Reaction.
Proof. solve_decision. Defined.

(** [resolveInitialized] holds the [resolve] of the promise that the latest
    [waitForInitialization] made; the model keeps the state of that promise.
    [start] attaches to it the handlers
    [() => { this.sendSystemEvent('initialized'); this.firstRunCycle() }] and
    an empty function.  A promise made by an earlier [start] has lost its
    [resolve] and stays pending for ever. *)
Inductive InitPromise : Type := InitPending | InitResolved.

Record State : Type := mkEngine {
  sessionId : string;
  resolveInitialized : option InitPromise;   (* [None]: not assigned yet *)
  reactions : gmap nat Reaction;             (* pending handler promises *)
  nextPromise : nat;                         (* handler promises made so far *)
}.

Definition setResolveInitialized (r : option InitPromise) (e : State) : State :=
  mkEngine (sessionId e) r (reactions e) (nextPromise e).
Definition setReactions (m : gmap nat Reaction) (e : State) : State :=
  mkEngine (sessionId e) (resolveInitialized e) m (nextPromise e).
Definition setNextPromise (n : nat) (e : State) : State :=
  mkEngine (sessionId e) (resolveInitialized e) (reactions e) n.

Section Code.

(** [isCommand] of [types/commands] *)
Variable isCommand : Value -> bool.

Definition M : Type -> Type := JS State Effect.

(** [this.commandHandler.onCommand(command).then(onFulfilled, onRejected)]:
    the handler is called and returns a promise, to which the reaction is
    attached.  The handler has the type [CommandHandler]: it returns a promise
    and does not throw. *)
Definition onCommandThen (command : Value) (r : Reaction) : M unit :=
  let* p := gets nextPromise in
  modify (setNextPromise (S p)) ;;;
  emit (OnCommand command p) ;;;
  let* m := gets reactions in
  modify (setReactions (<[p := r]> m)).

Definition trackUserStart (sessionId : string) : M unit :=
  let key := sessionId +:+ "-tracking" in
  let jsonString := default "undefined" (JSON_stringify (VObj [("message", VStr "user started")])) in
  let command := CommandSystemDonate key jsonString in
  onCommandThen command RNoop.

Definition sendSystemEvent (name : string) : M unit :=
  let command := CommandSystemEvent name in
  onCommandThen command RNoop.

Definition firstRunCycle : M unit :=
  let* sid := gets sessionId in
  postMessage (msgFirstRunCycle (VStr sid)).

Definition nextRunCycle (response : Value) : M unit :=
  console_log [VStr "next cycle"] ;;;
  postMessage (msgNextRunCycle response).

Definition terminate : M unit := emit WorkerTerminate.

Definition handleRunCycle (command : Value) : M unit :=
  if isCommand command
  then onCommandThen command RNextRunCycle
  else ret tt.

(** [this.resolveInitialized()], with the fulfilment handler of [start]
    running in the same turn of the event loop, before the next message. *)
Definition callResolveInitialized : M unit :=
  let* r := gets resolveInitialized in
  match r with
  | None => throw (TypeError "this.resolveInitialized is not a function")
  | Some InitPending =>
      modify (setResolveInitialized (Some InitResolved)) ;;;
      sendSystemEvent "initialized" ;;;
      firstRunCycle
  | Some InitResolved => ret tt
  end.

Definition handleEvent (data : Value) : M unit :=
  let* eventType := eval (getProp data "eventType") in
  console_log [VStr "[ReactEngine] received eventType: "; eventType] ;;;
  if strictEqStr eventType "initialiseDone" then
    console_log [VStr "[ReactEngine] received: initialiseDone"] ;;;
    callResolveInitialized
  else if strictEqStr eventType "runCycleDone" then
    let* scriptEvent := eval (getProp data "scriptEvent") in
    console_log [VStr "[ReactEngine] received: event"; scriptEvent] ;;;
    handleRunCycle scriptEvent
  else
    console_log [VStr "[ReactEngine] received unsupported flow event: "; eventType].

(** [start] with [waitForInitialization] inlined: the promise is made, its
    [resolve] stored, [initialise] posted, the handlers attached. *)
Definition start : M unit :=
  console_log [VStr "[WorkerProcessingEngine] started"] ;;;
  modify (setResolveInitialized (Some InitPending)) ;;;
  postMessage msgInitialise.

(** [this.worker.onmessage], as the constructor sets it; [data] is
    [event.data]. *)
Definition onmessage (data : Value) : M unit :=
  let* eventType := eval (getProp data "eventType") in
  console_log [VStr "[WorkerProcessingEngine] Received event from worker: "; eventType] ;;;
  handleEvent data.

(** The constructor: the fields, then [this.trackUserStart(sessionId)].  It
    also installs [onmessage] below and sets [worker.onerror] to
    [console.log]; error events of the worker are not modelled. *)
Definition constructor (sessionId : string) : Completion unit * State * list Effect :=
  trackUserStart sessionId (mkEngine sessionId None ∅ 0).

(** The Command Handler settles promise [p].  A promise settles once: when
    [p] is not pending nothing happens. *)
Definition settle (p : nat) (o : Outcome) : M unit :=
  let* m := gets reactions in
  match m !! p with
  | None => ret tt
  | Some r =>
      modify (setReactions (delete p m)) ;;;
      match r, o with
      | RNextRunCycle, Fulfilled response => nextRunCycle response
      | RNextRunCycle, Rejected _ => ret tt
      | RNoop, _ => ret tt
      end
  end.

End Code.

End Engine.

(** ** The Script Host: the processing worker *)

(** The Python side behind [self.pyodide], which the worker only calls.
    [Script] is the state of the object that [port.start(sessionId)] returns
    (a generator and where it stands); [send] resumes it and gives what it
    yields, or the error it raises, and where it stands then.  [toJs] is
    [scriptEvent.toJs({ create_proxies: false, dict_converter:
    Object.fromEntries })], which also can throw. *)
Record Pyodide : Type := mkPyodide {
  Script : Type;
  PyObject : Type;
  runPython : string -> Completion Script;
  send : Script -> Value -> Completion PyObject * Script;
  toJs : PyObject -> Completion Value;
}.

(** A runtime to run the worker on concrete input: a script is the list of
    what it still has to yield or raise, its values are JavaScript values
    already, and only [port.start(...)] evaluates. *)
Definition scriptedPyodide (script : list (Completion Value)) : Pyodide :=
  {| Script := list (Completion Value);
     PyObject := Value;
     runPython code :=
       if String.prefix "port.start(" code then Normal script
       else Abrupt (mkError "PythonError: SyntaxError");
     send sc _ :=
       match sc with
       | [] => (Abrupt (mkError "PythonError: StopIteration"), [])
       | r :: rest => (r, rest)
       end;
     toJs v := Normal v |}.

(** A runtime in which evaluating Python source raises [error], to run the
    worker on a start that fails *)
Definition raisingPyodide (error : Error) : Pyodide :=
  {| Script := unit;
     PyObject := Value;
     runPython _ := Abrupt error;
     send sc _ := (Abrupt error, sc);
     toJs v := Normal v |}.

(** *** The file system of the interpreter ([self.pyodide.FS])

    A map from the directories that exist to what is mounted there: [None]
    for a plain directory, [Some files] for a WORKERFS mount of [files], each
    a name and a content.  The code only makes the directory [/file-input],
    directly under the root. *)
Abbreviation FS := (gmap string (option (list (string * string)))).

Definition ErrnoError (code : string) : Error := mkError ("ErrnoError: " +:+ code).

(** [FS.analyzePath(path).exists] *)
Definition FS_exists (path : string) (fs : FS) : bool :=
  bool_decide (is_Some (fs !! path)).

Definition FS_mkdir (path : string) (fs : FS) : Completion FS :=
  match fs !! path with
  | Some _ => Abrupt (ErrnoError "EEXIST")
  | None => Normal (<[path := None]> fs)
  end.

(** [FS.unmount] throws unless [path] is a mount point. *)
Definition FS_unmount (path : string) (fs : FS) : Completion FS :=
  match fs !! path with
  | Some (Some _) => Normal (<[path := None]> fs)
  | Some None => Abrupt (ErrnoError "EINVAL")
  | None => Abrupt (ErrnoError "ENOENT")
  end.

Definition asFile (v : Value) : option (string * string) :=
  match v with
  | VFile name content => Some (name, content)
  | _ => None
  end.

(** [FS.mount(FS.filesystems.WORKERFS, { files }, path)]: the directory must
    exist and not be a mount point; WORKERFS makes a node for each [File]. *)
Definition FS_mount (files : list Value) (path : string) (fs : FS) : Completion FS :=
  match fs !! path with
  | Some None =>
      match mapM asFile files with
      | Some fl => Normal (<[path := Some fl]> fs)
      | None => Abrupt (TypeError "Cannot read properties of undefined (reading 'split')")
      end
  | Some (Some _) => Abrupt (ErrnoError "EBUSY")
  | None => Abrupt (ErrnoError "ENOENT")
  end.

(** The content of the file [dir/name], when [dir] is a mount point that
    holds a file of that name. *)
Definition FS_readFile (dir name : string) (fs : FS) : option string :=
  match fs !! dir with
  | Some (Some files) => snd <$> find (fun f => String.eqb (fst f) name) files
  | _ => None
  end.

Module Worker.

(** How far a call of [initialise()] has come: [startPyodide()],
    [loadPackages()] or [installPortPackage()] is pending. *)
Inductive InitStage : Type := LoadingPyodide | LoadingPackages | InstallingPort.

Section Code.

Variable py : Pyodide.

Record State : Type := mkWorker {
  pyodide : option FS;               (* [self.pyodide], by its file system *)
  pyScript : option (Script py);     (* [let pyScript] *)
  initialising : list InitStage;     (* the pending calls of [initialise()] *)
}.

Definition setPyodide (fs : option FS) (w : State) : State :=
  mkWorker fs (pyScript w) (initialising w).
Definition setPyScript (sc : option (Script py)) (w : State) : State :=
  mkWorker (pyodide w) sc (initialising w).
Definition setInitialising (l : list InitStage) (w : State) : State :=
  mkWorker (pyodide w) (pyScript w) l.

Definition initial : State := mkWorker None None [].

Definition M : Type -> Type := JS State Effect.

(** [self.pyodide.member]: throws while [self.pyodide] is undefined. *)
Definition self_pyodide (member : string) : M FS :=
  let* p := gets pyodide in
  match p with
  | None => throw (TypeError ("Cannot read properties of undefined (reading '" +:+ member +:+ "')"))
  | Some fs => ret fs
  end.

(** A call [self.pyodide.FS.op(...)] *)
Definition FS_call (op : FS -> Completion FS) : M unit :=
  let* fs := self_pyodide "FS" in
  let* fs' := eval (op fs) in
  modify (setPyodide (Some fs')).

Definition generateErrorMessage (stacktrace : string) : Value :=
  VObj [("__type__", VStr "CommandUIRender");
        ("page", VObj [("__type__", VStr "PropsUIPageError");
                       ("stacktrace", VStr stacktrace)])].

Definition runCycle (payload : Value) : M unit :=
  console_log [VStr ("[ProcessingWorker] runCycle " +:+ default "undefined" (JSON_stringify payload))] ;;;
  tryCatch
    (let* script := gets pyScript in
     match script with
     | None => throw (TypeError "Cannot read properties of undefined (reading 'send')")
     | Some sc =>
         let '(yielded, sc') := send py sc payload in
         modify (setPyScript (Some sc')) ;;;
         let* scriptEvent := eval yielded in
         let* converted := eval (toJs py scriptEvent) in
         postMessage (msgRunCycleDone converted)
     end)
    (fun error =>
       postMessage (msgRunCycleDone (generateErrorMessage (toString error)))).

(** The value that [copyFileToPyFS] passes to [resolve] *)
Definition copyFileToPyFS (file : Value) : M Value :=
  let directoryName := "/file-input" in
  let* fs := self_pyodide "FS" in
  (if negb (FS_exists directoryName fs)
   then FS_call (FS_mkdir directoryName)
   else FS_call (FS_unmount directoryName)) ;;;
  FS_call (FS_mount [file] directoryName) ;;;
  let* name := eval (getProp file "name") in
  ret (VObj [("__type__", VStr "PayloadString");
             ("value", VStr (directoryName +:+ "/" +:+ toStr name))]).

(** [new Promise(executor)] for an executor that calls [resolve] last and
    synchronously: what [resolve] gets fulfils the promise, a throw before
    rejects it. *)
Definition newPromise (executor : M Value) : M Outcome :=
  fun w =>
    match executor w with
    | (Normal v, w', es) => (Normal (Fulfilled v), w', es)
    | (Abrupt e, w', es) => (Normal (Rejected e), w', es)
    end.

Definition unwrap (response : Value) : M Outcome :=
  let* payload := eval (getProp response "payload") in
  console_log [VStr ("[ProcessingWorker] unwrap response: " +:+
                     default "undefined" (JSON_stringify payload))] ;;;
  newPromise
    (let* type := eval (getProp payload "__type__") in
     if strictEqStr type "PayloadFile" then
       let* file := eval (getProp payload "value") in
       copyFileToPyFS file
     else
       ret payload).

(** [initialise()] up to its first pending promise, [loadPyodide(...)].  A
    failure of [importScripts] counts as a failure of that promise: in both
    cases nothing is posted. *)
Definition initialise : M unit :=
  console_log [VStr "[ProcessingWorker] initialise"] ;;;
  console_log [VStr "[ProcessingWorker] loading Pyodide"] ;;;
  let* pending := gets initialising in
  modify (setInitialising (pending ++ [LoadingPyodide])).

(** The pending promise of the [i]-th call of [initialise()] settles.  When
    it fulfils, the next [then] of the chain runs, and after the last one
    [() => { self.postMessage({ eventType: 'initialiseDone' }) }].  When it
    rejects the chain rejects, and nothing handles that. *)
Definition initialiseSettles (i : nat) (fulfilled : bool) : M unit :=
  let* pending := gets initialising in
  match pending !! i with
  | None => ret tt
  | Some stage =>
      if fulfilled then
        match stage with
        | LoadingPyodide =>
            modify (setPyodide (Some ∅)) ;;;
            console_log [VStr "[ProcessingWorker] loading packages"] ;;;
            modify (setInitialising (<[i := LoadingPackages]> pending))
        | LoadingPackages =>
            console_log [VStr "[ProcessingWorker] load port package"] ;;;
            modify (setInitialising (<[i := InstallingPort]> pending))
        | InstallingPort =>
            modify (setInitialising (delete i pending)) ;;;
            postMessage msgInitialiseDone
        end
      else
        modify (setInitialising (delete i pending))
  end.

(** [onmessage]; [data] is [event.data].  The fulfilment handler of
    [unwrap(response).then(...)] runs in the same turn of the event loop. *)
Definition onmessage (data : Value) : M unit :=
  let* eventType := eval (getProp data "eventType") in
  if strictEqStr eventType "initialise" then
    initialise
  else if strictEqStr eventType "firstRunCycle" then
    let* sessionId := eval (getProp data "sessionId") in
    self_pyodide "runPython" ;;;
    let* script := eval (runPython py ("port.start(" +:+ toStr sessionId +:+ ")")) in
    modify (setPyScript (Some script)) ;;;
    runCycle VNull
  else if strictEqStr eventType "nextRunCycle" then
    let* response := eval (getProp data "response") in
    let* userInput := unwrap response in
    match userInput with
    | Fulfilled userInput => runCycle userInput
    | Rejected _ => ret tt
    end
  else
    console_log [VStr "[ProcessingWorker] Received unsupported event: "; eventType].

End Code.

Arguments pyodide {py} _.
Arguments pyScript {py} _.
Arguments initialising {py} _.

End Worker.

(** ** The donation page: [renderBody] *)

Module DonationPage.

Inductive Component : Type := FileInput | Confirm | ConsentForm | RadioInput | Questionnaire.

Section Code.

(** The type of [props.resolve], a callback of the factory context *)
Variable Resolve : Type.

(** The type guards of [types/prompts], which are not among the sources *)
Variables isPropsUIPromptFileInput isPropsUIPromptConfirm isPropsUIPromptConsentForm
  isPropsUIPromptRadioInput isPropsUIPromptQuestionnaire : Value -> bool.

(** [Weak<PropsUIPageDonation> & ReactFactoryContext] *)
Record Props : Type := mkProps {
  header : Value;
  body : Value;
  footer : Value;
  locale : string;
  resolve : Resolve;
}.

Record Context : Type := mkContext { ctxLocale : string; ctxResolve : Resolve }.

(** [<C {...body} {...context} />] *)
Record Element : Type := mkElement {
  component : Component;
  spreadBody : Value;
  spreadContext : Context;
}.

Definition renderBody (props : Props) : Completion Element :=
  let context := mkContext (locale props) (resolve props) in
  let body := body props in
  if isPropsUIPromptFileInput body then Normal (mkElement FileInput body context)
  else if isPropsUIPromptConfirm body then Normal (mkElement Confirm body context)
  else if isPropsUIPromptConsentForm body then Normal (mkElement ConsentForm body context)
  else if isPropsUIPromptRadioInput body then Normal (mkElement RadioInput body context)
  else if isPropsUIPromptQuestionnaire body then Normal (mkElement Questionnaire body context)
  else Abrupt (TypeError "Unknown body type").

End Code.

Arguments mkProps {Resolve} _ _ _ _ _.
Arguments body {Resolve} _.
Arguments locale {Resolve} _.
Arguments resolve {Resolve} _.
Arguments mkContext {Resolve} _ _.
Arguments mkElement {Resolve} _ _ _.

(** Modelled from the spec: the type guards of [types/prompts], which are not
    among the sources, as tests of the [__type__] tag; the spec says that the
    body type is discriminated at render time.  [renderBody] takes its guards
    as parameters; this instance only serves to run it on concrete input. *)
Definition hasType (tag : string) (arg : Value) : bool :=
  match getProp arg "__type__" with
  | Normal t => strictEqStr t tag
  | Abrupt _ => false
  end.

End DonationPage.

(** ** The session: both threads and the queues between them *)

Inductive Thread : Type := MainThread | WorkerThread.

(** What happens in a session, in the order it happens *)
Inductive Event : Type :=
| StartCalled                                     (* the page calls [start()] *)
| Received (t : Thread) (data : Value)            (* a message event fires *)
| HandlerSettled (promise : nat) (o : Outcome)    (* the Command Handler settles *)
| InitialiseSettled (i : nat) (fulfilled : bool)  (* a loading stage settles *)
| Did (t : Thread) (e : Effect)
| Uncaught (t : Thread) (e : Error).

(** What the environment lets happen next *)
Inductive Step : Type :=
| CallStart
| DeliverToWorker
| DeliverToEngine
| SettleHandler (promise : nat) (o : Outcome)
| SettleInitialise (i : nat) (fulfilled : bool).

Definition posted (es : list Effect) : list Value :=
  omap (fun e => match e with PostMessage data => Some data | _ => None end) es.

Definition events (t : Thread) (c : Completion unit) (es : list Effect) : list Event :=
  map (Did t) es ++ match c with Normal _ => [] | Abrupt e => [Uncaught t e] end.

Definition isMsg (eventType : string) (data : Value) : bool :=
  match getProp data "eventType" with
  | Normal t => strictEqStr t eventType
  | Abrupt _ => false
  end.

Fixpoint countIf {A} (f : A -> bool) (l : list A) : nat :=
  match l with
  | [] => 0
  | x :: rest => (if f x then 1 else 0) + countIf f rest
  end.

Section Session.

Variable isCommand : Value -> bool.
Variable py : Pyodide.

Record System : Type := mkSystem {
  engine : Engine.State;
  worker : Worker.State py;
  toWorker : list Value;     (* posted by the Engine, not yet delivered *)
  toEngine : list Value;     (* posted by the worker, not yet delivered *)
  started : bool;            (* [start()] has been called *)
  trace : list Event;
}.

(** The page makes the worker, then the Engine (whose constructor runs). *)
Definition boot (sessionId : string) : System :=
  let '(c, e, es) := Engine.constructor sessionId in
  mkSystem e (Worker.initial py) (posted es) [] false (events MainThread c es).

Definition engineTurn (s : System) (cause : Event)
    (r : Completion unit * Engine.State * list Effect) : System :=
  let '(c, e, es) := r in
  mkSystem e (worker s) (toWorker s ++ posted es) (toEngine s) (started s)
    (trace s ++ cause :: events MainThread c es).

Definition workerTurn (s : System) (cause : Event)
    (r : Completion unit * Worker.State py * list Effect) : System :=
  let '(c, w, es) := r in
  mkSystem (engine s) w (toWorker s) (toEngine s ++ posted es) (started s)
    (trace s ++ cause :: events WorkerThread c es).

(** One turn of one of the two event loops.  The page calls [start()] once
    ([index.tsx]); a step that cannot happen leaves the session as it is. *)
Definition step (s : System) (st : Step) : System :=
  match st with
  | CallStart =>
      if started s then s
      else
        let s' := mkSystem (engine s) (worker s) (toWorker s) (toEngine s) true (trace s) in
        engineTurn s' StartCalled (Engine.start (engine s))
  | DeliverToWorker =>
      match toWorker s with
      | [] => s
      | data :: rest =>
          let s' := mkSystem (engine s) (worker s) rest (toEngine s) (started s) (trace s) in
          workerTurn s' (Received WorkerThread data) (Worker.onmessage py data (worker s))
      end
  | DeliverToEngine =>
      match toEngine s with
      | [] => s
      | data :: rest =>
          let s' := mkSystem (engine s) (worker s) (toWorker s) rest (started s) (trace s) in
          engineTurn s' (Received MainThread data) (Engine.onmessage isCommand data (engine s))
      end
  | SettleHandler p o =>
      match Engine.reactions (engine s) !! p with
      | None => s
      | Some _ => engineTurn s (HandlerSettled p o) (Engine.settle p o (engine s))
      end
  | SettleInitialise i fulfilled =>
      match Worker.initialising (worker s) !! i with
      | None => s
      | Some _ =>
          workerTurn s (InitialiseSettled i fulfilled)
            (Worker.initialiseSettles py i fulfilled (worker s))
      end
  end.

Definition run (sessionId : string) (steps : list Step) : System :=
  fold_left step steps (boot sessionId).

(** The script's commands that the Command Handler has and has not answered *)
Definition outstanding (e : Engine.State) : nat :=
  size (filter (fun kv => kv.2 = Engine.RNextRunCycle) (Engine.reactions e)).

Definition isRunCycle (data : Value) : bool :=
  isMsg "firstRunCycle" data || isMsg "nextRunCycle" data.

(** The cycles under way: a stimulus on its way to the worker, a command on
    its way to the Engine, or a command with the Command Handler *)
Definition inFlight (s : System) : nat :=
  countIf isRunCycle (toWorker s) + countIf (isMsg "runCycleDone") (toEngine s)
  + outstanding (engine s).

End Session.

Arguments engine {py} _.
Arguments worker {py} _.
Arguments toWorker {py} _.
Arguments toEngine {py} _.
Arguments started {py} _.
Arguments trace {py} _.
Arguments inFlight {py} _.

(** ** Vocabulary of the statements *)

Definition isConsoleLog (e : Effect) : Prop :=
  match e with ConsoleLog _ => True | _ => False end.

(** The lines that [runCycle] and [unwrap] log first *)
Definition runCycleLog (payload : Value) : Effect :=
  ConsoleLog [VStr ("[ProcessingWorker] runCycle " +:+ default "undefined" (JSON_stringify payload))].

Definition unwrapLog (payload : Value) : Effect :=
  ConsoleLog [VStr ("[ProcessingWorker] unwrap response: " +:+
                    default "undefined" (JSON_stringify payload))].

Definition PayloadString (value : string) : Value :=
  VObj [("__type__", VStr "PayloadString"); ("value", VStr value)].
Definition PayloadFile (file : Value) : Value :=
  VObj [("__type__", VStr "PayloadFile"); ("value", file)].

(** [JSON.stringify({ message: 'user started' })], character by character *)
Definition userStartedJson : string :=
  "{" +:+ dquote +:+ "message" +:+ dquote +:+ ":" +:+ dquote +:+ "user started" +:+ dquote +:+ "}".

(** A session that handles one command and then receives a fault *)
Definition demoSteps : list Step :=
  [CallStart; DeliverToWorker; SettleInitialise 0 true; SettleInitialise 0 true;
   SettleInitialise 0 true; DeliverToEngine; DeliverToWorker; DeliverToEngine;
   SettleHandler 2 (Fulfilled (VObj [("payload", PayloadString "yes")]));
   DeliverToWorker; DeliverToEngine].

(** States and a script to run the code on *)
Definition demoEngine : Engine.State := Engine.mkEngine "123" None ∅ 0.

Definition demoScript : list (Completion Value) :=
  [Normal (VObj [("__type__", VStr "CommandUIRender"); ("page", VNull)]);
   Abrupt (mkError "PythonError: boom")].

Definition demoWorker : Worker.State (scriptedPyodide demoScript) :=
  Worker.mkWorker (scriptedPyodide demoScript) (Some ∅) (Some (tail demoScript)) [].

(** Advancing the script of [w] with [payload] raises [error] and leaves the
    worker as [w']: no script has been started, the script raises, or what it
    yields does not convert. *)
Inductive Raises (py : Pyodide) (w : Worker.State py) (payload : Value) :
    Error -> Worker.State py -> Prop :=
| raises_no_script :
    Worker.pyScript w = None ->
    Raises py w payload
      (TypeError "Cannot read properties of undefined (reading 'send')") w
| raises_send sc sc' error :
    Worker.pyScript w = Some sc ->
    send py sc payload = (Abrupt error, sc') ->
    Raises py w payload error (Worker.setPyScript py (Some sc') w)
| raises_toJs sc sc' yielded error :
    Worker.pyScript w = Some sc ->
    send py sc payload = (Normal yielded, sc') ->
    toJs py yielded = Abrupt error ->
    Raises py w payload error (Worker.setPyScript py (Some sc') w).

(** ** The turns of the two event loops, as relations

    Every turn that [step] takes is one of the cases below
    ([step_is_Next]); the invariants of the session are proved by cases on
    them. *)

Inductive EngineTurn (isCommand : Value -> bool) (e : Engine.State) :
    Event -> Completion unit -> Engine.State -> list Effect -> Prop :=
| turn_start :
    EngineTurn isCommand e StartCalled (Normal tt)
      (Engine.setResolveInitialized (Some Engine.InitPending) e)
      [ConsoleLog [VStr "[WorkerProcessingEngine] started"]; PostMessage msgInitialise]
| turn_ignored data c logs :
    Forall isConsoleLog logs ->
    EngineTurn isCommand e (Received MainThread data) c e logs
| turn_initialised data logs :
    getProp data "eventType" = Normal (VStr "initialiseDone") ->
    Engine.resolveInitialized e = Some Engine.InitPending ->
    Forall isConsoleLog logs ->
    EngineTurn isCommand e (Received MainThread data) (Normal tt)
      (Engine.mkEngine (Engine.sessionId e) (Some Engine.InitResolved)
         (<[Engine.nextPromise e := Engine.RNoop]> (Engine.reactions e))
         (S (Engine.nextPromise e)))
      (logs ++ [OnCommand (CommandSystemEvent "initialized") (Engine.nextPromise e);
                PostMessage (msgFirstRunCycle (VStr (Engine.sessionId e)))])
| turn_command data command logs :
    getProp data "eventType" = Normal (VStr "runCycleDone") ->
    getProp data "scriptEvent" = Normal command ->
    isCommand command = true ->
    Forall isConsoleLog logs ->
    EngineTurn isCommand e (Received MainThread data) (Normal tt)
      (Engine.mkEngine (Engine.sessionId e) (Engine.resolveInitialized e)
         (<[Engine.nextPromise e := Engine.RNextRunCycle]> (Engine.reactions e))
         (S (Engine.nextPromise e)))
      (logs ++ [OnCommand command (Engine.nextPromise e)])
| turn_answered p response :
    Engine.reactions e !! p = Some Engine.RNextRunCycle ->
    EngineTurn isCommand e (HandlerSettled p (Fulfilled response)) (Normal tt)
      (Engine.setReactions (delete p (Engine.reactions e)) e)
      [ConsoleLog [VStr "next cycle"]; PostMessage (msgNextRunCycle response)]
| turn_dropped p o r :
    Engine.reactions e !! p = Some r ->
    r = Engine.RNoop \/ (exists reason, o = Rejected reason) ->
    EngineTurn isCommand e (HandlerSettled p o) (Normal tt)
      (Engine.setReactions (delete p (Engine.reactions e)) e) [].

Inductive WorkerTurn (py : Pyodide) (w : Worker.State py) :
    Event -> Completion unit -> Worker.State py -> list Effect -> Prop :=
| turn_silent cause c w' logs :
    length (Worker.initialising w') = length (Worker.initialising w) ->
    Forall isConsoleLog logs ->
    WorkerTurn py w cause c w' logs
| turn_initialise data logs :
    isMsg "initialise" data = true ->
    Forall isConsoleLog logs ->
    WorkerTurn py w (Received WorkerThread data) (Normal tt)
      (Worker.setInitialising py (Worker.initialising w ++ [Worker.LoadingPyodide]) w) logs
| turn_cycle data w' logs scriptEvent :
    isRunCycle data = true ->
    length (Worker.initialising w') = length (Worker.initialising w) ->
    Forall isConsoleLog logs ->
    WorkerTurn py w (Received WorkerThread data) (Normal tt) w'
      (logs ++ [PostMessage (msgRunCycleDone scriptEvent)])
| turn_initialise_failed i stage :
    Worker.initialising w !! i = Some stage ->
    WorkerTurn py w (InitialiseSettled i false) (Normal tt)
      (Worker.setInitialising py (delete i (Worker.initialising w)) w) []
| turn_initialise_done i :
    Worker.initialising w !! i = Some Worker.InstallingPort ->
    WorkerTurn py w (InitialiseSettled i true) (Normal tt)
      (Worker.setInitialising py (delete i (Worker.initialising w)) w)
      [PostMessage msgInitialiseDone].

Inductive Next (isCommand : Value -> bool) (py : Pyodide) (s : System py) : System py -> Prop :=
| next_start c e es :
    started s = false ->
    EngineTurn isCommand (engine s) StartCalled c e es ->
    Next isCommand py s
      (mkSystem py e (worker s) (toWorker s ++ posted es) (toEngine s) true
         (trace s ++ StartCalled :: events MainThread c es))
| next_engine_message data rest c e es :
    toEngine s = data :: rest ->
    EngineTurn isCommand (engine s) (Received MainThread data) c e es ->
    Next isCommand py s
      (mkSystem py e (worker s) (toWorker s ++ posted es) rest (started s)
         (trace s ++ Received MainThread data :: events MainThread c es))
| next_handler_settles p o c e es :
    EngineTurn isCommand (engine s) (HandlerSettled p o) c e es ->
    Next isCommand py s
      (mkSystem py e (worker s) (toWorker s ++ posted es) (toEngine s) (started s)
         (trace s ++ HandlerSettled p o :: events MainThread c es))
| next_worker_message data rest c w es :
    toWorker s = data :: rest ->
    WorkerTurn py (worker s) (Received WorkerThread data) c w es ->
    Next isCommand py s
      (mkSystem py (engine s) w rest (toEngine s ++ posted es) (started s)
         (trace s ++ Received WorkerThread data :: events WorkerThread c es))
| next_initialise_settles i fulfilled c w es :
    WorkerTurn py (worker s) (InitialiseSettled i fulfilled) c w es ->
    Next isCommand py s
      (mkSystem py (engine s) w (toWorker s) (toEngine s ++ posted es) (started s)
         (trace s ++ InitialiseSettled i fulfilled :: events WorkerThread c es)).

(** A computation of the worker that only logs and leaves the pending calls
    of [initialise()] alone *)
Definition Silent (py : Pyodide) {A} (m : Worker.M py A) : Prop :=
  forall w c w' es,
    m w = (c, w', es) ->
    Forall isConsoleLog es /\ Worker.initialising w' = Worker.initialising w.

(** ** Reading the trace *)

(** The Engine posts [nextRunCycle] with [response]. *)
Definition postsNext (response : Value) : Event :=
  Did MainThread (PostMessage (msgNextRunCycle response)).

(** At [h] the Engine receives a [runCycleDone] with a recognized command and
    at [j], later, calls the Command Handler with it, which returns [p]. *)
Definition DispatchedAt (isCommand : Value -> bool) (t : list Event)
    (p h j : nat) : Prop :=
  exists data command,
    h < j
    /\ t !! h = Some (Received MainThread data)
    /\ getProp data "eventType" = Normal (VStr "runCycleDone")
    /\ getProp data "scriptEvent" = Normal command
    /\ isCommand command = true
    /\ t !! j = Some (Did MainThread (OnCommand command p)).

Definition isThread (a b : Thread) : bool :=
  match a, b with
  | MainThread, MainThread | WorkerThread, WorkerThread => true
  | _, _ => false
  end.

(** An event that starts a turn *)
Definition isCause (ev : Event) : Prop :=
  match ev with
  | Did _ _ | Uncaught _ _ => False
  | _ => True
  end.

(** The messages that thread [th] posts, and those that it receives, in
    order *)
Definition postedBy (th : Thread) (t : list Event) : list Value :=
  omap (fun ev => match ev with
                  | Did th' (PostMessage data) => if isThread th th' then Some data else None
                  | _ => None
                  end) t.

Definition receivedBy (th : Thread) (t : list Event) : list Value :=
  omap (fun ev => match ev with
                  | Received th' data => if isThread th th' then Some data else None
                  | _ => None
                  end) t.

(** A [runCycleDone] message with a recognized command *)
Definition isCommandMsg (isCommand : Value -> bool) (data : Value) : bool :=
  isMsg "runCycleDone" data
  && match getProp data "scriptEvent" with
     | Normal command => isCommand command
     | Abrupt _ => false
     end.

(** What is left of the one initialisation of a session: [start()] not yet
    called, [initialise] on its way, or a call of [initialise()] pending *)
Definition initialisation {py} (s : System py) : nat :=
  (if started s then 0 else 1)
  + countIf (isMsg "initialise") (toWorker s)
  + length (Worker.initialising (worker s)).

(** Every [nextRunCycle] that the Engine posts, at [i], carries the response
    with which the Command Handler fulfilled, at [k] before [i], the promise
    of a command dispatched at [j] before [k]. *)
Definition Answered (isCommand : Value -> bool) (t : list Event) : Prop :=
  forall i data,
    t !! i = Some (Did MainThread (PostMessage data)) ->
    isMsg "nextRunCycle" data = true ->
    exists response p h j k,
      data = msgNextRunCycle response
      /\ j < k /\ k < i
      /\ DispatchedAt isCommand t p h j
      /\ t !! k = Some (HandlerSettled p (Fulfilled response)).

(** Every promise that waits to post the next cycle belongs to a command
    that was dispatched. *)
Definition PendingDispatched (isCommand : Value -> bool) {py} (s : System py) : Prop :=
  forall p,
    Engine.reactions (engine s) !! p = Some Engine.RNextRunCycle ->
    exists h j, DispatchedAt isCommand (trace s) p h j.

Definition Causal (isCommand : Value -> bool) {py} (s : System py) : Prop :=
  PendingDispatched isCommand s /\ Answered isCommand (trace s).

(** The Engine has posted [initialise]. *)
Definition InitialisePosted (t : list Event) (a : nat) : Prop :=
  t !! a = Some (Did MainThread (PostMessage msgInitialise)).

(** Every [firstRunCycle] that the Engine posts carries the session id and
    comes, in this order, after the Engine posted [initialise], the worker
    posted an [initialiseDone], the Engine received it, and the Engine called
    the Command Handler with the system event [initialized], which
    immediately precedes it. *)
Definition FirstRunCycleOrdered (sessionId : string) (t : list Event) : Prop :=
  forall i data,
    t !! i = Some (Did MainThread (PostMessage data)) ->
    isMsg "firstRunCycle" data = true ->
    data = msgFirstRunCycle (VStr sessionId)
    /\ exists a c d j p done,
        a < c /\ c < d /\ d < j /\ i = S j
        /\ InitialisePosted t a
        /\ isMsg "initialiseDone" done = true
        /\ t !! c = Some (Did WorkerThread (PostMessage done))
        /\ t !! d = Some (Received MainThread done)
        /\ t !! j = Some (Did MainThread (OnCommand (CommandSystemEvent "initialized") p)).

Definition Handshake (sessionId : string) {py} (s : System py) : Prop :=
  Engine.sessionId (engine s) = sessionId
  /\ (started s = true -> exists a, InitialisePosted (trace s) a)
  /\ (forall done,
        done ∈ toEngine s -> isMsg "initialiseDone" done = true ->
        exists a c,
          a < c /\ InitialisePosted (trace s) a
          /\ trace s !! c = Some (Did WorkerThread (PostMessage done)))
  /\ FirstRunCycleOrdered sessionId (trace s).

(** A session whose initialisation is over without an [initialiseDone] *)
Definition Hung {py} (s : System py) : Prop :=
  initialisation s = 0
  /\ countIf (isMsg "initialiseDone") (toEngine s) = 0
  /\ countIf (isMsg "initialiseDone") (postedBy WorkerThread (trace s)) = 0
  /\ countIf (isMsg "firstRunCycle") (postedBy MainThread (trace s)) = 0.

(** The steps of a start in which a loading stage of [initialise()] fails,
    and of one in which all three succeed *)
Definition failingStart : list Step :=
  [CallStart; DeliverToWorker; SettleInitialise 0 true; SettleInitialise 0 false].

Definition successfulStart : list Step :=
  [CallStart; DeliverToWorker; SettleInitialise 0 true; SettleInitialise 0 true;
   SettleInitialise 0 true; DeliverToEngine].

(** The loading stages of [initialise()] that have fulfilled and that have
    rejected in a session *)
Definition stageSettled (fulfilled : bool) (ev : Event) : bool :=
  match ev with
  | InitialiseSettled _ f => Bool.eqb f fulfilled
  | _ => false
  end.

Definition stagesLoaded (t : list Event) : nat := countIf (stageSettled true) t.
Definition stagesFailed (t : list Event) : nat := countIf (stageSettled false) t.

(** The stages that a pending call of [initialise()] has behind it *)
Definition stagesBefore (stage : Worker.InitStage) : nat :=
  match stage with
  | Worker.LoadingPyodide => 0
  | Worker.LoadingPackages => 1
  | Worker.InstallingPort => 2
  end.

(** How far the one initialisation of a session has come: not begun while
    [initialise] is on its way; then as many stages loaded as the pending
    call has behind it; at the end three stages loaded and one
    [initialiseDone] posted, or one stage failed and none posted.  Every
    [initialiseDone] that waits for the Engine and every [firstRunCycle]
    posted is paid for by an [initialiseDone] of the worker. *)
Definition Loading {py} (s : System py) : Prop :=
  let loaded := stagesLoaded (trace s) in
  let failed := stagesFailed (trace s) in
  let done := countIf (isMsg "initialiseDone") (postedBy WorkerThread (trace s)) in
  (started s = false \/ 1 <= countIf (isMsg "initialise") (toWorker s) ->
   loaded = 0 /\ failed = 0)
  /\ match Worker.initialising (worker s) with
     | [] =>
         (loaded = 0 /\ failed = 0 /\ done = 0)
         \/ (loaded = 3 /\ failed = 0 /\ done = 1)
         \/ (loaded < 3 /\ failed = 1 /\ done = 0)
     | [stage] => loaded = stagesBefore stage /\ failed = 0 /\ done = 0
     | _ => False
     end
  /\ countIf (isMsg "initialiseDone") (toEngine s)
     + countIf (isMsg "firstRunCycle") (postedBy MainThread (trace s)) <= done.

(** The counts that every turn keeps: one [initialise] posted once the
    session is started; one initialisation, which leaves at most one
    [initialiseDone], one [firstRunCycle] and one cycle under way; and no more
    [nextRunCycle] posted than commands received. *)
Definition Conserved (isCommand : Value -> bool) {py} (s : System py) : Prop :=
  countIf (isMsg "initialise") (postedBy MainThread (trace s))
    = (if started s then 1 else 0)
  /\ initialisation s
     + countIf (isMsg "initialiseDone") (postedBy WorkerThread (trace s)) <= 1
  /\ initialisation s + countIf (isMsg "initialiseDone") (toEngine s)
     + countIf (isMsg "firstRunCycle") (postedBy MainThread (trace s)) <= 1
  /\ initialisation s + countIf (isMsg "initialiseDone") (toEngine s) + inFlight s <= 1
  /\ countIf (isMsg "nextRunCycle") (postedBy MainThread (trace s)) + outstanding (engine s)
     <= countIf (isCommandMsg isCommand) (receivedBy MainThread (trace s)).

(** ** More of the code: the Engine and the worker under any events *)

(** What can happen to the Engine: the page calls [start()], a message event
    fires, the Command Handler settles a promise.  Nothing is assumed about
    the order, the number of calls of [start()] or who sends the messages. *)
Inductive EngineInput : Type :=
| InStart
| InMessage (data : Value)
| InSettle (promise : nat) (o : Outcome).

Definition engineReact (isCommand : Value -> bool) (i : EngineInput) : Engine.M unit :=
  match i with
  | InStart => Engine.start
  | InMessage data => Engine.onmessage isCommand data
  | InSettle p o => Engine.settle p o
  end.

(** The Engine after the constructor and the inputs, with all its effects in
    order; an error thrown in one turn does not stop the next. *)
Definition engineRun (isCommand : Value -> bool) (sessionId : string)
    (inputs : list EngineInput) : Engine.State * list Effect :=
  fold_left
    (fun acc i =>
       let '(_, e, es) := engineReact isCommand i acc.1 in (e, acc.2 ++ es))
    inputs
    (let '(_, e, es) := Engine.constructor sessionId in (e, es)).

(** The commands with which the Command Handler was called *)
Definition dispatched (es : list Effect) : list Value :=
  omap (fun e => match e with OnCommand command _ => Some command | _ => None end) es.

Definition isStart (i : EngineInput) : bool :=
  match i with InStart => true | _ => false end.

Definition deliversCommand (isCommand : Value -> bool) (i : EngineInput) : bool :=
  match i with InMessage data => isCommandMsg isCommand data | _ => false end.

(** The recognized command that an input delivers in a [runCycleDone] *)
Definition scriptCommand (isCommand : Value -> bool) (i : EngineInput) : option Value :=
  match i with
  | InMessage data =>
      if isCommandMsg isCommand data then
        match getProp data "scriptEvent" with
        | Normal command => Some command
        | Abrupt _ => None
        end
      else None
  | _ => None
  end.

(** [l] is [l1] and [l2] shuffled together: each keeps its order, and
    nothing is added, lost or repeated. *)
Inductive Interleaved {A : Type} : list A -> list A -> list A -> Prop :=
| interleaved_nil : Interleaved [] [] []
| interleaved_left x l1 l2 l :
    Interleaved l1 l2 l -> Interleaved (x :: l1) l2 (x :: l)
| interleaved_right x l1 l2 l :
    Interleaved l1 l2 l -> Interleaved l1 (x :: l2) (x :: l).

(** 1 while the promise of the latest [start()] is pending *)
Definition awaitingInitialisation (e : Engine.State) : nat :=
  match Engine.resolveInitialized e with
  | Some Engine.InitPending => 1
  | _ => 0
  end.

(** The three messages of the Engine *)
Definition EngineMessage (sessionId : string) (inputs : list EngineInput)
    (data : Value) : Prop :=
  data = msgInitialise
  \/ data = msgFirstRunCycle (VStr sessionId)
  \/ exists response p,
       data = msgNextRunCycle response /\ In (InSettle p (Fulfilled response)) inputs.

(** The commands of the Engine: its own two, and recognized commands that
    came in a [runCycleDone] *)
Definition EngineCommand (isCommand : Value -> bool) (sessionId : string)
    (inputs : list EngineInput) (command : Value) : Prop :=
  command = CommandSystemDonate (sessionId +:+ "-tracking") userStartedJson
  \/ command = CommandSystemEvent "initialized"
  \/ (isCommand command = true
      /\ exists data,
           In (InMessage data) inputs
           /\ getProp data "eventType" = Normal (VStr "runCycleDone")
           /\ getProp data "scriptEvent" = Normal command).

Definition EngineInvariant (isCommand : Value -> bool) (sessionId : string)
    (inputs : list EngineInput) (r : Engine.State * list Effect) : Prop :=
  let '(e, es) := r in
  Engine.sessionId e = sessionId
  /\ countIf (isMsg "initialise") (posted es) = countIf isStart inputs
  /\ countIf (isMsg "firstRunCycle") (posted es) + awaitingInitialisation e
     <= countIf isStart inputs
  /\ countIf (isMsg "nextRunCycle") (posted es) + outstanding e
     <= countIf (deliversCommand isCommand) inputs
  /\ length (dispatched es)
     = 1 + countIf (isMsg "firstRunCycle") (posted es)
       + countIf (deliversCommand isCommand) inputs
  /\ Engine.nextPromise e = length (dispatched es)
  /\ Forall (EngineMessage sessionId inputs) (posted es)
  /\ Forall (EngineCommand isCommand sessionId inputs) (dispatched es).

(** What can happen to the worker: a message event fires, or the pending
    promise of the [i]-th call of [initialise()] settles. *)
Inductive WorkerInput : Type :=
| WMessage (data : Value)
| WInitialiseSettles (i : nat) (fulfilled : bool).

Definition workerReact (py : Pyodide) (i : WorkerInput) : Worker.M py unit :=
  match i with
  | WMessage data => Worker.onmessage py data
  | WInitialiseSettles i fulfilled => Worker.initialiseSettles py i fulfilled
  end.

Definition workerRun (py : Pyodide) (inputs : list WorkerInput)
    : Worker.State py * list Effect :=
  fold_left
    (fun acc i =>
       let '(_, w, es) := workerReact py i acc.1 in (w, acc.2 ++ es))
    inputs (Worker.initial py, []).

Definition deliversRunCycle (i : WorkerInput) : bool :=
  match i with WMessage data => isRunCycle data | _ => false end.

Definition deliversInitialise (i : WorkerInput) : bool :=
  match i with WMessage data => isMsg "initialise" data | _ => false end.

Definition WorkerMessage (data : Value) : Prop :=
  data = msgInitialiseDone \/ exists scriptEvent, data = msgRunCycleDone scriptEvent.

Definition WorkerInvariant (py : Pyodide) (inputs : list WorkerInput)
    (r : Worker.State py * list Effect) : Prop :=
  let '(w, es) := r in
  countIf (isMsg "runCycleDone") (posted es) <= countIf deliversRunCycle inputs
  /\ countIf (isMsg "initialiseDone") (posted es) + length (Worker.initialising w)
     <= countIf deliversInitialise inputs
  /\ Forall WorkerMessage (posted es).

(** A session in which nothing is under way: the initialisation is over, no
    [initialiseDone] waits, and no cycle is in flight *)
Definition Stalled {py} (s : System py) : Prop :=
  initialisation s = 0
  /\ countIf (isMsg "initialiseDone") (toEngine s) = 0
  /\ inFlight s = 0.

(** A stalled session that has posted [n] and [m] messages *)
Definition StalledWith (n m : nat) {py} (s : System py) : Prop :=
  Stalled s
  /\ countIf (fun _ => true) (postedBy MainThread (trace s)) = n
  /\ countIf (fun _ => true) (postedBy WorkerThread (trace s)) = m.

(** A script whose first yield is not a command *)
Definition junkScript : list (Completion Value) := [Normal (VStr "junk")].

(** ** More of the code: the donation page around [renderBody] *)

(** [v == null]: [null] or [undefined] *)
Definition isNullish (v : Value) : bool :=
  match v with VUndefined | VNull => true | _ => false end.

(** [a ?? b] *)
Definition nullishCoalesce (a b : Value) : Value := if isNullish a then b else a.

(** ToBoolean; there is no NaN among the numbers modelled. *)
Definition truthy (v : Value) : bool :=
  match v with
  | VUndefined | VNull => false
  | VBool b => b
  | VNum n => negb (Z.eqb n 0)
  | VStr s => negb (String.eqb s "")
  | VFile _ _ | VArr _ | VObj _ => true
  end.

(** [a || b] *)
Definition jsOr (a b : Value) : Value := if truthy a then a else b.

Module DonationPageView.

Section Code.

Variable Resolve : Type.
Variables isPropsUIPromptFileInput isPropsUIPromptConfirm isPropsUIPromptConsentForm
  isPropsUIPromptRadioInput isPropsUIPromptQuestionnaire : Value -> bool.

(** [Translator.translate(text, locale)] of [translator], which is not among
    the sources *)
Variable translate : Value -> string -> string.

(** [<Footer middle={<Progress percentage={p} />} />], by [p] *)
Record FooterElement : Type := mkFooter { percentage : Value }.

(** [<Page body={<><Title1 text={title} />{prompt}</>} footer={<>{footer}</>} />] *)
Record PageElement : Type := mkPage {
  title1 : string;
  prompt : DonationPage.Element Resolve;
  pageFooter : option FooterElement;
}.

(** [props.footer?.progressPercentage]: [undefined] for a nullish footer *)
Definition footerProgress (footer : Value) : Value :=
  match getProp footer "progressPercentage" with
  | Normal v => v
  | Abrupt _ => VUndefined
  end.

Definition renderFooter (props : DonationPage.Props Resolve) : option FooterElement :=
  if negb (isNullish (DonationPage.footer Resolve props))
  then Some (mkFooter (nullishCoalesce (footerProgress (DonationPage.footer Resolve props))
                         (VNum 0)))
  else None.

(** The parameter [{ header: { title }, locale }] is destructured: a nullish
    header cannot be, and throws. *)
Definition prepareCopy (props : DonationPage.Props Resolve) : Completion string :=
  let header := DonationPage.header Resolve props in
  if isNullish header then
    Abrupt (TypeError ("Cannot destructure property 'title' of '" +:+ toStr header +:+ "'"))
  else
    match getProp header "title" with
    | Normal title => Normal (translate title (DonationPage.locale props))
    | Abrupt e => Abrupt e
    end.

(** The component: the copy, the footer, then the body *)
Definition DonationPage (props : DonationPage.Props Resolve) : Completion PageElement :=
  match prepareCopy props with
  | Abrupt e => Abrupt e
  | Normal title =>
      let footer := renderFooter props in
      match DonationPage.renderBody Resolve isPropsUIPromptFileInput isPropsUIPromptConfirm
              isPropsUIPromptConsentForm isPropsUIPromptRadioInput
              isPropsUIPromptQuestionnaire props with
      | Abrupt e => Abrupt e
      | Normal body => Normal (mkPage title body footer)
      end
  end.

End Code.

End DonationPageView.

(** ** More of the code: [index.tsx] *)

Module Index.

(** [params.get('platform') || process.env.REACT_APP_RELEASE_PLATFORM || 'all']:
    [param] is a string or [null], [env] a string or [undefined]. *)
Definition releasePlatform (param env : Value) : Value :=
  jsOr (jsOr param env) (VStr "all").

Definition hyphen : Ascii.ascii := Ascii.ascii_of_nat 45.

(** The first element of [s.split('-')]: [s] up to its first hyphen *)
Fixpoint firstPart (s : string) : string :=
  match s with
  | EmptyString => EmptyString
  | String c rest =>
      if Ascii.eqb c hyphen then EmptyString else String c (firstPart rest)
  end.

(** [const [langPart] = navigator.language.split('-')] and
    [langPart !== '' ? langPart : 'en'] *)
Definition browserLang (language : string) : string :=
  let langPart := firstPart language in
  if negb (String.eqb langPart "") then langPart else "en".

Fixpoint contains (c : Ascii.ascii) (s : string) : bool :=
  match s with
  | EmptyString => false
  | String c' rest => Ascii.eqb c' c || contains c rest
  end.

End Index.

(** * Properties *)

Ltac run_js :=
  cbv [bind ret throw tryCatch gets modify emit eval console_log postMessage].
Ltac run_js_in H :=
  cbv [bind ret throw tryCatch gets modify emit eval console_log postMessage] in H.

(** ** The Engine, one turn at a time *)

Section EngineFacts.

Variable isCommand : Value -> bool.

Lemma onCommandThen_eq command r e :
  Engine.onCommandThen command r e =
  (Normal tt,
   Engine.mkEngine (Engine.sessionId e) (Engine.resolveInitialized e)
     (<[Engine.nextPromise e := r]> (Engine.reactions e)) (S (Engine.nextPromise e)),
   [OnCommand command (Engine.nextPromise e)]).
Proof. reflexivity. Qed.

Lemma settle_not_pending p o e :
  Engine.reactions e !! p = None -> Engine.settle p o e = (Normal tt, e, []).
Proof.
  intros H. unfold Engine.settle. run_js. rewrite H. reflexivity.
Qed.

Lemma settle_noop p o e :
  Engine.reactions e !! p = Some Engine.RNoop ->
  Engine.settle p o e =
  (Normal tt, Engine.setReactions (delete p (Engine.reactions e)) e, []).
Proof.
  intros H. unfold Engine.settle. run_js. rewrite H. destruct o; reflexivity.
Qed.

Lemma settle_next_fulfilled p response e :
  Engine.reactions e !! p = Some Engine.RNextRunCycle ->
  Engine.settle p (Fulfilled response) e =
  (Normal tt, Engine.setReactions (delete p (Engine.reactions e)) e,
   [ConsoleLog [VStr "next cycle"]; PostMessage (msgNextRunCycle response)]).
Proof.
  intros H. unfold Engine.settle. run_js. rewrite H. reflexivity.
Qed.

Lemma settle_next_rejected p reason e :
  Engine.reactions e !! p = Some Engine.RNextRunCycle ->
  Engine.settle p (Rejected reason) e =
  (Normal tt, Engine.setReactions (delete p (Engine.reactions e)) e, []).
Proof.
  intros H. unfold Engine.settle. run_js. rewrite H. reflexivity.
Qed.

Lemma onmessage_runCycleDone data scriptEvent e :
  getProp data "eventType" = Normal (VStr "runCycleDone") ->
  getProp data "scriptEvent" = Normal scriptEvent ->
  Engine.onmessage isCommand data e =
  let '(c, e', es) := Engine.handleRunCycle isCommand scriptEvent e in
  (c, e',
   [ConsoleLog [VStr "[WorkerProcessingEngine] Received event from worker: "; VStr "runCycleDone"];
    ConsoleLog [VStr "[ReactEngine] received eventType: "; VStr "runCycleDone"];
    ConsoleLog [VStr "[ReactEngine] received: event"; scriptEvent]] ++ es).
Proof.
  intros Ht Hs. unfold Engine.onmessage, Engine.handleEvent. run_js.
  rewrite Ht. cbn [strictEqStr String.eqb Ascii.eqb Bool.eqb]. rewrite Hs.
  destruct (Engine.handleRunCycle isCommand scriptEvent e) as [[c e'] es].
  reflexivity.
Qed.

Lemma onmessage_initialiseDone data e :
  getProp data "eventType" = Normal (VStr "initialiseDone") ->
  Engine.onmessage isCommand data e =
  let '(c, e', es) := Engine.callResolveInitialized e in
  (c, e',
   [ConsoleLog [VStr "[WorkerProcessingEngine] Received event from worker: "; VStr "initialiseDone"];
    ConsoleLog [VStr "[ReactEngine] received eventType: "; VStr "initialiseDone"];
    ConsoleLog [VStr "[ReactEngine] received: initialiseDone"]] ++ es).
Proof.
  intros Ht. unfold Engine.onmessage, Engine.handleEvent. run_js.
  rewrite Ht. cbn [strictEqStr String.eqb Ascii.eqb Bool.eqb].
  destruct (Engine.callResolveInitialized e) as [[c e'] es].
  reflexivity.
Qed.

Lemma onmessage_unsupported data eventType e :
  getProp data "eventType" = Normal eventType ->
  strictEqStr eventType "initialiseDone" = false ->
  strictEqStr eventType "runCycleDone" = false ->
  Engine.onmessage isCommand data e =
  (Normal tt, e,
   [ConsoleLog [VStr "[WorkerProcessingEngine] Received event from worker: "; eventType];
    ConsoleLog [VStr "[ReactEngine] received eventType: "; eventType];
    ConsoleLog [VStr "[ReactEngine] received unsupported flow event: "; eventType]]).
Proof.
  intros Ht H1 H2. unfold Engine.onmessage, Engine.handleEvent. run_js.
  rewrite Ht, H1, H2. reflexivity.
Qed.

Lemma onmessage_no_data data err e :
  getProp data "eventType" = Abrupt err ->
  Engine.onmessage isCommand data e = (Abrupt err, e, []).
Proof.
  intros Ht. unfold Engine.onmessage. run_js. rewrite Ht. reflexivity.
Qed.

Lemma callResolveInitialized_pending e :
  Engine.resolveInitialized e = Some Engine.InitPending ->
  Engine.callResolveInitialized e =
  (Normal tt,
   Engine.mkEngine (Engine.sessionId e) (Some Engine.InitResolved)
     (<[Engine.nextPromise e := Engine.RNoop]> (Engine.reactions e))
     (S (Engine.nextPromise e)),
   [OnCommand (CommandSystemEvent "initialized") (Engine.nextPromise e);
    PostMessage (msgFirstRunCycle (VStr (Engine.sessionId e)))]).
Proof.
  intros H. unfold Engine.callResolveInitialized. run_js. rewrite H. reflexivity.
Qed.

End EngineFacts.

(** ** The worker, one turn at a time *)

Section WorkerFacts.

Variable py : Pyodide.

Lemma runCycle_raises w payload error w' :
  Raises py w payload error w' ->
  Worker.runCycle py payload w =
  (Normal tt, w',
   [runCycleLog payload;
    PostMessage (msgRunCycleDone (Worker.generateErrorMessage (toString error)))]).
Proof.
  intros H. unfold Worker.runCycle. run_js.
  destruct H as [Hs | sc sc' error Hs Hsend | sc sc' y error Hs Hsend Hjs]; rewrite Hs.
  - reflexivity.
  - rewrite Hsend. reflexivity.
  - rewrite Hsend. cbn. rewrite Hjs. reflexivity.
Qed.

Lemma runCycle_yields w payload sc sc' yielded command :
  Worker.pyScript w = Some sc ->
  send py sc payload = (Normal yielded, sc') ->
  toJs py yielded = Normal command ->
  Worker.runCycle py payload w =
  (Normal tt, Worker.setPyScript py (Some sc') w,
   [runCycleLog payload; PostMessage (msgRunCycleDone command)]).
Proof.
  intros Hs Hsend Hjs. unfold Worker.runCycle. run_js.
  rewrite Hs, Hsend. cbn. rewrite Hjs. reflexivity.
Qed.

(** [runCycle] never throws and posts one message, a [runCycleDone]. *)
Lemma runCycle_posts_once w payload :
  exists w' scriptEvent,
    Worker.runCycle py payload w =
    (Normal tt, w', [runCycleLog payload; PostMessage (msgRunCycleDone scriptEvent)])
    /\ Worker.pyodide w' = Worker.pyodide w
    /\ Worker.initialising w' = Worker.initialising w.
Proof.
  destruct (Worker.pyScript w) as [sc|] eqn:Hs.
  - destruct (send py sc payload) as [[y|err] sc'] eqn:Hsend.
    + destruct (toJs py y) as [command|err] eqn:Hjs.
      * eexists _, _. split; [eapply runCycle_yields; eauto|]. split; reflexivity.
      * eexists _, _. split; [eapply runCycle_raises, raises_toJs; eauto|].
        split; reflexivity.
    + eexists _, _. split; [eapply runCycle_raises, raises_send; eauto|].
      split; reflexivity.
  - eexists _, _. split; [eapply runCycle_raises, raises_no_script; eauto|].
    split; reflexivity.
Qed.

Lemma onmessage_unsupported_worker data eventType w :
  getProp data "eventType" = Normal eventType ->
  strictEqStr eventType "initialise" = false ->
  strictEqStr eventType "firstRunCycle" = false ->
  strictEqStr eventType "nextRunCycle" = false ->
  Worker.onmessage py data w =
  (Normal tt, w,
   [ConsoleLog [VStr "[ProcessingWorker] Received unsupported event: "; eventType]]).
Proof.
  intros Ht H1 H2 H3. unfold Worker.onmessage. run_js.
  rewrite Ht, H1, H2, H3. reflexivity.
Qed.

Lemma unwrap_passes_through response payload type w :
  getProp response "payload" = Normal payload ->
  getProp payload "__type__" = Normal type ->
  strictEqStr type "PayloadFile" = false ->
  Worker.unwrap py response w = (Normal (Fulfilled payload), w, [unwrapLog payload]).
Proof.
  intros Hp Ht Hf. unfold Worker.unwrap, Worker.newPromise. run_js.
  rewrite Hp, Ht, Hf. reflexivity.
Qed.

Lemma copyFileToPyFS_mounts name content fs w :
  Worker.pyodide w = Some fs ->
  fs !! "/file-input" ≠ Some None ->
  Worker.copyFileToPyFS py (VFile name content) w =
  (Normal (PayloadString ("/file-input/" +:+ name)),
   Worker.setPyodide py (Some (<["/file-input" := Some [(name, content)]]> fs)) w, []).
Proof.
  intros Hfs Hdir.
  unfold Worker.copyFileToPyFS, Worker.FS_call, Worker.self_pyodide. run_js.
  rewrite Hfs. unfold FS_exists.
  destruct (fs !! "/file-input") as [[files|]|] eqn:Hl; [ | congruence | ].
  - rewrite bool_decide_true by eauto. cbn [negb]. cbn [Worker.pyodide].
    rewrite Hfs. unfold FS_unmount. rewrite Hl. cbn.
    unfold FS_mount. rewrite lookup_insert_eq. cbn.
    rewrite insert_insert_eq. reflexivity.
  - rewrite bool_decide_false by (intros [? ?]; congruence). cbn [negb].
    cbn [Worker.pyodide]. rewrite Hfs. unfold FS_mkdir. rewrite Hl. cbn.
    unfold FS_mount. rewrite lookup_insert_eq. cbn.
    rewrite insert_insert_eq. reflexivity.
Qed.

Lemma onmessage_nextRunCycle response w :
  Worker.onmessage py (msgNextRunCycle response) w =
  match Worker.unwrap py response w with
  | (Normal (Fulfilled userInput), w1, es1) =>
      let '(c, w2, es2) := Worker.runCycle py userInput w1 in (c, w2, es1 ++ es2)
  | (Normal (Rejected _), w1, es1) => (Normal tt, w1, es1)
  | (Abrupt e, w1, es1) => (Abrupt e, w1, es1)
  end.
Proof.
  unfold Worker.onmessage. run_js. cbn -[Worker.unwrap Worker.runCycle].
  destruct (Worker.unwrap py response w) as [[[[v|r]|e] w1] es1]; try reflexivity.
  - destruct (Worker.runCycle py v w1) as [[c w2] es2]. reflexivity.
  - rewrite app_nil_r. reflexivity.
Qed.

(** [runCycle] resumes the script with its argument, whatever comes of it. *)
Lemma runCycle_sends w payload sc :
  Worker.pyScript w = Some sc ->
  (Worker.runCycle py payload w).1.2
  = Worker.setPyScript py (Some (send py sc payload).2) w.
Proof.
  intros Hs. unfold Worker.runCycle. run_js. rewrite Hs.
  destruct (send py sc payload) as [[y|err] sc']; cbn; [|reflexivity].
  destruct (toJs py y); reflexivity.
Qed.

(** [copyFileToPyFS] touches the file system only, and logs nothing. *)
Lemma copyFileToPyFS_frame file w :
  exists c w1,
    Worker.copyFileToPyFS py file w = (c, w1, [])
    /\ Worker.pyScript w1 = Worker.pyScript w
    /\ Worker.initialising w1 = Worker.initialising w.
Proof.
  unfold Worker.copyFileToPyFS, Worker.FS_call, Worker.self_pyodide. run_js.
  destruct (Worker.pyodide w) as [fs|] eqn:Hfs; cbn;
    [|eexists _, _; split; [reflexivity|]; split; reflexivity].
  destruct (FS_exists "/file-input" fs); cbn; rewrite ?Hfs; cbn.
  - destruct (FS_unmount "/file-input" fs) as [fs1|err]; cbn;
      [|eexists _, _; split; [reflexivity|]; split; reflexivity].
    destruct (FS_mount [file] "/file-input" fs1) as [fs2|err]; cbn;
      [|eexists _, _; split; [reflexivity|]; split; reflexivity].
    destruct (getProp file "name"); cbn;
      eexists _, _; (split; [reflexivity|]); split; reflexivity.
  - destruct (FS_mkdir "/file-input" fs) as [fs1|err]; cbn;
      [|eexists _, _; split; [reflexivity|]; split; reflexivity].
    destruct (FS_mount [file] "/file-input" fs1) as [fs2|err]; cbn;
      [|eexists _, _; split; [reflexivity|]; split; reflexivity].
    destruct (getProp file "name"); cbn;
      eexists _, _; (split; [reflexivity|]); split; reflexivity.
Qed.

(** A promise made by [unwrap] settles in the turn that made it. *)
Lemma unwrap_settles response payload w :
  getProp response "payload" = Normal payload ->
  exists o w1,
    Worker.unwrap py response w = (Normal o, w1, [unwrapLog payload])
    /\ Worker.pyScript w1 = Worker.pyScript w
    /\ Worker.initialising w1 = Worker.initialising w.
Proof.
  intros Hp. unfold Worker.unwrap. run_js. rewrite Hp.
  cbn -[Worker.newPromise JSON_stringify].
  unfold Worker.newPromise.
  destruct (getProp payload "__type__") as [type|err]; cbn;
    [|eexists _, _; split; [reflexivity|]; split; reflexivity].
  destruct (strictEqStr type "PayloadFile"); cbn;
    [|eexists _, _; split; [reflexivity|]; split; reflexivity].
  destruct (getProp payload "value") as [file|err]; cbn;
    [|eexists _, _; split; [reflexivity|]; split; reflexivity].
  destruct (copyFileToPyFS_frame file w) as (c & w1 & Hc & Hs & Hi).
  rewrite Hc. destruct c; cbn; eexists _, _; (split; [reflexivity|]); split; assumption.
Qed.

End WorkerFacts.

(** ** Claims about one turn *)

(** C4.  A [runCycleDone] event whose [scriptEvent] is not a recognized
    command: the Engine logs, posts nothing to the worker, calls no handler,
    does not throw, and is left as it was, so nothing it has pending can post
    a [nextRunCycle] for this event later.  In the session the message is
    taken off the queue and the queue to the worker stays as it is. *)
Theorem unrecognized_command_stops_cycle
    (isCommand : Value -> bool) (py : Pyodide)
    (e : Engine.State) (data scriptEvent : Value) :
  getProp data "eventType" = Normal (VStr "runCycleDone") ->
  getProp data "scriptEvent" = Normal scriptEvent ->
  isCommand scriptEvent = false ->
  (exists logs,
     Engine.onmessage isCommand data e = (Normal tt, e, logs)
     /\ Forall isConsoleLog logs /\ posted logs = [])
  /\ Engine.handleRunCycle isCommand scriptEvent e = (Normal tt, e, [])
  /\ (forall (s : System py) rest,
        engine s = e -> toEngine s = data :: rest ->
        let s' := step isCommand py s DeliverToEngine in
        engine s' = e /\ toWorker s' = toWorker s /\ toEngine s' = rest).
Proof.
  intros Ht Hs Hc.
  assert (Hh : Engine.handleRunCycle isCommand scriptEvent e = (Normal tt, e, [])).
  { unfold Engine.handleRunCycle. rewrite Hc. reflexivity. }
  assert (Hm := onmessage_runCycleDone isCommand data scriptEvent e Ht Hs).
  rewrite Hh in Hm. cbn in Hm.
  split; [|split].
  - eexists. split; [exact Hm|]. split; [|reflexivity].
    repeat constructor.
  - exact Hh.
  - intros s rest He Hq. cbn. rewrite Hq, He, Hm. cbn.
    rewrite app_nil_r. auto.
Qed.

Lemma unrecognized_command_stops_cycle_witness :
  let data := msgRunCycleDone (VObj [("__type__", VStr "CommandBogus")]) in
  (exists logs,
     Engine.onmessage isCommandByTag data demoEngine = (Normal tt, demoEngine, logs)
     /\ Forall isConsoleLog logs /\ posted logs = []).
Proof.
  apply (unrecognized_command_stops_cycle isCommandByTag (scriptedPyodide []) demoEngine
           (msgRunCycleDone (VObj [("__type__", VStr "CommandBogus")]))
           (VObj [("__type__", VStr "CommandBogus")])); reflexivity.
Defined.

(** C6.  A [runCycleDone] event with a recognized command: the Engine calls
    the Command Handler with that command, attaches the reaction that posts
    the next cycle, and posts nothing yet.  When the handler's promise fulfils
    with a response the Engine posts [nextRunCycle] with that response; when
    it rejects the Engine does nothing: no message, no second call of the
    handler, no throw.  Either way the promise is no longer pending. *)
Theorem recognized_command_round_trip
    (isCommand : Value -> bool) (e : Engine.State) (command : Value) :
  isCommand command = true ->
  let p := Engine.nextPromise e in
  exists logs e1,
    Engine.onmessage isCommand (msgRunCycleDone command) e
      = (Normal tt, e1, logs ++ [OnCommand command p])
    /\ Forall isConsoleLog logs
    /\ Engine.handleRunCycle isCommand command e = (Normal tt, e1, [OnCommand command p])
    /\ Engine.reactions e1 = <[p := Engine.RNextRunCycle]> (Engine.reactions e)
    /\ (forall response, exists e2,
          Engine.settle p (Fulfilled response) e1
            = (Normal tt, e2,
               [ConsoleLog [VStr "next cycle"]; PostMessage (msgNextRunCycle response)])
          /\ Engine.reactions e2 !! p = None)
    /\ (forall reason, exists e2,
          Engine.settle p (Rejected reason) e1 = (Normal tt, e2, [])
          /\ Engine.reactions e2 !! p = None).
Proof.
  intros Hc p.
  assert (Hh : Engine.handleRunCycle isCommand command e
               = Engine.onCommandThen command Engine.RNextRunCycle e).
  { unfold Engine.handleRunCycle. rewrite Hc. reflexivity. }
  rewrite onCommandThen_eq in Hh.
  assert (Hm := onmessage_runCycleDone isCommand (msgRunCycleDone command) command e
                  eq_refl eq_refl).
  rewrite Hh in Hm.
  eexists _, _. split; [exact Hm|].
  split; [repeat constructor|]. split; [exact Hh|]. split; [reflexivity|].
  split.
  - intros response. eexists. split.
    + apply settle_next_fulfilled. cbn. apply lookup_insert_eq.
    + cbn. apply lookup_delete_eq.
  - intros reason. eexists. split.
    + apply settle_next_rejected. cbn. apply lookup_insert_eq.
    + cbn. apply lookup_delete_eq.
Qed.

Lemma recognized_command_round_trip_witness :
  isCommandByTag (CommandSystemEvent "ping") = true
  /\ exists e2,
       Engine.settle 0 (Rejected (mkError "Error: no"))
         (Engine.handleRunCycle isCommandByTag (CommandSystemEvent "ping") demoEngine).1.2
       = (Normal tt, e2, []).
Proof.
  split; [reflexivity|].
  destruct (recognized_command_round_trip isCommandByTag demoEngine
              (CommandSystemEvent "ping") eq_refl)
    as (logs & e1 & _ & _ & Hh & _ & _ & Hrej).
  destruct (Hrej (mkError "Error: no")) as (e2 & Hs & _).
  exists e2. rewrite Hh. exact Hs.
Defined.

(** C10.  A message whose [eventType] is none of the types that the receiver
    handles: the Engine and the worker each only write to the console; their
    state is unchanged, nothing is posted, no handler is called and nothing
    is thrown. *)
Theorem unknown_event_ignored
    (isCommand : Value -> bool) (py : Pyodide) (data eventType : Value) :
  getProp data "eventType" = Normal eventType ->
  (strictEqStr eventType "initialiseDone" = false ->
   strictEqStr eventType "runCycleDone" = false ->
   forall e, exists logs,
     Engine.onmessage isCommand data e = (Normal tt, e, logs)
     /\ Forall isConsoleLog logs)
  /\ (strictEqStr eventType "initialise" = false ->
      strictEqStr eventType "firstRunCycle" = false ->
      strictEqStr eventType "nextRunCycle" = false ->
      forall w, exists logs,
        Worker.onmessage py data w = (Normal tt, w, logs)
        /\ Forall isConsoleLog logs).
Proof.
  intros Ht. split.
  - intros H1 H2 e. eexists. split.
    + apply (onmessage_unsupported isCommand data eventType e Ht H1 H2).
    + repeat constructor.
  - intros H1 H2 H3 w. eexists. split.
    + apply (onmessage_unsupported_worker py data eventType w Ht H1 H2 H3).
    + repeat constructor.
Qed.

Lemma unknown_event_ignored_witness :
  let data := VObj [("eventType", VStr "terminate")] in
  (exists logs,
     Engine.onmessage isCommandByTag data demoEngine = (Normal tt, demoEngine, logs)
     /\ Forall isConsoleLog logs)
  /\ (exists logs,
        Worker.onmessage (scriptedPyodide demoScript) data demoWorker
          = (Normal tt, demoWorker, logs)
        /\ Forall isConsoleLog logs).
Proof.
  destruct (unknown_event_ignored isCommandByTag (scriptedPyodide demoScript)
              (VObj [("eventType", VStr "terminate")]) (VStr "terminate") eq_refl)
    as [He Hw].
  split.
  - apply (He eq_refl eq_refl demoEngine).
  - apply (Hw eq_refl eq_refl eq_refl demoWorker).
Defined.

(** C5.  However advancing the script fails during a run cycle (no script,
    the script raises, or its yield does not convert), [runCycle] catches the
    error, does not throw, and posts one [runCycleDone] whose [scriptEvent] is
    a [CommandUIRender] with a [PropsUIPageError] page carrying
    [error.toString()].  That command has the tag and the [page] of a
    command, and an Engine that recognizes it hands it to the Command
    Handler, whose response will start the next cycle. *)
Theorem script_fault_becomes_error_page
    (py : Pyodide) (w w' : Worker.State py) (payload : Value) (error : Error) :
  Raises py w payload error w' ->
  let errorPage :=
    VObj [("__type__", VStr "CommandUIRender");
          ("page", VObj [("__type__", VStr "PropsUIPageError");
                         ("stacktrace", VStr (toString error))])] in
  Worker.generateErrorMessage (toString error) = errorPage
  /\ Worker.runCycle py payload w
     = (Normal tt, w', [runCycleLog payload; PostMessage (msgRunCycleDone errorPage)])
  /\ isCommandByTag errorPage = true
  /\ (forall isCommand e, isCommand errorPage = true ->
        exists logs e1,
          Engine.onmessage isCommand (msgRunCycleDone errorPage) e
            = (Normal tt, e1, logs ++ [OnCommand errorPage (Engine.nextPromise e)])
          /\ Forall isConsoleLog logs
          /\ Engine.reactions e1 !! Engine.nextPromise e = Some Engine.RNextRunCycle).
Proof.
  intros H errorPage. split; [reflexivity|]. split; [|split].
  - apply (runCycle_raises py w payload error w' H).
  - reflexivity.
  - intros isCommand e Hc.
    assert (Hh : Engine.handleRunCycle isCommand errorPage e
                 = Engine.onCommandThen errorPage Engine.RNextRunCycle e).
    { unfold Engine.handleRunCycle. rewrite Hc. reflexivity. }
    rewrite onCommandThen_eq in Hh.
    assert (Hm := onmessage_runCycleDone isCommand (msgRunCycleDone errorPage) errorPage e
                    eq_refl eq_refl).
    rewrite Hh in Hm.
    eexists _, _. split; [exact Hm|]. split; [repeat constructor|].
    cbn. apply lookup_insert_eq.
Qed.

Lemma script_fault_becomes_error_page_witness :
  Raises (scriptedPyodide demoScript) demoWorker (VStr "input")
    (mkError "PythonError: boom")
    (Worker.setPyScript (scriptedPyodide demoScript) (Some []) demoWorker)
  /\ Worker.runCycle (scriptedPyodide demoScript) (VStr "input") demoWorker
     = (Normal tt, Worker.setPyScript (scriptedPyodide demoScript) (Some []) demoWorker,
        [runCycleLog (VStr "input");
         PostMessage (msgRunCycleDone
           (VObj [("__type__", VStr "CommandUIRender");
                  ("page", VObj [("__type__", VStr "PropsUIPageError");
                                 ("stacktrace", VStr "PythonError: boom")])]))]).
Proof.
  assert (H : Raises (scriptedPyodide demoScript) demoWorker (VStr "input")
                (mkError "PythonError: boom")
                (Worker.setPyScript (scriptedPyodide demoScript) (Some []) demoWorker)).
  { eapply (raises_send (scriptedPyodide demoScript) demoWorker (VStr "input")
              (tail demoScript) [] (mkError "PythonError: boom")); reflexivity. }
  split; [exact H|].
  apply (script_fault_becomes_error_page _ _ _ _ _ H).
Defined.

(** Starting the script is outside the [try] of [runCycle]: when
    [port.start(...)] raises, [onmessage] throws and nothing is posted. *)
Lemma firstRunCycle_start_fault (py : Pyodide) (w : Worker.State py) sessionId fs error :
  Worker.pyodide w = Some fs ->
  runPython py ("port.start(" +:+ toStr sessionId +:+ ")") = Abrupt error ->
  Worker.onmessage py (msgFirstRunCycle sessionId) w = (Abrupt error, w, []).
Proof.
  intros Hfs Hrun.
  unfold Worker.onmessage, Worker.self_pyodide. run_js. cbn -[Worker.runCycle].
  rewrite Hfs, Hrun. reflexivity.
Qed.

(** C7.  The Engine's [firstRunCycle] posts its session id, a string.  On
    that message, with the interpreter loaded, the worker evaluates the Python
    source text [port.start(<id>)], into which the characters of the id are
    put as they are, without quotes: for the id [abc123] the text is
    [port.start(abc123)], which names a Python variable.  When evaluating the
    text raises, [onmessage] throws: the call is outside the [try] of
    [runCycle], no script is kept and nothing is posted, so that the session
    started by a successful initialisation comes to rest without a first
    command.  When the text evaluates to a script, the worker keeps it,
    resumes it with [null] and, when it yields a value that converts to
    [command], posts one [runCycleDone] with that command and nothing else. *)
Theorem firstRunCycle_interpolates_session_id
    (isCommand : Value -> bool) (py : Pyodide) (w : Worker.State py) (e : Engine.State)
    (fs : FS) :
  Worker.pyodide w = Some fs ->
  let sessionId := Engine.sessionId e in
  let source := "port.start(" +:+ sessionId +:+ ")" in
  Engine.firstRunCycle e = (Normal tt, e, [PostMessage (msgFirstRunCycle (VStr sessionId))])
  /\ (forall error,
        runPython py source = Abrupt error ->
        Worker.onmessage py (msgFirstRunCycle (VStr sessionId)) w = (Abrupt error, w, [])
        /\ let s := run isCommand py sessionId (successfulStart ++ [DeliverToWorker]) in
           postedBy MainThread (trace s) = [msgInitialise; msgFirstRunCycle (VStr sessionId)]
           /\ postedBy WorkerThread (trace s) = [msgInitialiseDone]
           /\ Worker.pyScript (worker s) = None
           /\ last (trace s) = Some (Uncaught WorkerThread error)
           /\ Stalled s)
  /\ (forall script script' yielded command,
        runPython py source = Normal script ->
        send py script VNull = (Normal yielded, script') ->
        toJs py yielded = Normal command ->
        Worker.onmessage py (msgFirstRunCycle (VStr sessionId)) w
        = (Normal tt, Worker.setPyScript py (Some script') w,
           [runCycleLog VNull; PostMessage (msgRunCycleDone command)])).
Proof.
  intros Hfs sessionId source. split; [reflexivity|]. split.
  - intros error Hrun. split.
    + apply (firstRunCycle_start_fault py w (VStr sessionId) fs error Hfs Hrun).
    + unfold run. rewrite fold_left_app.
      cbn. fold sessionId. fold source. rewrite Hrun. cbn.
      split; [reflexivity|]. split; [reflexivity|]. split; [reflexivity|].
      split; [reflexivity|]. repeat split; vm_compute; reflexivity.
  - intros script script' yielded command Hrun Hsend Hjs.
    unfold Worker.onmessage, Worker.self_pyodide. run_js. cbn -[Worker.runCycle].
    rewrite Hfs. fold source. rewrite Hrun.
    rewrite (runCycle_yields py (Worker.setPyScript py (Some script) w) VNull
               script script' yielded command eq_refl Hsend Hjs).
    reflexivity.
Qed.

Lemma firstRunCycle_interpolates_session_id_witness :
  let error := mkError "PythonError: NameError: name 'abc123' is not defined" in
  let py := raisingPyodide error in
  let e := Engine.mkEngine "abc123" (Some Engine.InitResolved) ∅ 2 in
  let w := Worker.mkWorker py (Some ∅) None [] in
  "port.start(" +:+ Engine.sessionId e +:+ ")" = "port.start(abc123)"
  /\ Engine.firstRunCycle e
     = (Normal tt, e, [PostMessage (msgFirstRunCycle (VStr "abc123"))])
  /\ Worker.onmessage py (msgFirstRunCycle (VStr "abc123")) w = (Abrupt error, w, [])
  /\ (let s := run isCommandByTag py "abc123" (successfulStart ++ [DeliverToWorker]) in
      postedBy WorkerThread (trace s) = [msgInitialiseDone] /\ Stalled s).
Proof.
  intros error py e w.
  destruct (firstRunCycle_interpolates_session_id isCommandByTag py w e ∅ eq_refl)
    as (Hpost & Hfault & _).
  destruct (Hfault error eq_refl) as (Hthrow & _ & Hworker & _ & _ & Hstalled).
  split; [reflexivity|]. split; [exact Hpost|]. split; [exact Hthrow|].
  split; [exact Hworker|exact Hstalled].
Defined.

(** C2, as the spec states it, fails.  A response without a payload: reading
    the tag throws in the executor of the promise, the promise rejects,
    [runCycle] is not called, the script stays where it stands and nothing is
    posted; [undefined] is not passed on.  A payload tagged as void is passed
    on as the tagged object, not as [undefined].  A string payload reaches
    the script as the tagged object, not as the string.  A file payload fulfils with a
    tagged string payload, not with a path string; before the interpreter is
    loaded it is rejected, and so it is when [/file-input] is a plain
    directory, as a file payload without a [File] leaves it. *)
Lemma unwrap_passes_no_bare_value :
  let py := scriptedPyodide demoScript in
  let absent := VObj [] in
  let void := VObj [("__type__", VStr "PayloadVoid"); ("value", VUndefined)] in
  let text := VObj [("payload", PayloadString "yes")] in
  let file := VObj [("payload", PayloadFile (VFile "data.json" "{}"))] in
  let noFile := VObj [("payload", PayloadFile (VStr "data.json"))] in
  ((exists error, (Worker.unwrap py absent demoWorker).1.1 = Normal (Rejected error))
   /\ Worker.onmessage py (msgNextRunCycle absent) demoWorker
      = (Normal tt, demoWorker, [unwrapLog VUndefined]))
  /\ ((Worker.unwrap py (VObj [("payload", void)]) demoWorker).1.1
       = Normal (Fulfilled void)
      /\ void <> VUndefined)
  /\ ((Worker.unwrap py text demoWorker).1.1 = Normal (Fulfilled (PayloadString "yes"))
      /\ PayloadString "yes" <> VStr "yes"
      /\ Worker.onmessage py (msgNextRunCycle text) demoWorker
         = (Normal tt, Worker.setPyScript py (Some []) demoWorker,
            [unwrapLog (PayloadString "yes"); runCycleLog (PayloadString "yes");
             PostMessage (msgRunCycleDone
               (Worker.generateErrorMessage "PythonError: boom"))]))
  /\ ((Worker.unwrap py file demoWorker).1.1
       = Normal (Fulfilled (PayloadString "/file-input/data.json"))
      /\ PayloadString "/file-input/data.json" <> VStr "/file-input/data.json")
  /\ ((exists error,
         (Worker.unwrap py file (Worker.initial py)).1.1 = Normal (Rejected error))
      /\ Worker.onmessage py (msgNextRunCycle file) (Worker.initial py)
         = (Normal tt, Worker.initial py,
            [unwrapLog (PayloadFile (VFile "data.json" "{}"))]))
  /\ (let w1 := (Worker.onmessage py (msgNextRunCycle noFile) demoWorker).1.2 in
      Worker.pyodide w1 = Some {["/file-input" := None]}
      /\ (exists error, (Worker.unwrap py file w1).1.1 = Normal (Rejected error))
      /\ Worker.onmessage py (msgNextRunCycle file) w1
         = (Normal tt, w1, [unwrapLog (PayloadFile (VFile "data.json" "{}"))])).
Proof.
  intros py absent void text file noFile.
  split; [split; [eexists|]; reflexivity|].
  split; [split; [reflexivity|discriminate]|].
  split; [split; [reflexivity|split; [discriminate|reflexivity]]|].
  split; [split; [reflexivity|discriminate]|].
  split; [split; [eexists|]; reflexivity|].
  split; [reflexivity|]. split; [eexists|]; reflexivity.
Qed.

(** C2, amended.  On [nextRunCycle] the worker resumes the script with what
    the promise of [unwrap] fulfils with, and does not resume it when the
    promise rejects.  A payload whose tag is not [PayloadFile] fulfils the
    promise unchanged, as the tagged object that it is: a string payload is
    passed on as [{ __type__: 'PayloadString', value }], not as its string,
    and the file system is left alone.  A payload that is missing,
    [undefined] or [null] rejects the promise: nothing is passed on, the
    worker stays as it is and posts nothing.  A [PayloadFile] with a [File],
    when the interpreter is loaded and [/file-input] is absent or a mount
    point, mounts the file alone under [/file-input] and fulfils with the
    string payload whose value is [/file-input/] followed by the file's name;
    the file is then there under that name, the other directories are as
    they were, and [/file-input] is a mount point again.  Before the
    interpreter is loaded, or when [/file-input] is a plain directory, it
    rejects like a missing payload.  A loaded interpreter starts without
    [/file-input]. *)
Theorem unwrap_response_payload
    (py : Pyodide) (w : Worker.State py) (response payload : Value) :
  getProp response "payload" = Normal payload ->
  (exists o w1,
     Worker.unwrap py response w = (Normal o, w1, [unwrapLog payload])
     /\ Worker.onmessage py (msgNextRunCycle response) w
        = match o with
          | Fulfilled userInput =>
              let '(c, w2, es2) := Worker.runCycle py userInput w1 in
              (c, w2, unwrapLog payload :: es2)
          | Rejected _ => (Normal tt, w1, [unwrapLog payload])
          end
     /\ forall userInput sc,
          o = Fulfilled userInput ->
          Worker.pyScript w = Some sc ->
          Worker.pyScript (Worker.onmessage py (msgNextRunCycle response) w).1.2
          = Some (send py sc userInput).2)
  /\ (forall type,
        getProp payload "__type__" = Normal type ->
        strictEqStr type "PayloadFile" = false ->
        Worker.unwrap py response w = (Normal (Fulfilled payload), w, [unwrapLog payload]))
  /\ (forall s,
        payload = PayloadString s ->
        Worker.unwrap py response w
          = (Normal (Fulfilled (PayloadString s)), w, [unwrapLog payload])
        /\ PayloadString s <> VStr s)
  /\ (isNullish payload = true ->
      exists error,
        Worker.unwrap py response w = (Normal (Rejected error), w, [unwrapLog payload])
        /\ Worker.onmessage py (msgNextRunCycle response) w
           = (Normal tt, w, [unwrapLog payload]))
  /\ (forall name content fs,
        payload = PayloadFile (VFile name content) ->
        Worker.pyodide w = Some fs ->
        fs !! "/file-input" ≠ Some None ->
        exists fs',
          Worker.unwrap py response w
            = (Normal (Fulfilled (PayloadString ("/file-input/" +:+ name))),
               Worker.setPyodide py (Some fs') w, [unwrapLog payload])
          /\ FS_readFile "/file-input" name fs' = Some content
          /\ fs' !! "/file-input" = Some (Some [(name, content)])
          /\ forall dir, dir ≠ "/file-input" -> fs' !! dir = fs !! dir)
  /\ (forall name content,
        payload = PayloadFile (VFile name content) ->
        Worker.pyodide w = None
        \/ (exists fs, Worker.pyodide w = Some fs /\ fs !! "/file-input" = Some None) ->
        exists error,
          Worker.unwrap py response w = (Normal (Rejected error), w, [unwrapLog payload])
          /\ Worker.onmessage py (msgNextRunCycle response) w
             = (Normal tt, w, [unwrapLog payload]))
  /\ (forall i,
        Worker.initialising w !! i = Some Worker.LoadingPyodide ->
        exists fs,
          Worker.pyodide (Worker.initialiseSettles py i true w).1.2 = Some fs
          /\ fs !! "/file-input" = None).
Proof.
  intros Hp.
  split; [|split; [|split; [|split; [|split; [|split]]]]].
  - destruct (unwrap_settles py response payload w Hp) as (o & w1 & Hu & Hs & _).
    exists o, w1. split; [exact Hu|].
    assert (Hm := onmessage_nextRunCycle py response w). rewrite Hu in Hm.
    destruct o as [userInput|reason].
    + split; [exact Hm|].
      intros userInput' sc Ho Hsc. inversion Ho; subst userInput'.
      rewrite Hm. rewrite <- Hs in Hsc.
      assert (Hr := runCycle_sends py w1 userInput sc Hsc).
      destruct (Worker.runCycle py userInput w1) as [[c w2] es2].
      cbn in Hr |- *. rewrite Hr. reflexivity.
    + split; [exact Hm|]. intros ? ? Ho. discriminate.
  - intros type Ht Hf. apply (unwrap_passes_through py response payload type w Hp Ht Hf).
  - intros s ->. split; [|discriminate].
    apply (unwrap_passes_through py response _ (VStr "PayloadString") w Hp);
      reflexivity.
  - intros Hn.
    assert (Hu : exists error,
               Worker.unwrap py response w
               = (Normal (Rejected error), w, [unwrapLog payload])).
    { unfold Worker.unwrap, Worker.newPromise. run_js. rewrite Hp.
      destruct payload; try discriminate; eexists; reflexivity. }
    destruct Hu as [error Hu]. exists error. split; [exact Hu|].
    rewrite onmessage_nextRunCycle, Hu. reflexivity.
  - intros name content fs -> Hfs Hdir.
    exists (<["/file-input" := Some [(name, content)]]> fs). split; [|split; [|split]].
    + unfold Worker.unwrap, Worker.newPromise. run_js. rewrite Hp.
      cbn -[Worker.copyFileToPyFS JSON_stringify].
      rewrite (copyFileToPyFS_mounts py name content fs w Hfs Hdir). reflexivity.
    + unfold FS_readFile. rewrite lookup_insert_eq. cbn.
      rewrite String.eqb_refl. reflexivity.
    + apply lookup_insert_eq.
    + intros dir Hd. apply lookup_insert_ne. congruence.
  - intros name content -> Hw.
    assert (Hu : exists error,
               Worker.unwrap py response w
               = (Normal (Rejected error), w,
                  [unwrapLog (PayloadFile (VFile name content))])).
    { unfold Worker.unwrap, Worker.newPromise, Worker.copyFileToPyFS, Worker.FS_call,
        Worker.self_pyodide. run_js. rewrite Hp.
      destruct Hw as [Hw|(fs & Hw & Hd)]; cbn -[JSON_stringify]; rewrite Hw.
      - eexists; reflexivity.
      - unfold FS_exists. rewrite bool_decide_true by (rewrite Hd; eauto).
        cbn -[JSON_stringify]. rewrite Hw. unfold FS_unmount. rewrite Hd.
        eexists; reflexivity. }
    destruct Hu as [error Hu]. exists error. split; [exact Hu|].
    rewrite onmessage_nextRunCycle, Hu. reflexivity.
  - intros i Hi. exists ∅. split; [|apply lookup_empty].
    unfold Worker.initialiseSettles. run_js. rewrite Hi. reflexivity.
Qed.

Lemma unwrap_response_payload_witness :
  let py := scriptedPyodide demoScript in
  let response := VObj [("payload", PayloadFile (VFile "data.json" "{}"))] in
  exists fs',
    Worker.unwrap py response demoWorker
      = (Normal (Fulfilled (PayloadString "/file-input/data.json")),
         Worker.setPyodide py (Some fs') demoWorker,
         [unwrapLog (PayloadFile (VFile "data.json" "{}"))])
    /\ FS_readFile "/file-input" "data.json" fs' = Some "{}"
    /\ fs' !! "/file-input" = Some (Some [("data.json", "{}")])
    /\ forall dir, dir ≠ "/file-input" -> fs' !! dir = (∅ : FS) !! dir.
Proof.
  destruct (unwrap_response_payload (scriptedPyodide demoScript) demoWorker
              (VObj [("payload", PayloadFile (VFile "data.json" "{}"))])
              (PayloadFile (VFile "data.json" "{}")) eq_refl)
    as (_ & _ & _ & _ & Hfile & _).
  apply (Hfile "data.json" "{}" ∅ eq_refl eq_refl).
  rewrite lookup_empty. discriminate.
Defined.

(** A response without a payload is outside the type [Response]: reading the
    tag throws inside the promise's executor, the promise rejects, and
    [runCycle] is not called. *)
Lemma unwrap_undefined_payload_rejects (py : Pyodide) (w : Worker.State py) fields :
  lookupField "payload" fields = None ->
  exists error es,
    Worker.unwrap py (VObj fields) w = (Normal (Rejected error), w, es)
    /\ Worker.onmessage py (msgNextRunCycle (VObj fields)) w = (Normal tt, w, es)
    /\ posted es = [].
Proof.
  intros H. eexists _, _. split; [|split].
  - unfold Worker.unwrap, Worker.newPromise. run_js. cbn. rewrite H. reflexivity.
  - rewrite onmessage_nextRunCycle.
    unfold Worker.unwrap, Worker.newPromise. run_js. cbn. rewrite H. reflexivity.
  - reflexivity.
Qed.

(** C8.  [renderBody] tests the body against the five prompt guards in turn
    and renders the component of the first that accepts it, with the body and
    the context as its props; it throws [TypeError: Unknown body type]
    exactly when none accepts the body. *)
Theorem renderBody_discriminates
    (Resolve : Type) (isFileInput isConfirm isConsentForm isRadioInput isQuestionnaire
       : Value -> bool) (props : DonationPage.Props Resolve) :
  let render :=
    DonationPage.renderBody Resolve isFileInput isConfirm isConsentForm isRadioInput
      isQuestionnaire props in
  let body := DonationPage.body props in
  let element c :=
    Normal (DonationPage.mkElement c body
              (DonationPage.mkContext (DonationPage.locale props) (DonationPage.resolve props))) in
  (isFileInput body = true -> render = element DonationPage.FileInput)
  /\ (isFileInput body = false -> isConfirm body = true ->
      render = element DonationPage.Confirm)
  /\ (isFileInput body = false -> isConfirm body = false -> isConsentForm body = true ->
      render = element DonationPage.ConsentForm)
  /\ (isFileInput body = false -> isConfirm body = false -> isConsentForm body = false ->
      isRadioInput body = true ->
      render = element DonationPage.RadioInput)
  /\ (isFileInput body = false -> isConfirm body = false -> isConsentForm body = false ->
      isRadioInput body = false -> isQuestionnaire body = true ->
      render = element DonationPage.Questionnaire)
  /\ (render = Abrupt (TypeError "Unknown body type") <->
      isFileInput body = false /\ isConfirm body = false /\ isConsentForm body = false
      /\ isRadioInput body = false /\ isQuestionnaire body = false)
  /\ ((exists c, render = element c) \/ render = Abrupt (TypeError "Unknown body type")).
Proof.
  intros render body element. subst render. unfold DonationPage.renderBody.
  fold body.
  destruct (isFileInput body), (isConfirm body), (isConsentForm body),
    (isRadioInput body), (isQuestionnaire body); cbn;
    repeat split; try (intros; discriminate); try reflexivity;
    try (intros; intuition discriminate); eauto.
Qed.

Lemma renderBody_discriminates_witness :
  let guard := DonationPage.hasType in
  let render :=
    DonationPage.renderBody unit (guard "PropsUIPromptFileInput")
      (guard "PropsUIPromptConfirm") (guard "PropsUIPromptConsentForm")
      (guard "PropsUIPromptRadioInput") (guard "PropsUIPromptQuestionnaire") in
  let page body := DonationPage.mkProps VNull body VNull "en" tt in
  render (page (VObj [("__type__", VStr "PropsUIPromptConfirm")]))
    = Normal (DonationPage.mkElement DonationPage.Confirm
                (VObj [("__type__", VStr "PropsUIPromptConfirm")])
                (DonationPage.mkContext "en" tt))
  /\ render (page (VObj [("__type__", VStr "PropsUIPromptTable")]))
     = Abrupt (TypeError "Unknown body type").
Proof.
  split.
  - apply (renderBody_discriminates unit
             (DonationPage.hasType "PropsUIPromptFileInput")
             (DonationPage.hasType "PropsUIPromptConfirm")
             (DonationPage.hasType "PropsUIPromptConsentForm")
             (DonationPage.hasType "PropsUIPromptRadioInput")
             (DonationPage.hasType "PropsUIPromptQuestionnaire")
             (DonationPage.mkProps VNull (VObj [("__type__", VStr "PropsUIPromptConfirm")])
                VNull "en" tt)); reflexivity.
  - apply (renderBody_discriminates unit
             (DonationPage.hasType "PropsUIPromptFileInput")
             (DonationPage.hasType "PropsUIPromptConfirm")
             (DonationPage.hasType "PropsUIPromptConsentForm")
             (DonationPage.hasType "PropsUIPromptRadioInput")
             (DonationPage.hasType "PropsUIPromptQuestionnaire")
             (DonationPage.mkProps VNull (VObj [("__type__", VStr "PropsUIPromptTable")])
                VNull "en" tt)); repeat split; reflexivity.
Defined.

(** ** Counting *)

Lemma countIf_app {A} (f : A -> bool) l1 l2 :
  countIf f (l1 ++ l2) = countIf f l1 + countIf f l2.
Proof. induction l1 as [|x l1 IH]; cbn; [reflexivity|]. rewrite IH. lia. Qed.

Lemma posted_app es1 es2 : posted (es1 ++ es2) = posted es1 ++ posted es2.
Proof. apply omap_app. Qed.

Lemma posted_logs logs : Forall isConsoleLog logs -> posted logs = [].
Proof.
  induction 1 as [|e logs He _ IH]; [reflexivity|].
  destruct e; cbn in He; try contradiction. exact IH.
Qed.

Lemma postedBy_app th t1 t2 : postedBy th (t1 ++ t2) = postedBy th t1 ++ postedBy th t2.
Proof. apply omap_app. Qed.

Lemma receivedBy_app th t1 t2 :
  receivedBy th (t1 ++ t2) = receivedBy th t1 ++ receivedBy th t2.
Proof. apply omap_app. Qed.

Lemma postedBy_events th th' c es :
  postedBy th (events th' c es) = if isThread th th' then posted es else [].
Proof.
  unfold events, postedBy. rewrite omap_app.
  replace (omap _ (match c with Normal _ => [] | Abrupt e => [Uncaught th' e] end))
    with (@nil Value) by (destruct c; reflexivity).
  rewrite app_nil_r.
  induction es as [|e es IH]; cbn; [destruct (isThread th th'); reflexivity|].
  unfold posted. cbn. fold (posted es).
  destruct e; cbn; try exact IH.
  destruct (isThread th th'); [|exact IH].
  f_equal. exact IH.
Qed.

Lemma receivedBy_events th th' c es : receivedBy th (events th' c es) = [].
Proof.
  unfold events, receivedBy. rewrite omap_app.
  replace (omap _ (match c with Normal _ => [] | Abrupt e => [Uncaught th' e] end))
    with (@nil Value) by (destruct c; reflexivity).
  rewrite app_nil_r. induction es as [|e es IH]; [reflexivity|exact IH].
Qed.

(** ** The script's commands with the Command Handler *)

Lemma outstanding_insert_le sid r m n p x :
  outstanding (Engine.mkEngine sid r (<[p := x]> m) n)
  <= S (outstanding (Engine.mkEngine sid r m n)).
Proof.
  unfold outstanding. cbn. rewrite map_filter_insert. case_decide.
  - rewrite map_size_insert. destruct (filter _ m !! p); cbn; lia.
  - rewrite map_filter_delete, map_size_delete.
    destruct (filter _ m !! p); cbn; lia.
Qed.

Lemma outstanding_insert_noop sid r m n p :
  outstanding (Engine.mkEngine sid r (<[p := Engine.RNoop]> m) n)
  <= outstanding (Engine.mkEngine sid r m n).
Proof.
  unfold outstanding. cbn. rewrite map_filter_insert_False by (cbn; discriminate).
  rewrite map_filter_delete, map_size_delete.
  destruct (filter _ m !! p); cbn; lia.
Qed.

Lemma outstanding_delete_le e p :
  outstanding (Engine.setReactions (delete p (Engine.reactions e)) e) <= outstanding e.
Proof.
  unfold outstanding. cbn. rewrite map_filter_delete, map_size_delete.
  destruct (filter _ (Engine.reactions e) !! p); cbn; lia.
Qed.

Lemma outstanding_delete_next e p :
  Engine.reactions e !! p = Some Engine.RNextRunCycle ->
  S (outstanding (Engine.setReactions (delete p (Engine.reactions e)) e)) = outstanding e.
Proof.
  intros H. unfold outstanding. cbn. rewrite map_filter_delete, map_size_delete.
  assert (Hf : filter (fun kv : nat * Engine.Reaction => kv.2 = Engine.RNextRunCycle)
                 (Engine.reactions e) !! p = Some Engine.RNextRunCycle).
  { apply map_lookup_filter_Some. split; [exact H|reflexivity]. }
  rewrite Hf. cbn.
  assert (size (filter (fun kv : nat * Engine.Reaction => kv.2 = Engine.RNextRunCycle)
                  (Engine.reactions e)) <> 0); [|lia].
  intros Hz. apply map_size_empty_inv in Hz. rewrite Hz in Hf.
  rewrite lookup_empty in Hf. discriminate.
Qed.

(** ** Every turn of [step] is a turn of the relations *)

Lemma strictEqStr_true v s : strictEqStr v s = true -> v = VStr s.
Proof.
  destruct v; cbn; try discriminate.
  intros H. apply String.eqb_eq in H. congruence.
Qed.

Lemma getProp_defined data k v k' :
  getProp data k = Normal v -> exists v', getProp data k' = Normal v'.
Proof. destruct data; cbn; try discriminate; eauto. Qed.

Lemma isMsg_getProp eventType data :
  isMsg eventType data = true <-> getProp data "eventType" = Normal (VStr eventType).
Proof.
  unfold isMsg. split.
  - destruct (getProp data "eventType") as [t|]; [|discriminate].
    intros H. apply strictEqStr_true in H. congruence.
  - intros ->. cbn. apply String.eqb_refl.
Qed.

Section Turns.

Variable isCommand : Value -> bool.
Variable py : Pyodide.

Lemma engine_start_turn e :
  EngineTurn isCommand e StartCalled (Engine.start e).1.1 (Engine.start e).1.2
    (Engine.start e).2.
Proof. apply turn_start. Qed.

Lemma engine_onmessage_turn data e c e' es :
  Engine.onmessage isCommand data e = (c, e', es) ->
  EngineTurn isCommand e (Received MainThread data) c e' es.
Proof.
  intros H.
  destruct (getProp data "eventType") as [eventType|err] eqn:Ht.
  2:{ rewrite (onmessage_no_data isCommand data err e Ht) in H.
      inversion H; subst. apply turn_ignored. constructor. }
  destruct (strictEqStr eventType "initialiseDone") eqn:H1.
  { apply strictEqStr_true in H1. subst eventType.
    rewrite (onmessage_initialiseDone isCommand data e Ht) in H.
    destruct (Engine.resolveInitialized e) as [[|]|] eqn:Hr.
    - rewrite (callResolveInitialized_pending e Hr) in H.
      inversion H; subst.
      apply (turn_initialised isCommand e data [_; _; _]); auto. repeat constructor.
    - unfold Engine.callResolveInitialized in H. run_js_in H. rewrite Hr in H.
      inversion H; subst. apply turn_ignored. repeat constructor.
    - unfold Engine.callResolveInitialized in H. run_js_in H. rewrite Hr in H.
      inversion H; subst. apply turn_ignored. repeat constructor. }
  destruct (strictEqStr eventType "runCycleDone") eqn:H2.
  { apply strictEqStr_true in H2. subst eventType.
    destruct (getProp_defined data _ _ "scriptEvent" Ht) as [scriptEvent Hs].
    rewrite (onmessage_runCycleDone isCommand data scriptEvent e Ht Hs) in H.
    unfold Engine.handleRunCycle in H.
    destruct (isCommand scriptEvent) eqn:Hc.
    - rewrite onCommandThen_eq in H. inversion H; subst.
      apply (turn_command isCommand e data scriptEvent [_; _; _]); auto.
      repeat constructor.
    - inversion H; subst. apply turn_ignored. repeat constructor. }
  rewrite (onmessage_unsupported isCommand data eventType e Ht H1 H2) in H.
  inversion H; subst. apply turn_ignored. repeat constructor.
Qed.

Lemma engine_settle_turn p o r e c e' es :
  Engine.reactions e !! p = Some r ->
  Engine.settle p o e = (c, e', es) ->
  EngineTurn isCommand e (HandlerSettled p o) c e' es.
Proof.
  intros Hr H. destruct r.
  - rewrite (settle_noop p o e Hr) in H. inversion H; subst.
    eapply turn_dropped; eauto.
  - destruct o as [response|reason].
    + rewrite (settle_next_fulfilled p response e Hr) in H. inversion H; subst.
      apply turn_answered; auto.
    + rewrite (settle_next_rejected p reason e Hr) in H. inversion H; subst.
      eapply turn_dropped; eauto.
Qed.

Lemma silent_bind {A B} (m : Worker.M py A) (k : A -> Worker.M py B) :
  Silent py m -> (forall a, Silent py (k a)) -> Silent py (bind m k).
Proof.
  intros Hm Hk w c w' es. unfold bind.
  destruct (m w) as [[[a|e] w1] es1] eqn:H1.
  - destruct (k a w1) as [[c2 w2] es2] eqn:H2. intros H. inversion H; subst.
    destruct (Hm _ _ _ _ H1) as [? ?]. destruct (Hk a _ _ _ _ H2) as [? ?].
    split; [apply Forall_app; auto|congruence].
  - intros H. inversion H; subst. eauto.
Qed.

Lemma silent_pure {A} (c : Completion A) : Silent py (eval c).
Proof. intros w c' w' es H. inversion H; subst. auto. Qed.

Lemma silent_gets {A} (f : Worker.State py -> A) : Silent py (gets f).
Proof. intros w c' w' es H. inversion H; subst. auto. Qed.

Lemma silent_log args : Silent py (console_log args).
Proof. intros w c' w' es H. inversion H; subst. split; [repeat constructor|auto]. Qed.

Lemma silent_setPyodide fs : Silent py (modify (Worker.setPyodide py fs)).
Proof. intros w c' w' es H. inversion H; subst. auto. Qed.

Lemma silent_newPromise (m : Worker.M py Value) : Silent py m -> Silent py (Worker.newPromise py m).
Proof.
  intros Hm w c w' es. unfold Worker.newPromise.
  destruct (m w) as [[[a|e] w1] es1] eqn:H1; intros H; inversion H; subst; eauto.
Qed.

Ltac silent :=
  repeat first
    [ apply silent_bind; [|intros ?]
    | apply silent_newPromise
    | apply silent_gets
    | apply silent_log
    | apply silent_setPyodide
    | apply (silent_pure (Normal _))
    | apply (silent_pure (Abrupt _))
    | apply silent_pure
    | match goal with
      | |- Silent py (if ?b then _ else _) => destruct b
      | |- Silent py (match ?x with _ => _ end) => destruct x
      end ].

Lemma silent_self_pyodide member : Silent py (Worker.self_pyodide py member).
Proof. unfold Worker.self_pyodide. silent. Qed.

Lemma silent_FS_call op : Silent py (Worker.FS_call py op).
Proof. unfold Worker.FS_call. silent. Qed.

Lemma silent_copyFileToPyFS file : Silent py (Worker.copyFileToPyFS py file).
Proof.
  unfold Worker.copyFileToPyFS. silent.
Qed.

Lemma unwrap_frame response : Silent py (Worker.unwrap py response).
Proof. unfold Worker.unwrap. silent. Qed.

Lemma worker_onmessage_turn data w c w' es :
  Worker.onmessage py data w = (c, w', es) ->
  WorkerTurn py w (Received WorkerThread data) c w' es.
Proof.
  intros H.
  destruct (getProp data "eventType") as [eventType|err] eqn:Ht.
  2:{ unfold Worker.onmessage in H. run_js_in H. rewrite Ht in H.
      inversion H; subst. apply turn_silent; auto. }
  destruct (strictEqStr eventType "initialise") eqn:H1.
  { unfold Worker.onmessage, Worker.initialise in H. run_js_in H.
    rewrite Ht, H1 in H. inversion H; subst.
    apply turn_initialise; [|repeat constructor].
    unfold isMsg. rewrite Ht. exact H1. }
  destruct (strictEqStr eventType "firstRunCycle") eqn:H2.
  { assert (Hd : isRunCycle data = true).
    { unfold isRunCycle, isMsg. rewrite Ht, H2. reflexivity. }
    unfold Worker.onmessage, Worker.self_pyodide in H. run_js_in H.
    rewrite Ht, H1, H2 in H.
    destruct (getProp data "sessionId") as [sessionId|];
      [|inversion H; subst; apply turn_silent; auto].
    destruct (Worker.pyodide w) as [fs|];
      [|inversion H; subst; apply turn_silent; auto].
    destruct (runPython py _) as [script|];
      [|inversion H; subst; apply turn_silent; auto].
    cbn -[Worker.runCycle] in H.
    destruct (runCycle_posts_once py (Worker.setPyScript py (Some script) w) VNull)
      as (w1 & scriptEvent & Hr & _ & Hi).
    rewrite Hr in H. cbn [app] in H. inversion H; subst.
    apply (turn_cycle py w data _ [_] scriptEvent); auto.
    - rewrite Hi. reflexivity.
    - repeat constructor. }
  destruct (strictEqStr eventType "nextRunCycle") eqn:H3.
  { assert (Hd : isRunCycle data = true).
    { unfold isRunCycle, isMsg. rewrite Ht, H3. apply orb_true_r. }
    unfold Worker.onmessage in H. run_js_in H. rewrite Ht, H1, H2, H3 in H.
    destruct (getProp data "response") as [response|];
      [|inversion H; subst; apply turn_silent; auto].
    destruct (Worker.unwrap py response w) as [[c1 w1] es1] eqn:Hu.
    apply unwrap_frame in Hu. destruct Hu as [Hlogs Hi].
    destruct c1 as [[userInput|reason]|err].
    - destruct (runCycle_posts_once py w1 userInput)
        as (w2 & scriptEvent & Hr & _ & Hi2).
      rewrite Hr in H. inversion H; subst.
      change (es1 ++ [runCycleLog userInput; PostMessage (msgRunCycleDone scriptEvent)])
        with (es1 ++ [runCycleLog userInput] ++ [PostMessage (msgRunCycleDone scriptEvent)]).
      rewrite app_assoc.
      apply turn_cycle; auto; [congruence|].
      apply Forall_app. split; [exact Hlogs|repeat constructor].
    - inversion H; subst. rewrite ?app_nil_l, ?app_nil_r.
      apply turn_silent; [congruence|auto].
    - inversion H; subst. apply turn_silent; [congruence|auto]. }
  rewrite (onmessage_unsupported_worker py data eventType w Ht H1 H2 H3) in H.
  inversion H; subst. apply turn_silent; auto. repeat constructor.
Qed.

Lemma worker_initialiseSettles_turn i fulfilled stage w c w' es :
  Worker.initialising w !! i = Some stage ->
  Worker.initialiseSettles py i fulfilled w = (c, w', es) ->
  WorkerTurn py w (InitialiseSettled i fulfilled) c w' es.
Proof.
  intros Hs H. unfold Worker.initialiseSettles in H. run_js_in H.
  rewrite Hs in H. destruct fulfilled.
  - destruct stage; inversion H; subst.
    + apply turn_silent; [|repeat constructor]. cbn. apply length_insert.
    + apply turn_silent; [|repeat constructor]. cbn. apply length_insert.
    + apply turn_initialise_done. exact Hs.
  - inversion H; subst. eapply turn_initialise_failed. exact Hs.
Qed.

Lemma step_is_Next (s : System py) st :
  step isCommand py s st = s \/ Next isCommand py s (step isCommand py s st).
Proof.
  destruct st as [| | |p o|i fulfilled]; unfold step.
  - destruct (started s) eqn:Hst; [left; reflexivity|right].
    apply (next_start isCommand py s (Normal tt) _
             [ConsoleLog [VStr "[WorkerProcessingEngine] started"];
              PostMessage msgInitialise]); auto.
    apply turn_start.
  - destruct (toWorker s) as [|data rest] eqn:Hq; [left; reflexivity|right].
    destruct (Worker.onmessage py data (worker s)) as [[c w] es] eqn:Hm.
    unfold workerTurn. cbn [engine worker toWorker toEngine started trace].
    eapply next_worker_message; eauto.
    apply worker_onmessage_turn. exact Hm.
  - destruct (toEngine s) as [|data rest] eqn:Hq; [left; reflexivity|right].
    destruct (Engine.onmessage isCommand data (engine s)) as [[c e] es] eqn:Hm.
    unfold engineTurn. cbn [engine worker toWorker toEngine started trace].
    eapply next_engine_message; eauto.
    apply engine_onmessage_turn. exact Hm.
  - destruct (Engine.reactions (engine s) !! p) as [r|] eqn:Hr; [right|left; reflexivity].
    destruct (Engine.settle p o (engine s)) as [[c e] es] eqn:Hm.
    unfold engineTurn. eapply next_handler_settles.
    eapply engine_settle_turn; eauto.
  - destruct (Worker.initialising (worker s) !! i) as [stage|] eqn:Hs;
      [right|left; reflexivity].
    destruct (Worker.initialiseSettles py i fulfilled (worker s)) as [[c w] es] eqn:Hm.
    unfold workerTurn. eapply next_initialise_settles.
    eapply worker_initialiseSettles_turn; eauto.
Qed.

(** A property that every turn keeps holds after any further steps, and
    after every run when it holds as the session boots. *)
Lemma steps_invariant (P : System py -> Prop) :
  (forall s s', P s -> Next isCommand py s s' -> P s') ->
  forall steps s, P s -> P (fold_left (step isCommand py) steps s).
Proof.
  intros Hstep steps.
  induction steps as [|st steps IH]; intros s Hs; cbn; [exact Hs|].
  apply IH. destruct (step_is_Next s st) as [-> | Hn]; eauto.
Qed.

Lemma run_invariant (P : System py -> Prop) sessionId :
  P (boot py sessionId) ->
  (forall s s', P s -> Next isCommand py s s' -> P s') ->
  forall steps, P (run isCommand py sessionId steps).
Proof.
  intros H0 Hstep steps. unfold run. apply steps_invariant; assumption.
Qed.

End Turns.

(** ** What every turn conserves *)

Lemma postedBy_turn th cause th' c es :
  isCause cause ->
  postedBy th (cause :: events th' c es) = if isThread th th' then posted es else [].
Proof.
  intros H. rewrite <- postedBy_events with (c := c).
  destruct cause; cbn in H; try contradiction; reflexivity.
Qed.

Lemma receivedBy_turn th cause th' c es :
  receivedBy th (cause :: events th' c es) = receivedBy th [cause].
Proof.
  change (cause :: events th' c es) with ([cause] ++ events th' c es).
  rewrite receivedBy_app, receivedBy_events, app_nil_r. reflexivity.
Qed.

Lemma isMsg_of eventType data a :
  getProp data "eventType" = Normal (VStr a) -> isMsg eventType data = String.eqb a eventType.
Proof. intros H. unfold isMsg. rewrite H. reflexivity. Qed.

Ltac split_ifs :=
  repeat match goal with
         | H : context [if ?b then _ else _] |- _ => destruct b eqn:?
         | |- context [if ?b then _ else _] => destruct b eqn:?
         end.

Section Conservation.

Variable isCommand : Value -> bool.
Variable py : Pyodide.

Lemma outstanding_boot sessionId : outstanding (engine (boot py sessionId)) = 0.
Proof.
  unfold outstanding. cbn.
  rewrite map_filter_insert_False by (cbn; discriminate).
  rewrite delete_empty, map_filter_empty. apply map_size_empty.
Qed.

Lemma conserved_boot sessionId : Conserved isCommand (boot py sessionId).
Proof.
  unfold Conserved, initialisation, inFlight. rewrite outstanding_boot.
  cbn. repeat split; lia.
Qed.

Lemma outstanding_setResolveInitialized r e :
  outstanding (Engine.setResolveInitialized r e) = outstanding e.
Proof. reflexivity. Qed.

(** One turn, for an invariant that counts messages *)
Ltac count_turn s Hn :=
  destruct Hn as [c e es Hst Ht|data rest c e es Hq Ht|p o c e es Ht
                 |data rest c w es Hq Ht|i fulfilled c w es Ht];
    cbn [engine worker toWorker toEngine started trace];
    rewrite ?postedBy_app, ?receivedBy_app, ?postedBy_turn, ?receivedBy_turn by exact I;
    rewrite ?countIf_app; cbn [isThread];
    try rewrite Hq in *; inversion Ht; subst; clear Ht;
    rewrite ?posted_app;
    repeat match goal with
           | H : Forall isConsoleLog ?l |- _ => rewrite ?(posted_logs l H); clear H
           end;
    repeat match goal with
           | H : length _ = length _ |- _ => rewrite H; clear H
           end;
    cbn [Worker.initialising Worker.setInitialising];
    rewrite ?length_app, ?outstanding_setResolveInitialized;
  try match goal with
           | H : Worker.initialising _ !! _ = Some _ |- _ =>
               rewrite length_delete by eauto; apply lookup_lt_Some in H
           end;
  try match goal with
           | H : Engine.reactions _ !! _ = Some Engine.RNextRunCycle |- _ =>
               pose proof (outstanding_delete_next _ _ H)
           end;
  try match goal with
           | H : Engine.reactions ?e !! ?p = Some _ |- _ =>
               pose proof (outstanding_delete_le e p)
           end;
  try match goal with
           | |- context [outstanding (Engine.mkEngine ?a ?b (<[?p := ?x]> ?m) ?n)] =>
               pose proof (outstanding_insert_le a b m n p x);
               change (outstanding (Engine.mkEngine a b m n))
                 with (outstanding (engine s)) in *
           end;
  try match goal with
           | |- context [outstanding (Engine.mkEngine ?a ?b (<[?p := Engine.RNoop]> ?m) ?n)] =>
               pose proof (outstanding_insert_noop a b m n p);
               change (outstanding (Engine.mkEngine a b m n))
                 with (outstanding (engine s)) in *
           end;
  unfold isCommandMsg, isRunCycle in *;
  repeat match goal with
           | |- context [receivedBy ?th [?c]] =>
               let r := eval cbn in (receivedBy th [c]) in
               change (receivedBy th [c]) with r
           end;
  cbn [countIf] in *;
  repeat match goal with
           | Hev : getProp ?d "eventType" = Normal (VStr ?a), H : context [isMsg ?ty ?d] |- _ =>
               rewrite (isMsg_of ty d a Hev) in H
           | Hev : getProp ?d "eventType" = Normal (VStr ?a) |- context [isMsg ?ty ?d] =>
               rewrite (isMsg_of ty d a Hev)
           end;
  try match goal with
           | H : isMsg _ _ = true |- _ => rewrite ?H in *
           end;
  repeat match goal with
           | H : getProp ?d "scriptEvent" = Normal _ |- _ => rewrite H; clear H
           | H : isCommand _ = true |- _ => rewrite H; clear H
           end;
  cbn in *;
  split_ifs; repeat split; lia.

Lemma conserved_next (s s' : System py) :
  Conserved isCommand s -> Next isCommand py s s' -> Conserved isCommand s'.
Proof.
  intros (H1 & H2 & H3 & H4 & H5) Hn.
  unfold Conserved, initialisation, inFlight in *.
  count_turn s Hn.
Qed.

Lemma hung_next (s s' : System py) :
  Hung s -> Next isCommand py s s' -> Hung s'.
Proof.
  intros (H1 & H2 & H3 & H4) Hn.
  unfold Hung, initialisation in *.
  count_turn s Hn.
Qed.

Lemma conserved_run sessionId steps :
  Conserved isCommand (run isCommand py sessionId steps).
Proof.
  apply (run_invariant isCommand py (Conserved isCommand)).
  - apply conserved_boot.
  - apply conserved_next.
Qed.

End Conservation.

(** ** The order of events *)

Lemma lookup_postedBy th (t : list Event) i data :
  t !! i = Some (Did th (PostMessage data)) -> data ∈ postedBy th t.
Proof.
  intros H. unfold postedBy. apply list_elem_of_omap.
  exists (Did th (PostMessage data)). split.
  - apply list_elem_of_lookup. eauto.
  - destruct th; reflexivity.
Qed.

Lemma lookup_new (t new : list Event) i ev :
  (t ++ new) !! i = Some ev ->
  t !! i = Some ev \/ exists k, i = length t + k /\ new !! k = Some ev.
Proof.
  intros H. apply lookup_app_Some in H. destruct H as [H|[Hle H]]; [auto|].
  right. exists (i - length t). split; [lia|exact H].
Qed.

Lemma lookup_new_posted th (t : list Event) cause th' c es i data :
  isCause cause ->
  (t ++ cause :: events th' c es) !! i = Some (Did th (PostMessage data)) ->
  t !! i = Some (Did th (PostMessage data))
  \/ (length t < i /\ th = th' /\ data ∈ posted es).
Proof.
  intros Hc H. apply lookup_new in H. destruct H as [H|(k & -> & H)]; [auto|right].
  destruct k as [|k].
  { cbn in H. inversion H; subst. contradiction. }
  split; [lia|].
  pose proof (lookup_postedBy th _ _ _ H) as Hin.
  rewrite (postedBy_turn th cause th' c es Hc) in Hin.
  destruct th, th'; cbn in Hin; try (apply elem_of_nil in Hin; contradiction); auto.
Qed.

Lemma dispatched_mono isCommand t new p h j :
  DispatchedAt isCommand t p h j -> DispatchedAt isCommand (t ++ new) p h j.
Proof.
  intros (data & command & Hlt & Hh & Ht & Hs & Hc & Hj).
  exists data, command. repeat split; auto using lookup_app_l_Some.
Qed.

Lemma answered_quiet isCommand t new :
  Answered isCommand t ->
  (forall data, data ∈ postedBy MainThread new -> isMsg "nextRunCycle" data = false) ->
  Answered isCommand (t ++ new).
Proof.
  intros Ha Hq i data Hi Hm.
  apply lookup_new in Hi. destruct Hi as [Hi|(k & -> & Hk)].
  - destruct (Ha i data Hi Hm) as (response & p & h & j & k & -> & ? & ? & Hd & Hk).
    exists response, p, h, j, k. repeat split; auto using lookup_app_l_Some.
    apply dispatched_mono. exact Hd.
  - apply lookup_postedBy in Hk. rewrite (Hq data Hk) in Hm. discriminate.
Qed.

Section Order.

Variable isCommand : Value -> bool.
Variable py : Pyodide.

Lemma causal_boot sessionId : Causal isCommand (boot py sessionId).
Proof.
  split.
  - intros p Hp. cbn in Hp.
    destruct (decide (p = 0)) as [->|Hne].
    + rewrite lookup_insert_eq in Hp. discriminate.
    + rewrite lookup_insert_ne, lookup_empty in Hp by auto. discriminate.
  - intros i data Hi Hm. cbn in Hi. destruct i; cbn in Hi; discriminate.
Qed.

Lemma lookup_effect (t : list Event) cause th c logs e rest :
  (t ++ cause :: events th c (logs ++ e :: rest)) !! (length t + 1 + length logs)
  = Some (Did th e).
Proof.
  rewrite lookup_app_r by lia.
  replace (length t + 1 + length logs - length t) with (S (length logs)) by lia.
  change ((cause :: events th c (logs ++ e :: rest)) !! S (length logs))
    with (events th c (logs ++ e :: rest) !! length logs).
  unfold events. rewrite map_app. cbn [map]. rewrite <- app_assoc.
  apply list_lookup_middle. rewrite length_map. reflexivity.
Qed.

Lemma pending_kept (s : System py) t' e' :
  PendingDispatched isCommand s ->
  (forall p, Engine.reactions e' !! p = Some Engine.RNextRunCycle ->
             Engine.reactions (engine s) !! p = Some Engine.RNextRunCycle) ->
  forall w q1 q2 st,
    PendingDispatched isCommand (mkSystem py e' w q1 q2 st (trace s ++ t')).
Proof.
  intros Hp Hsub w q1 q2 st p Hl. cbn in *.
  destruct (Hp p (Hsub p Hl)) as (h & j & Hd).
  exists h, j. apply dispatched_mono. exact Hd.
Qed.

Lemma causal_next (s s' : System py) :
  Causal isCommand s -> Next isCommand py s s' -> Causal isCommand s'.
Proof.
  intros [Hp Ha] Hn.
  destruct Hn as [c e es Hst Ht|data rest c e es Hq Ht|p o c e es Ht
                 |data rest c w es Hq Ht|i fulfilled c w es Ht].
  - inversion Ht; subst. split.
    + apply pending_kept; auto.
    + cbn [trace]. apply answered_quiet; [exact Ha|].
      intros data Hin. rewrite postedBy_turn in Hin by exact I. cbn in Hin.
      apply list_elem_of_singleton in Hin. subst. reflexivity.
  - inversion Ht as [|? ? logs Hlogs|? logs Hev Hr Hlogs
                    |? command logs Hev Hs Hc Hlogs| |]; subst.
    + split; [apply pending_kept; auto|].
      cbn [trace]. apply answered_quiet; [exact Ha|].
      intros d Hin. rewrite postedBy_turn in Hin by exact I. cbn in Hin.
      rewrite (posted_logs _ Hlogs) in Hin. apply elem_of_nil in Hin. contradiction.
    + split.
      * apply pending_kept; auto. intros p Hl. cbn in Hl.
        destruct (decide (p = Engine.nextPromise (engine s))) as [->|Hne].
        -- rewrite lookup_insert_eq in Hl. discriminate.
        -- rewrite lookup_insert_ne in Hl by auto. exact Hl.
      * cbn [trace]. apply answered_quiet; [exact Ha|].
        intros d Hin. rewrite postedBy_turn in Hin by exact I. cbn in Hin.
        rewrite posted_app, (posted_logs _ Hlogs) in Hin. cbn in Hin.
        apply list_elem_of_singleton in Hin. subst. reflexivity.
    + split.
      * intros p Hl. cbn in Hl. cbn [trace].
        destruct (decide (p = Engine.nextPromise (engine s))) as [->|Hne].
        -- exists (length (trace s)), (length (trace s) + 1 + length logs).
           exists data, command. repeat split; auto; [lia| |].
           ++ apply list_lookup_middle. reflexivity.
           ++ apply lookup_effect.
        -- rewrite lookup_insert_ne in Hl by auto.
           destruct (Hp p Hl) as (h & j & Hd).
           exists h, j. apply dispatched_mono. exact Hd.
      * cbn [trace]. apply answered_quiet; [exact Ha|].
        intros d Hin. rewrite postedBy_turn in Hin by exact I. cbn in Hin.
        rewrite posted_app, (posted_logs _ Hlogs) in Hin. cbn in Hin.
        apply elem_of_nil in Hin. contradiction.
  - inversion Ht as [| | | |? response Hr|? ? r Hr Hd]; subst.
    + split.
      * apply pending_kept; auto. intros p' Hl. cbn in Hl.
        apply lookup_delete_Some in Hl. tauto.
      * cbn [trace]. intros i data Hi Hm.
        apply lookup_new in Hi. destruct Hi as [Hi|(k & -> & Hk)].
        -- destruct (Ha i data Hi Hm) as (response' & p' & h & j & k & -> & ? & ? & Hd & Hk).
           exists response', p', h, j, k. repeat split; auto using lookup_app_l_Some.
           apply dispatched_mono. exact Hd.
        -- destruct k as [|[|[|k]]]; cbn in Hk; try discriminate.
           inversion Hk; subst.
           destruct (Hp p Hr) as (h & j & Hd).
           exists response, p, h, j, (length (trace s)).
           assert (j < length (trace s)).
           { destruct Hd as (? & ? & _ & _ & _ & _ & _ & Hj).
             apply lookup_lt_Some in Hj. exact Hj. }
           repeat split; auto; [lia| |].
           ++ apply dispatched_mono. exact Hd.
           ++ apply list_lookup_middle. reflexivity.
    + split.
      * apply pending_kept; auto. intros p' Hl. cbn in Hl.
        apply lookup_delete_Some in Hl. tauto.
      * cbn [trace]. apply answered_quiet; [exact Ha|].
        intros d Hin. rewrite postedBy_turn in Hin by exact I. cbn in Hin.
        apply elem_of_nil in Hin. contradiction.
  - split; [apply pending_kept; auto|].
    cbn [trace]. apply answered_quiet; [exact Ha|].
    intros d Hin. rewrite postedBy_turn in Hin by exact I. cbn in Hin.
    apply elem_of_nil in Hin. contradiction.
  - split; [apply pending_kept; auto|].
    cbn [trace]. apply answered_quiet; [exact Ha|].
    intros d Hin. rewrite postedBy_turn in Hin by exact I. cbn in Hin.
    apply elem_of_nil in Hin. contradiction.
Qed.

Lemma causal_run sessionId steps :
  Causal isCommand (run isCommand py sessionId steps).
Proof.
  apply (run_invariant isCommand py (Causal isCommand)).
  - apply causal_boot.
  - apply causal_next.
Qed.

End Order.

(** ** Claims about whole sessions *)

Lemma run_trace_grows isCommand py sessionId steps :
  exists rest,
    trace (run isCommand py sessionId steps) = trace (boot py sessionId) ++ rest.
Proof.
  apply (run_invariant isCommand py
           (fun s => exists rest, trace s = trace (boot py sessionId) ++ rest)).
  - exists []. rewrite app_nil_r. reflexivity.
  - intros s s' [rest Hs] Hn.
    destruct Hn; cbn [trace]; rewrite Hs, <- app_assoc; eauto.
Qed.

(** C1.  In every session, whatever the script yields, whatever the Command
    Handler answers and however the turns of the two threads interleave:
    every [nextRunCycle] that the Engine posts carries the response with which
    the handler's promise for a received command was fulfilled before; the
    Engine has posted no more [nextRunCycle] messages than it has received
    recognized commands; and at most one cycle is under way, counting a
    stimulus on its way to the worker, a command on its way to the Engine and
    a command with the Command Handler. *)
Theorem strict_alternation
    (isCommand : Value -> bool) (py : Pyodide) (sessionId : string) (steps : list Step) :
  let s := run isCommand py sessionId steps in
  Answered isCommand (trace s)
  /\ countIf (isMsg "nextRunCycle") (postedBy MainThread (trace s))
     <= countIf (isCommandMsg isCommand) (receivedBy MainThread (trace s))
  /\ inFlight s <= 1
  /\ outstanding (engine s) <= 1.
Proof.
  intros s.
  destruct (causal_run isCommand py sessionId steps) as [_ Ha].
  destruct (conserved_run isCommand py sessionId steps) as (_ & _ & _ & H4 & H5).
  fold s in Ha, H4, H5. unfold inFlight in *.
  repeat split; [exact Ha|lia|lia|lia].
Qed.

Lemma strict_alternation_witness :
  let s := run isCommandByTag (scriptedPyodide demoScript) "123" demoSteps in
  countIf (isMsg "nextRunCycle") (postedBy MainThread (trace s)) = 1
  /\ countIf (isCommandMsg isCommandByTag) (receivedBy MainThread (trace s)) = 2
  /\ inFlight s <= 1.
Proof.
  split; [vm_compute; reflexivity|]. split; [vm_compute; reflexivity|].
  apply (strict_alternation isCommandByTag (scriptedPyodide demoScript) "123" demoSteps).
Defined.

(** C9.  The constructor calls the Command Handler once, with the object
    [{ __type__: 'CommandSystemDonate', key, json_string }] whose key is the
    session id followed by [-tracking] and whose [json_string] is the JSON
    text of [{ message: 'user started' }], 26 characters that are spelled out
    below by their codes; it posts nothing, leaves [resolveInitialized]
    unassigned, and attaches two empty handlers, so that the Engine does
    nothing when that promise settles either way.  In every session this call
    is the first event, before [start()] and before any message. *)
Theorem constructor_tracks_user_start
    (isCommand : Value -> bool) (py : Pyodide) (sessionId : string) :
  let json := String.string_of_list_ascii
                (map Ascii.ascii_of_nat
                   [123; 34; 109; 101; 115; 115; 97; 103; 101; 34; 58; 34; 117; 115; 101;
                    114; 32; 115; 116; 97; 114; 116; 101; 100; 34; 125]) in
  let donate := VObj [("__type__", VStr "CommandSystemDonate");
                      ("key", VStr (sessionId +:+ "-tracking"));
                      ("json_string", VStr json)] in
  JSON_stringify (VObj [("message", VStr "user started")]) = Some json
  /\ getProp donate "__type__" = Normal (VStr "CommandSystemDonate")
  /\ getProp donate "key" = Normal (VStr (sessionId +:+ "-tracking"))
  /\ getProp donate "json_string" = Normal (VStr json)
  /\ (exists e,
        Engine.constructor sessionId = (Normal tt, e, [OnCommand donate 0])
        /\ Engine.sessionId e = sessionId
        /\ Engine.resolveInitialized e = None
        /\ Engine.reactions e = {[0 := Engine.RNoop]}
        /\ forall o, Engine.settle 0 o e = (Normal tt, Engine.setReactions ∅ e, []))
  /\ (forall steps,
        let t := trace (run isCommand py sessionId steps) in
        t !! 0 = Some (Did MainThread (OnCommand donate 0))
        /\ forall i, t !! i = Some StartCalled \/
                     (exists data, t !! i = Some (Did MainThread (PostMessage data))) ->
                     0 < i).
Proof.
  intros json donate.
  split; [reflexivity|]. split; [reflexivity|]. split; [reflexivity|].
  split; [reflexivity|]. split.
  - eexists. split; [reflexivity|]. split; [reflexivity|]. split; [reflexivity|].
    split; [reflexivity|].
    intros o. rewrite settle_noop by (cbn; apply lookup_insert_eq).
    cbn. rewrite delete_insert_eq, delete_empty. reflexivity.
  - intros steps t.
    destruct (run_trace_grows isCommand py sessionId steps) as [rest Hr].
    fold t in Hr. cbn in Hr.
    assert (H0 : t !! 0 = Some (Did MainThread (OnCommand donate 0))).
    { rewrite Hr. reflexivity. }
    split; [exact H0|].
    intros i [Hi|[data Hi]]; destruct i; try lia; rewrite H0 in Hi; discriminate.
Qed.

(** ** The handshake of the initialisation *)

Lemma initialisePosted_mono t new a :
  InitialisePosted t a -> InitialisePosted (t ++ new) a.
Proof. apply lookup_app_l_Some. Qed.

Lemma firstRunCycle_quiet sessionId t new :
  FirstRunCycleOrdered sessionId t ->
  (forall data, data ∈ postedBy MainThread new -> isMsg "firstRunCycle" data = false) ->
  FirstRunCycleOrdered sessionId (t ++ new).
Proof.
  intros Ho Hq i data Hi Hm.
  apply lookup_new in Hi. destruct Hi as [Hi|(k & -> & Hk)].
  - destruct (Ho i data Hi Hm)
      as (-> & a & c & d & j & p & done & ? & ? & ? & ? & Ha & Hdone & Hc & Hd & Hj).
    split; [reflexivity|].
    exists a, c, d, j, p, done.
    repeat split; auto using lookup_app_l_Some, initialisePosted_mono.
  - apply lookup_postedBy in Hk. rewrite (Hq data Hk) in Hm. discriminate.
Qed.

Lemma lookup_map_logs th (logs : list Effect) k ev :
  Forall isConsoleLog logs ->
  map (Did th) logs !! k = Some ev ->
  exists e, ev = Did th e /\ isConsoleLog e.
Proof.
  intros Hlogs. revert k.
  induction Hlogs as [|e logs He _ IH]; intros k H; [destruct k; discriminate|].
  destruct k as [|k]; cbn in H.
  - inversion H; subst. eauto.
  - apply (IH k H).
Qed.

Lemma lookup_turn_inv cause th c (logs rest : list Effect) k ev :
  Forall isConsoleLog logs ->
  (cause :: events th c (logs ++ rest)) !! k = Some ev ->
  k = 0 /\ ev = cause
  \/ (exists e, ev = Did th e /\ isConsoleLog e)
  \/ (exists k', k = 1 + length logs + k'
                 /\ (map (Did th) rest
                       ++ match c with Normal _ => [] | Abrupt e => [Uncaught th e] end) !! k'
                    = Some ev).
Proof.
  intros Hlogs H. destruct k as [|k]; [left; cbn in H; inversion H; auto|right].
  cbn in H. unfold events in H. rewrite map_app, <- app_assoc in H.
  apply lookup_app_Some in H. destruct H as [H|[Hle H]].
  - left. apply (lookup_map_logs th logs k ev Hlogs H).
  - right. rewrite length_map in *. exists (k - length logs). split; [lia|exact H].
Qed.

Section HandshakeFacts.

Variable isCommand : Value -> bool.
Variable py : Pyodide.
Variable sessionId : string.

Lemma handshake_boot : Handshake sessionId (boot py sessionId).
Proof.
  split; [reflexivity|]. split; [discriminate|]. split.
  - intros done Hin. cbn in Hin. apply elem_of_nil in Hin. contradiction.
  - intros i data Hi. cbn in Hi. destruct i; cbn in Hi; discriminate.
Qed.

Lemma started_kept (s : System py) new :
  (started s = true -> exists a, InitialisePosted (trace s) a) ->
  started s = true -> exists a, InitialisePosted (trace s ++ new) a.
Proof.
  intros H Hs. destruct (H Hs) as [a Ha]. exists a.
  apply initialisePosted_mono. exact Ha.
Qed.

Lemma queue_kept (t new : list Event) (q q' : list Value) :
  (forall done,
     done ∈ q -> isMsg "initialiseDone" done = true ->
     exists a c, a < c /\ InitialisePosted t a
                 /\ t !! c = Some (Did WorkerThread (PostMessage done))) ->
  (forall done, done ∈ q' -> isMsg "initialiseDone" done = true -> done ∈ q) ->
  forall done,
    done ∈ q' -> isMsg "initialiseDone" done = true ->
    exists a c, a < c /\ InitialisePosted (t ++ new) a
                /\ (t ++ new) !! c = Some (Did WorkerThread (PostMessage done)).
Proof.
  intros Hq Hsub done Hin Hm.
  destruct (Hq done (Hsub done Hin Hm) Hm) as (a & c & Hlt & Ha & Hc).
  exists a, c. repeat split; auto using lookup_app_l_Some, initialisePosted_mono.
Qed.

Ltac no_first_run_cycle Hlogs :=
  let d := fresh "d" in
  let Hin := fresh "Hin" in
  intros d Hin; rewrite postedBy_turn in Hin by exact I; cbn [isThread] in Hin;
  rewrite ?posted_app, ?(posted_logs _ Hlogs) in Hin; cbn in Hin;
  first [ apply elem_of_nil in Hin; contradiction
        | apply list_elem_of_singleton in Hin; subst; reflexivity ].

Lemma handshake_next (s s' : System py) :
  Conserved isCommand s -> Handshake sessionId s -> Next isCommand py s s' ->
  Handshake sessionId s'.
Proof.
  intros (_ & C2 & _) (Hsid & Hst & Hq & Ho) Hn. subst sessionId.
  assert (Hnil : Forall isConsoleLog []) by constructor.
  destruct Hn as [c e es Hstart Ht|data rest c e es Hd Ht|p o c e es Ht
                 |data rest c w es Hd Ht|i fulfilled c w es Ht];
    unfold Handshake; cbn [engine worker toWorker toEngine started trace].
  - inversion Ht; subst. split; [reflexivity|]. split; [|split].
    + intros _. exists (length (trace s) + 1 + 1).
      apply (lookup_effect (trace s) StartCalled MainThread (Normal tt)
               [ConsoleLog [VStr "[WorkerProcessingEngine] started"]]
               (PostMessage msgInitialise) []).
    + apply (queue_kept _ _ (toEngine s)); auto.
    + apply firstRunCycle_quiet; [exact Ho|]. no_first_run_cycle Hnil.
  - rewrite Hd in Hq.
    inversion Ht as [|? ? logs Hlogs|? logs Hev Hr Hlogs
                    |? command logs Hev Hs Hc Hlogs| |]; subst.
    + split; [reflexivity|]. split; [apply started_kept; exact Hst|]. split.
      * apply (queue_kept _ _ (data :: rest)); auto.
        intros done Hin _. apply list_elem_of_further. exact Hin.
      * apply firstRunCycle_quiet; [exact Ho|]. no_first_run_cycle Hlogs.
    + split; [reflexivity|]. split; [apply started_kept; exact Hst|]. split.
      * apply (queue_kept _ _ (data :: rest)); auto.
        intros done Hin _. apply list_elem_of_further. exact Hin.
      * intros i d Hi Hm.
        apply lookup_new in Hi. destruct Hi as [Hi|(k & -> & Hk)].
        { destruct (Ho i d Hi Hm)
            as (-> & a & c0 & d0 & j & p & done & ? & ? & ? & ? & Ha & Hdone & Hc0 & Hd0 & Hj).
          split; [reflexivity|].
          exists a, c0, d0, j, p, done.
          repeat split; auto using lookup_app_l_Some, initialisePosted_mono. }
        apply (lookup_turn_inv _ _ _ logs _ k _ Hlogs) in Hk.
        destruct Hk as [[_ Hk]|[(e0 & Hk & He0)|(k' & -> & Hk)]].
        { discriminate. }
        { inversion Hk; subst. contradiction. }
        destruct k' as [|[|k']]; cbn in Hk; try discriminate.
        inversion Hk; subst. split; [reflexivity|].
        destruct (Hq data) as (a & c0 & Hlt & Ha & Hc0).
        { apply list_elem_of_here. }
        { apply isMsg_getProp. exact Hev. }
        assert (c0 < length (trace s)) by (apply lookup_lt_Some in Hc0; exact Hc0).
        exists a, c0, (length (trace s)), (length (trace s) + 1 + length logs),
          (Engine.nextPromise (engine s)), data.
        repeat split; auto; try lia.
        -- apply initialisePosted_mono. exact Ha.
        -- apply isMsg_getProp. exact Hev.
        -- apply lookup_app_l_Some. exact Hc0.
        -- apply list_lookup_middle. reflexivity.
        -- apply lookup_effect.
    + split; [reflexivity|]. split; [apply started_kept; exact Hst|]. split.
      * apply (queue_kept _ _ (data :: rest)); auto.
        intros done Hin _. apply list_elem_of_further. exact Hin.
      * apply firstRunCycle_quiet; [exact Ho|]. no_first_run_cycle Hlogs.
  - inversion Ht as [| | | |? response Hr|? ? r Hr Hdrop]; subst.
    + split; [reflexivity|]. split; [apply started_kept; exact Hst|]. split.
      * apply (queue_kept _ _ (toEngine s)); auto.
      * apply firstRunCycle_quiet; [exact Ho|]. no_first_run_cycle Hnil.
    + split; [reflexivity|]. split; [apply started_kept; exact Hst|]. split.
      * apply (queue_kept _ _ (toEngine s)); auto.
      * apply firstRunCycle_quiet; [exact Ho|]. no_first_run_cycle Hnil.
  - split; [reflexivity|]. split; [apply started_kept; exact Hst|]. split.
    + apply (queue_kept _ _ (toEngine s)); auto.
      intros done Hin Hm. apply elem_of_app in Hin. destruct Hin as [Hin|Hin]; [exact Hin|].
      exfalso.
      inversion Ht as [? ? ? logs Hlen Hlogs|? logs Hev Hlogs
                      |? ? logs scriptEvent Hev Hlen Hlogs| |]; subst.
      * rewrite (posted_logs _ Hlogs) in Hin. apply elem_of_nil in Hin. exact Hin.
      * rewrite (posted_logs _ Hlogs) in Hin. apply elem_of_nil in Hin. exact Hin.
      * rewrite posted_app, (posted_logs _ Hlogs) in Hin. cbn in Hin.
        apply list_elem_of_singleton in Hin. subst. discriminate.
    + apply firstRunCycle_quiet; [exact Ho|]. no_first_run_cycle Hnil.
  - split; [reflexivity|]. split; [apply started_kept; exact Hst|]. split.
    + inversion Ht as [? ? ? logs Hlen Hlogs| | |? stage Hs|? Hs]; subst.
      * apply (queue_kept _ _ (toEngine s)); auto.
        intros done Hin Hm. apply elem_of_app in Hin. destruct Hin as [Hin|Hin]; [exact Hin|].
        rewrite (posted_logs _ Hlogs) in Hin. apply elem_of_nil in Hin. contradiction.
      * apply (queue_kept _ _ (toEngine s)); auto.
        intros done Hin Hm. apply elem_of_app in Hin. destruct Hin as [Hin|Hin]; [exact Hin|].
        apply elem_of_nil in Hin. contradiction.
      * intros done Hin Hm. apply elem_of_app in Hin. destruct Hin as [Hin|Hin].
        { apply (queue_kept _ _ (toEngine s) (toEngine s)); auto. }
        cbn in Hin. apply list_elem_of_singleton in Hin. subst done.
        assert (Hs' : started s = true).
        { apply lookup_lt_Some in Hs. unfold initialisation in C2.
          destruct (started s); [reflexivity|lia]. }
        destruct (Hst Hs') as [a Ha].
        assert (a < length (trace s)) by (apply lookup_lt_Some in Ha; exact Ha).
        exists a, (length (trace s) + 1 + 0). split; [lia|]. split.
        -- apply initialisePosted_mono. exact Ha.
        -- apply (lookup_effect (trace s) (InitialiseSettled i true) WorkerThread
                    (Normal tt) [] (PostMessage msgInitialiseDone) []).
    + apply firstRunCycle_quiet; [exact Ho|]. no_first_run_cycle Hnil.
Qed.

Lemma handshake_run steps :
  Handshake sessionId (run isCommand py sessionId steps).
Proof.
  apply (run_invariant isCommand py
           (fun s => Conserved isCommand s /\ Handshake sessionId s)).
  - split; [apply conserved_boot|apply handshake_boot].
  - intros s s' [Hc Hh] Hn. split.
    + apply (conserved_next isCommand py s s' Hc Hn).
    + apply (handshake_next s s' Hc Hh Hn).
Qed.

End HandshakeFacts.

(** ** The loading stages *)

Lemma stages_turn fulfilled cause th c es :
  countIf (stageSettled fulfilled) (cause :: events th c es)
  = if stageSettled fulfilled cause then 1 else 0.
Proof.
  cbn [countIf]. assert (H : countIf (stageSettled fulfilled) (events th c es) = 0).
  { unfold events. rewrite countIf_app.
    assert (H : countIf (stageSettled fulfilled) (map (Did th) es) = 0).
    { induction es as [|e es IH]; [reflexivity|exact IH]. }
    rewrite H. destruct c; reflexivity. }
  rewrite H. lia.
Qed.

Section LoadingFacts.

Variable isCommand : Value -> bool.
Variable py : Pyodide.

(** A message to the worker other than [initialise] leaves the pending calls
    of [initialise()] alone; no message makes it post [initialiseDone]. *)
Lemma worker_onmessage_pending data w c w' es :
  Worker.onmessage py data w = (c, w', es) ->
  countIf (isMsg "initialiseDone") (posted es) = 0
  /\ Worker.initialising w'
     = Worker.initialising w
       ++ (if isMsg "initialise" data then [Worker.LoadingPyodide] else []).
Proof.
  intros H.
  unfold isMsg.
  destruct (getProp data "eventType") as [eventType|err] eqn:Ht.
  2:{ unfold Worker.onmessage in H. run_js_in H. rewrite Ht in H.
      inversion H; subst. rewrite app_nil_r. auto. }
  destruct (strictEqStr eventType "initialise") eqn:H1.
  { unfold Worker.onmessage, Worker.initialise in H. run_js_in H.
    rewrite Ht, H1 in H. inversion H; subst. auto. }
  destruct (strictEqStr eventType "firstRunCycle") eqn:H2.
  { unfold Worker.onmessage, Worker.self_pyodide in H. run_js_in H.
    rewrite Ht, H1, H2 in H. rewrite app_nil_r.
    destruct (getProp data "sessionId") as [sessionId|];
      [|inversion H; subst; auto].
    destruct (Worker.pyodide w) as [fs|];
      [|inversion H; subst; auto].
    destruct (runPython py _) as [script|];
      [|inversion H; subst; auto].
    cbn -[Worker.runCycle] in H.
    destruct (runCycle_posts_once py (Worker.setPyScript py (Some script) w) VNull)
      as (w1 & scriptEvent & Hr & _ & Hi).
    rewrite Hr in H. cbn [app] in H. inversion H; subst.
    split; [reflexivity|exact Hi]. }
  destruct (strictEqStr eventType "nextRunCycle") eqn:H3.
  { unfold Worker.onmessage in H. run_js_in H. rewrite Ht, H1, H2, H3 in H.
    rewrite app_nil_r.
    destruct (getProp data "response") as [response|];
      [|inversion H; subst; auto].
    destruct (Worker.unwrap py response w) as [[c1 w1] es1] eqn:Hu.
    apply unwrap_frame in Hu. destruct Hu as [Hlogs Hi].
    destruct c1 as [[userInput|reason]|err].
    - destruct (runCycle_posts_once py w1 userInput)
        as (w2 & scriptEvent & Hr & _ & Hi2).
      rewrite Hr in H. inversion H; subst.
      rewrite posted_app, (posted_logs _ Hlogs). split; [reflexivity|congruence].
    - inversion H; subst. rewrite ?app_nil_l, ?app_nil_r.
      rewrite (posted_logs _ Hlogs). split; [reflexivity|congruence].
    - inversion H; subst. rewrite (posted_logs _ Hlogs). split; [reflexivity|congruence]. }
  rewrite (onmessage_unsupported_worker py data eventType w Ht H1 H2 H3) in H.
  inversion H; subst. rewrite app_nil_r. auto.
Qed.

Lemma loading_boot sessionId : Loading (boot py sessionId).
Proof.
  unfold Loading. cbn. split; [auto|]. split; [left; auto|lia].
Qed.

Lemma loading_step (s : System py) st :
  Conserved isCommand s -> Loading s -> Loading (step isCommand py s st).
Proof.
  intros (C1 & C2 & C3 & _ & _) HL.
  assert (HL' := HL). destruct HL' as (L1 & L2 & L3).
  destruct st as [| | |p o|i fulfilled]; unfold step.
  - destruct (started s) eqn:Hst; [exact HL|].
    unfold engineTurn.
    change (Engine.start (engine s))
      with (Normal tt, Engine.setResolveInitialized (Some Engine.InitPending) (engine s),
            [ConsoleLog [VStr "[WorkerProcessingEngine] started"]; PostMessage msgInitialise]).
    unfold Loading, stagesLoaded, stagesFailed, initialisation in *.
    cbn [engine worker toWorker toEngine started trace].
    rewrite ?postedBy_app, ?postedBy_turn, ?countIf_app, ?stages_turn by exact I.
    cbn. rewrite ?Nat.add_0_r.
    destruct (Worker.initialising (worker s)) as [|stage [|? ?]]; intuition lia.
  - destruct (toWorker s) as [|data rest] eqn:Hq; [exact HL|].
    destruct (Worker.onmessage py data (worker s)) as [[c w] es] eqn:Hm.
    destruct (worker_onmessage_pending data (worker s) c w es Hm) as [Hd Hp].
    unfold workerTurn.
    unfold Loading, stagesLoaded, stagesFailed, initialisation in *.
    cbn [engine worker toWorker toEngine started trace].
    rewrite ?postedBy_app, ?postedBy_turn, ?countIf_app, ?stages_turn by exact I.
    cbn [isThread stageSettled]. rewrite Hp, Hd. rewrite Hq in *. cbn [countIf] in *.
    destruct (isMsg "initialise" data) eqn:Hi.
    + rewrite ?Nat.add_0_r.
      destruct (Worker.initialising (worker s)) as [|stage [|? ?]];
        cbn [app length] in *; destruct (started s); cbn in *; intuition lia.
    + rewrite ?Nat.add_0_r, ?app_nil_r.
      destruct (Worker.initialising (worker s)) as [|stage [|? ?]];
        cbn [app length] in *; destruct (started s); cbn in *; intuition lia.
  - destruct (toEngine s) as [|data rest] eqn:Hq; [exact HL|].
    destruct (Engine.onmessage isCommand data (engine s)) as [[c e] es] eqn:Hm.
    apply engine_onmessage_turn in Hm.
    unfold engineTurn.
    unfold Loading, stagesLoaded, stagesFailed, initialisation in *.
    cbn [engine worker toWorker toEngine started trace].
    rewrite ?postedBy_app, ?postedBy_turn, ?countIf_app, ?stages_turn by exact I.
    cbn [isThread stageSettled]. rewrite Hq in *. cbn [countIf] in *.
    inversion Hm; subst; clear Hm;
      rewrite ?posted_app;
      repeat match goal with
             | H : Forall isConsoleLog ?l |- _ => rewrite ?(posted_logs l H); clear H
             end;
      repeat match goal with
             | Hev : getProp ?d "eventType" = Normal (VStr ?a), H : context [isMsg ?ty ?d] |- _ =>
                 rewrite (isMsg_of ty d a Hev) in H
             | Hev : getProp ?d "eventType" = Normal (VStr ?a) |- context [isMsg ?ty ?d] =>
                 rewrite (isMsg_of ty d a Hev)
             end;
      cbn in *; rewrite ?Nat.add_0_r in *;
      destruct (Worker.initialising (worker s)) as [|stage [|? ?]];
      destruct (started s); cbn in *; split_ifs; intuition lia.
  - destruct (Engine.reactions (engine s) !! p) as [r|] eqn:Hr; [|exact HL].
    destruct (Engine.settle p o (engine s)) as [[c e] es] eqn:Hm.
    apply (engine_settle_turn isCommand p o r (engine s) c e es Hr) in Hm.
    unfold engineTurn.
    unfold Loading, stagesLoaded, stagesFailed, initialisation in *.
    cbn [engine worker toWorker toEngine started trace].
    rewrite ?postedBy_app, ?postedBy_turn, ?countIf_app, ?stages_turn by exact I.
    cbn [isThread stageSettled]. cbn [countIf] in *.
    inversion Hm; subst; clear Hm;
      cbn in *; rewrite ?Nat.add_0_r in *;
      destruct (Worker.initialising (worker s)) as [|stage [|? ?]];
      destruct (started s); cbn in *; intuition lia.
  - destruct (Worker.initialising (worker s) !! i) as [stage|] eqn:Hs; [|exact HL].
    unfold workerTurn, Worker.initialiseSettles. run_js. rewrite Hs.
    unfold Loading, stagesLoaded, stagesFailed, initialisation in *.
    destruct (Worker.initialising (worker s)) as [|stage' [|? ?]] eqn:Hp;
      [rewrite lookup_nil in Hs; discriminate| |contradiction].
    destruct i as [|i]; [|discriminate]. cbn in Hs. inversion Hs; subst stage'.
    destruct fulfilled, stage; lazy beta iota zeta;
      cbn [engine worker toWorker toEngine started trace Worker.initialising
           Worker.setInitialising Worker.setPyodide app];
      rewrite ?postedBy_app, ?postedBy_turn, ?countIf_app, ?stages_turn by exact I;
      cbn in *; rewrite ?Nat.add_0_r in *;
      destruct (started s); cbn in *; intuition lia.
Qed.

Lemma loading_run sessionId steps : Loading (run isCommand py sessionId steps).
Proof.
  assert (H : forall steps s,
             Conserved isCommand s -> Loading s ->
             Loading (fold_left (step isCommand py) steps s)).
  { clear steps. induction steps as [|st steps IH]; intros s Hc Hl; cbn; [exact Hl|].
    apply IH; [|apply loading_step; assumption].
    destruct (step_is_Next isCommand py s st) as [-> | Hn]; [exact Hc|].
    apply (conserved_next isCommand py s _ Hc Hn). }
  apply H; [apply conserved_boot|apply loading_boot].
Qed.

(** What the progress of the initialisation says about the messages *)
Lemma loading_outcome (s : System py) :
  Conserved isCommand s -> Loading s ->
  countIf (isMsg "initialiseDone") (postedBy WorkerThread (trace s))
  = (if Nat.eqb (stagesLoaded (trace s)) 3 then 1 else 0)
  /\ stagesLoaded (trace s) <= 3
  /\ stagesFailed (trace s) <= 1
  /\ (1 <= stagesFailed (trace s) -> stagesLoaded (trace s) < 3 /\ Hung s)
  /\ countIf (isMsg "firstRunCycle") (postedBy MainThread (trace s))
     <= countIf (isMsg "initialiseDone") (postedBy WorkerThread (trace s)).
Proof.
  intros (C1 & C2 & C3 & _ & _) (L1 & L2 & L3).
  unfold Hung, initialisation in *.
  destruct (Worker.initialising (worker s)) as [|stage [|? ?]]; [| |contradiction].
  - destruct L2 as [(Ha & Hb & Hc)|[(Ha & Hb & Hc)|(Ha & Hb & Hc)]];
      rewrite ?Ha, ?Hb, ?Hc in *; cbn [Nat.eqb length] in *.
    + repeat split; try lia.
    + repeat split; try lia.
    + destruct (started s); [|destruct L1; [auto|lia]].
      destruct (countIf (isMsg "initialise") (toWorker s)) as [|n] eqn:Hw;
        [|destruct L1; [right; lia|lia]].
      assert (He : Nat.eqb (stagesLoaded (trace s)) 3 = false) by (apply Nat.eqb_neq; lia).
      rewrite He. repeat split; lia.
  - destruct L2 as (Ha & Hb & Hc). rewrite Ha, Hb, Hc in *.
    destruct stage; cbn; repeat split; lia.
Qed.

End LoadingFacts.

(** C3, as the spec states it, fails: when a loading stage of [initialise()]
    rejects, the worker posts no [initialiseDone] and the Engine no
    [firstRunCycle], whatever happens afterwards.  [start()] has posted its
    one [initialise]. *)
Lemma initialise_failure_hangs :
  (let s := run isCommandByTag (scriptedPyodide demoScript) "123" failingStart in
   started s = true
   /\ postedBy MainThread (trace s) = [msgInitialise]
   /\ toWorker s = [] /\ toEngine s = [] /\ Worker.initialising (worker s) = [])
  /\ (forall more,
        let s := run isCommandByTag (scriptedPyodide demoScript) "123"
                   (failingStart ++ more) in
        countIf (isMsg "initialiseDone") (postedBy WorkerThread (trace s)) = 0
        /\ countIf (isMsg "firstRunCycle") (postedBy MainThread (trace s)) = 0).
Proof.
  split; [vm_compute; repeat split; reflexivity|].
  intros more s.
  assert (Hh : Hung s).
  { unfold s, run. rewrite fold_left_app.
    apply (steps_invariant isCommandByTag (scriptedPyodide demoScript) Hung
             (hung_next isCommandByTag (scriptedPyodide demoScript))).
    vm_compute. repeat split; reflexivity. }
  destruct Hh as (_ & _ & Hd & Hf). auto.
Qed.

(** C3, amended.  In every session: once [start()] has been called the Engine
    has posted exactly one [initialise]; the worker posts at most one
    [initialiseDone] and the Engine at most one [firstRunCycle]; a
    [firstRunCycle] carries the session id and comes after the [initialise]
    was posted, an [initialiseDone] was posted by the worker and received by
    the Engine, and the call of the Command Handler with the system event
    [initialized], in this order, that call immediately before it.  The
    worker has posted its [initialiseDone] exactly when three loading stages
    have fulfilled, and the Engine no [firstRunCycle] without it.  At most
    one stage rejects, and once one has, fewer than three have fulfilled and
    the session is hung, whatever happens afterwards: no [initialiseDone] and
    no [firstRunCycle] is ever posted.  A start in which the three stages
    fulfil gives one of each message.  The Engine posts [firstRunCycle] in
    the turn in which it calls the handler, with two empty handlers on the
    promise, so that it does nothing when the promise settles either way. *)
Theorem initialisation_handshake
    (isCommand : Value -> bool) (py : Pyodide) (sessionId : string) (steps : list Step) :
  let s := run isCommand py sessionId steps in
  let done := countIf (isMsg "initialiseDone") (postedBy WorkerThread (trace s)) in
  let first := countIf (isMsg "firstRunCycle") (postedBy MainThread (trace s)) in
  countIf (isMsg "initialise") (postedBy MainThread (trace s))
    = (if started s then 1 else 0)
  /\ done <= 1
  /\ first <= 1
  /\ FirstRunCycleOrdered sessionId (trace s)
  /\ done = (if Nat.eqb (stagesLoaded (trace s)) 3 then 1 else 0)
  /\ first <= done
  /\ stagesLoaded (trace s) <= 3
  /\ stagesFailed (trace s) <= 1
  /\ (1 <= stagesFailed (trace s) ->
      stagesLoaded (trace s) < 3
      /\ forall more, Hung (run isCommand py sessionId (steps ++ more)))
  /\ (let s1 := run isCommand py sessionId successfulStart in
      postedBy MainThread (trace s1) = [msgInitialise; msgFirstRunCycle (VStr sessionId)]
      /\ postedBy WorkerThread (trace s1) = [msgInitialiseDone]
      /\ toWorker s1 = [msgFirstRunCycle (VStr sessionId)])
  /\ (forall e,
        Engine.resolveInitialized e = Some Engine.InitPending ->
        let p := Engine.nextPromise e in
        exists logs e1,
          Engine.onmessage isCommand msgInitialiseDone e
            = (Normal tt, e1,
               logs ++ [OnCommand (CommandSystemEvent "initialized") p;
                        PostMessage (msgFirstRunCycle (VStr (Engine.sessionId e)))])
          /\ Forall isConsoleLog logs
          /\ Engine.reactions e1 !! p = Some Engine.RNoop
          /\ forall o, exists e2, Engine.settle p o e1 = (Normal tt, e2, [])).
Proof.
  intros s done first.
  pose proof (conserved_run isCommand py sessionId steps) as Hc.
  pose proof (loading_run isCommand py sessionId steps) as Hl.
  destruct (handshake_run isCommand py sessionId steps) as (_ & _ & _ & Ho).
  fold s in Hc, Hl, Ho.
  destruct (loading_outcome isCommand py s Hc Hl) as (L1 & L2 & L3 & L4 & L5).
  destruct Hc as (H1 & H2 & H3 & _).
  split; [exact H1|]. split; [unfold done; lia|]. split; [unfold first; lia|].
  split; [exact Ho|]. split; [exact L1|]. split; [exact L5|].
  split; [exact L2|]. split; [exact L3|]. split; [|split].
  - intros Hf. destruct (L4 Hf) as [Hlt Hh]. split; [exact Hlt|].
    intros more. unfold run. rewrite fold_left_app.
    apply (steps_invariant isCommand py Hung (hung_next isCommand py)). exact Hh.
  - repeat split; reflexivity.
  - intros e Hr p.
    assert (Hm := onmessage_initialiseDone isCommand msgInitialiseDone e eq_refl).
    rewrite (callResolveInitialized_pending e Hr) in Hm.
    eexists _, _. split; [exact Hm|]. split; [repeat constructor|].
    split; [cbn; apply lookup_insert_eq|].
    intros o. eexists. apply settle_noop. cbn. apply lookup_insert_eq.
Qed.

Lemma initialisation_handshake_witness :
  let py := scriptedPyodide demoScript in
  let s := run isCommandByTag py "123" demoSteps in
  let hung := run isCommandByTag py "123" failingStart in
  (stagesLoaded (trace s) = 3
   /\ countIf (isMsg "initialiseDone") (postedBy WorkerThread (trace s)) = 1
   /\ countIf (isMsg "firstRunCycle") (postedBy MainThread (trace s)) <= 1
   /\ FirstRunCycleOrdered "123" (trace s))
  /\ (stagesFailed (trace hung) = 1
      /\ stagesLoaded (trace hung) < 3
      /\ forall more, Hung (run isCommandByTag py "123" (failingStart ++ more))).
Proof.
  intros py s hung. split.
  - destruct (initialisation_handshake isCommandByTag py "123" demoSteps)
      as (_ & _ & H3 & H4 & H5 & _).
    assert (Hs : stagesLoaded (trace s) = 3) by (vm_compute; reflexivity).
    fold s in H3, H4, H5. rewrite Hs in H5.
    split; [exact Hs|]. split; [exact H5|]. split; [exact H3|exact H4].
  - destruct (initialisation_handshake isCommandByTag py "123" failingStart)
      as (_ & _ & _ & _ & _ & _ & _ & _ & H9 & _).
    assert (Hf : stagesFailed (trace hung) = 1) by (vm_compute; reflexivity).
    fold hung in H9. split; [exact Hf|]. apply H9. rewrite Hf. lia.
Defined.

(** * More properties of the code *)

(** ** The Engine under any sequence of events *)

Lemma dispatched_app es1 es2 : dispatched (es1 ++ es2) = dispatched es1 ++ dispatched es2.
Proof. apply omap_app. Qed.

Lemma dispatched_logs logs : Forall isConsoleLog logs -> dispatched logs = [].
Proof.
  induction 1 as [|e logs He _ IH]; [reflexivity|].
  destruct e; cbn in He; try contradiction. exact IH.
Qed.

Lemma engineRun_snoc isCommand sessionId inputs i :
  engineRun isCommand sessionId (inputs ++ [i])
  = let '(e, es) := engineRun isCommand sessionId inputs in
    let '(_, e', es') := engineReact isCommand i e in
    (e', es ++ es').
Proof.
  unfold engineRun. rewrite fold_left_app. cbn [fold_left].
  destruct (fold_left _ inputs _) as [e es]. reflexivity.
Qed.

Lemma engine_onmessage_cases isCommand data e :
  (isCommandMsg isCommand data = true
   /\ exists command logs,
        getProp data "eventType" = Normal (VStr "runCycleDone")
        /\ getProp data "scriptEvent" = Normal command
        /\ isCommand command = true
        /\ Forall isConsoleLog logs
        /\ Engine.onmessage isCommand data e
           = (Normal tt,
              Engine.mkEngine (Engine.sessionId e) (Engine.resolveInitialized e)
                (<[Engine.nextPromise e := Engine.RNextRunCycle]> (Engine.reactions e))
                (S (Engine.nextPromise e)),
              logs ++ [OnCommand command (Engine.nextPromise e)]))
  \/ (isCommandMsg isCommand data = false
      /\ Engine.resolveInitialized e = Some Engine.InitPending
      /\ exists logs,
           Forall isConsoleLog logs
           /\ Engine.onmessage isCommand data e
              = (Normal tt,
                 Engine.mkEngine (Engine.sessionId e) (Some Engine.InitResolved)
                   (<[Engine.nextPromise e := Engine.RNoop]> (Engine.reactions e))
                   (S (Engine.nextPromise e)),
                 logs ++ [OnCommand (CommandSystemEvent "initialized") (Engine.nextPromise e);
                          PostMessage (msgFirstRunCycle (VStr (Engine.sessionId e)))]))
  \/ (isCommandMsg isCommand data = false
      /\ exists c logs,
           Forall isConsoleLog logs /\ Engine.onmessage isCommand data e = (c, e, logs)).
Proof.
  unfold isCommandMsg.
  destruct (getProp data "eventType") as [eventType|err] eqn:Ht.
  2:{ right. right. unfold isMsg. rewrite Ht. split; [reflexivity|].
      exists (Abrupt err), []. split; [constructor|].
      apply (onmessage_no_data isCommand data err e Ht). }
  destruct (strictEqStr eventType "initialiseDone") eqn:H1.
  { apply strictEqStr_true in H1. subst eventType.
    rewrite (isMsg_of _ data _ Ht). cbn [String.eqb Ascii.eqb Bool.eqb andb].
    rewrite (onmessage_initialiseDone isCommand data e Ht).
    destruct (Engine.resolveInitialized e) as [[|]|] eqn:Hr.
    - right. left. split; [reflexivity|]. split; [reflexivity|].
      rewrite (callResolveInitialized_pending e Hr).
      eexists [_; _; _]. split; [|reflexivity]. repeat constructor.
    - right. right. split; [reflexivity|].
      unfold Engine.callResolveInitialized. run_js. rewrite Hr.
      eexists _, _. split; [|reflexivity]. repeat constructor.
    - right. right. split; [reflexivity|].
      unfold Engine.callResolveInitialized. run_js. rewrite Hr.
      eexists _, _. split; [|reflexivity]. repeat constructor. }
  destruct (strictEqStr eventType "runCycleDone") eqn:H2.
  { apply strictEqStr_true in H2. subst eventType.
    rewrite (isMsg_of _ data _ Ht). cbn [String.eqb Ascii.eqb Bool.eqb andb].
    destruct (getProp_defined data _ _ "scriptEvent" Ht) as [scriptEvent Hs].
    rewrite Hs, (onmessage_runCycleDone isCommand data scriptEvent e Ht Hs).
    unfold Engine.handleRunCycle.
    destruct (isCommand scriptEvent) eqn:Hc.
    - left. split; [reflexivity|]. eexists scriptEvent, [_; _; _].
      rewrite onCommandThen_eq.
      split; [reflexivity|]. split; [reflexivity|]. split; [exact Hc|].
      split; [|reflexivity]. repeat constructor.
    - right. right. split; [reflexivity|].
      eexists _, _. split; [|reflexivity]. repeat constructor. }
  right. right. split.
  - unfold isMsg. rewrite Ht, H2. reflexivity.
  - eexists _, _. split; [|apply (onmessage_unsupported isCommand data eventType e Ht H1 H2)].
    repeat constructor.
Qed.

Lemma engineMessage_more sessionId inputs i data :
  EngineMessage sessionId inputs data -> EngineMessage sessionId (inputs ++ [i]) data.
Proof.
  intros [H|[H|(response & p & H & Hin)]]; [left; auto|right; left; auto|].
  right. right. exists response, p. split; [exact H|]. apply in_or_app. auto.
Qed.

Lemma engineCommand_more isCommand sessionId inputs i command :
  EngineCommand isCommand sessionId inputs command ->
  EngineCommand isCommand sessionId (inputs ++ [i]) command.
Proof.
  intros [H|[H|(Hc & data & Hin & H)]]; [left; auto|right; left; auto|].
  right. right. split; [exact Hc|]. exists data. split; [|exact H].
  apply in_or_app. auto.
Qed.

Lemma awaiting_le_1 e : awaitingInitialisation e <= 1.
Proof. unfold awaitingInitialisation. destruct (Engine.resolveInitialized e) as [[|]|]; lia. Qed.

Lemma outstanding_ge_1 e p :
  Engine.reactions e !! p = Some Engine.RNextRunCycle -> 1 <= outstanding e.
Proof. intros H. pose proof (outstanding_delete_next e p H). lia. Qed.

Ltac engine_counts Hlogs :=
  rewrite ?posted_app, ?dispatched_app, ?countIf_app, ?length_app, ?Forall_app,
    ?(posted_logs _ Hlogs), ?(dispatched_logs _ Hlogs);
  cbn [posted dispatched omap app countIf length isStart deliversCommand
       awaitingInitialisation Engine.resolveInitialized Engine.sessionId
       Engine.nextPromise Engine.setResolveInitialized Engine.setReactions].

Lemma engine_invariant isCommand sessionId inputs :
  EngineInvariant isCommand sessionId inputs (engineRun isCommand sessionId inputs).
Proof.
  induction inputs as [|i inputs IH] using rev_ind.
  { unfold engineRun, EngineInvariant. cbn [fold_left].
    change (Engine.constructor sessionId)
      with (Normal tt,
            Engine.mkEngine sessionId None (<[0 := Engine.RNoop]> ∅) 1,
            [OnCommand (CommandSystemDonate (sessionId +:+ "-tracking") userStartedJson) 0]).
    pose proof (outstanding_insert_noop sessionId None ∅ 1 0) as Ho.
    assert (Hz : outstanding (Engine.mkEngine sessionId None ∅ 1) = 0).
    { unfold outstanding. cbn. rewrite map_filter_empty. apply map_size_empty. }
    cbn. repeat split; try lia.
    - constructor.
    - constructor; [left; reflexivity|constructor]. }
  rewrite engineRun_snoc.
  destruct (engineRun isCommand sessionId inputs) as [e es].
  destruct IH as (Hsid & Ha & Hb & Hc & Hd & He & Hf & Hg).
  assert (Hf' : Forall (EngineMessage sessionId (inputs ++ [i])) (posted es)).
  { eapply Forall_impl; [exact Hf|]. intros. apply engineMessage_more. assumption. }
  assert (Hg' : Forall (EngineCommand isCommand sessionId (inputs ++ [i])) (dispatched es)).
  { eapply Forall_impl; [exact Hg|]. intros. apply engineCommand_more. assumption. }
  assert (Hnil : Forall isConsoleLog []) by constructor.
  unfold awaitingInitialisation in Hb.
  destruct i as [|data|p o]; cbn [engineReact].
  - cbn. unfold EngineInvariant.
    change [ConsoleLog [VStr "[WorkerProcessingEngine] started"]; PostMessage msgInitialise]
      with ([ConsoleLog [VStr "[WorkerProcessingEngine] started"]] ++ [PostMessage msgInitialise]).
    rewrite app_assoc. engine_counts Hnil.
    rewrite outstanding_setResolveInitialized. unfold awaitingInitialisation. cbn.
    destruct (Engine.resolveInitialized e) as [[|]|];
      (repeat split; auto; try lia; constructor; [left; reflexivity|constructor]).
  - destruct (engine_onmessage_cases isCommand data e)
      as [(Hm & command & logs & Ht & Hs & Hcmd & Hlogs & ->)
         |[(Hm & Hr & logs & Hlogs & ->)|(Hm & c & logs & Hlogs & ->)]];
      unfold EngineInvariant; engine_counts Hlogs; rewrite Hm.
    + pose proof (outstanding_insert_le (Engine.sessionId e) (Engine.resolveInitialized e)
                    (Engine.reactions e) (S (Engine.nextPromise e)) (Engine.nextPromise e)
                    Engine.RNextRunCycle) as Ho.
      change (outstanding (Engine.mkEngine (Engine.sessionId e) (Engine.resolveInitialized e)
                (Engine.reactions e) (S (Engine.nextPromise e))))
        with (outstanding e) in Ho.
      unfold awaitingInitialisation. cbn.
      destruct (Engine.resolveInitialized e) as [[|]|]; rewrite ?app_nil_r.
      all: repeat split; auto; try lia.
      all: constructor; [|constructor]; right; right; split; [exact Hcmd|].
      all: exists data; split; [apply in_or_app; right; left; reflexivity|]; auto.
    + pose proof (outstanding_insert_noop (Engine.sessionId e) (Some Engine.InitResolved)
                    (Engine.reactions e) (S (Engine.nextPromise e)) (Engine.nextPromise e)) as Ho.
      change (outstanding (Engine.mkEngine (Engine.sessionId e) (Some Engine.InitResolved)
                (Engine.reactions e) (S (Engine.nextPromise e))))
        with (outstanding e) in Ho.
      rewrite Hr in Hb. unfold awaitingInitialisation. cbn. rewrite ?app_nil_r.
      repeat split; auto; try lia.
      * constructor; [|constructor]. right. left. rewrite Hsid. reflexivity.
      * constructor; [|constructor]. right. left. reflexivity.
    + unfold awaitingInitialisation. cbn.
      destruct (Engine.resolveInitialized e) as [[|]|]; rewrite ?app_nil_r.
      all: repeat split; auto; try lia.
  - destruct (Engine.reactions e !! p) as [[|]|] eqn:Hp.
    + rewrite (settle_noop p o e Hp).
      pose proof (outstanding_delete_le e p) as Ho.
      unfold EngineInvariant. engine_counts Hnil. unfold awaitingInitialisation.
      cbn. destruct (Engine.resolveInitialized e) as [[|]|]; rewrite ?app_nil_r.
      all: repeat split; auto; try lia.
    + destruct o as [response|reason].
      * rewrite (settle_next_fulfilled p response e Hp).
        pose proof (outstanding_delete_next e p Hp) as Ho.
        unfold EngineInvariant.
        change [ConsoleLog [VStr "next cycle"]; PostMessage (msgNextRunCycle response)]
          with ([ConsoleLog [VStr "next cycle"]] ++ [PostMessage (msgNextRunCycle response)]).
        rewrite app_assoc. engine_counts Hnil. unfold awaitingInitialisation.
        cbn. destruct (Engine.resolveInitialized e) as [[|]|]; rewrite ?app_nil_r in *.
        all: repeat split; auto; try lia.
        all: constructor; [|constructor]; right; right; exists response, p.
        all: split; [reflexivity|]; apply in_or_app; right; left; reflexivity.
      * rewrite (settle_next_rejected p reason e Hp).
        pose proof (outstanding_delete_le e p) as Ho.
        unfold EngineInvariant. engine_counts Hnil. unfold awaitingInitialisation.
        cbn. destruct (Engine.resolveInitialized e) as [[|]|]; rewrite ?app_nil_r.
      all: repeat split; auto; try lia.
    + rewrite (settle_not_pending p o e Hp).
      unfold EngineInvariant. engine_counts Hnil. unfold awaitingInitialisation.
      cbn. destruct (Engine.resolveInitialized e) as [[|]|]; rewrite ?app_nil_r.
      all: repeat split; auto; try lia.
Qed.

Lemma interleaved_app {A} (a b c a' b' c' : list A) :
  Interleaved a b c -> Interleaved a' b' c' -> Interleaved (a ++ a') (b ++ b') (c ++ c').
Proof.
  intros H H'. induction H; cbn; [exact H'|constructor; assumption|constructor; assumption].
Qed.

Lemma interleaved_snoc_left {A} (a b c : list A) x :
  Interleaved a b c -> Interleaved (a ++ [x]) b (c ++ [x]).
Proof.
  intros H. rewrite <- (app_nil_r b).
  apply interleaved_app; [exact H|repeat constructor].
Qed.

Lemma interleaved_snoc_right {A} (a b c : list A) x :
  Interleaved a b c -> Interleaved a (b ++ [x]) (c ++ [x]).
Proof.
  intros H. rewrite <- (app_nil_r a).
  apply interleaved_app; [exact H|repeat constructor].
Qed.

Lemma interleaved_length {A} (a b c : list A) :
  Interleaved a b c -> length c = length a + length b.
Proof. induction 1; cbn; lia. Qed.

Lemma scriptCommand_count isCommand inputs :
  length (omap (scriptCommand isCommand) inputs) = countIf (deliversCommand isCommand) inputs.
Proof.
  induction inputs as [|i inputs IH]; [reflexivity|].
  destruct i as [|data|p o]; cbn; try exact IH.
  unfold isCommandMsg.
  destruct (isMsg "runCycleDone" data); cbn; [|exact IH].
  destruct (getProp data "scriptEvent") as [command|err]; cbn; [|exact IH].
  destruct (isCommand command); cbn; [rewrite IH; reflexivity|exact IH].
Qed.

(** The calls of the Command Handler, in order: the tracking donation, then
    the Engine's [initialized] events and the script's commands. *)
Lemma engine_dispatch_order isCommand sessionId inputs :
  exists rest,
    dispatched (engineRun isCommand sessionId inputs).2
    = CommandSystemDonate (sessionId +:+ "-tracking") userStartedJson :: rest
    /\ Interleaved
         (replicate
            (countIf (isMsg "firstRunCycle") (posted (engineRun isCommand sessionId inputs).2))
            (CommandSystemEvent "initialized"))
         (omap (scriptCommand isCommand) inputs)
         rest.
Proof.
  induction inputs as [|i inputs IH] using rev_ind.
  { exists []. split; [reflexivity|constructor]. }
  rewrite engineRun_snoc.
  destruct (engineRun isCommand sessionId inputs) as [e es].
  destruct IH as (rest & Hd & Hi). cbn [snd] in Hd, Hi.
  rewrite omap_app.
  assert (Hnil : Forall isConsoleLog []) by constructor.
  destruct i as [|data|p o]; cbn [engineReact].
  - cbn [snd]. change (Engine.start e)
      with (Normal tt, Engine.setResolveInitialized (Some Engine.InitPending) e,
            [ConsoleLog [VStr "[WorkerProcessingEngine] started"]] ++ [PostMessage msgInitialise]).
    cbn [snd]. rewrite app_assoc, !dispatched_app, !posted_app, !countIf_app, Hd.
    cbn. rewrite ?app_nil_r, ?Nat.add_0_r. exists rest. split; [reflexivity|exact Hi].
  - destruct (engine_onmessage_cases isCommand data e)
      as [(Hm & command & logs & Ht & Hs & Hcmd & Hlogs & ->)
         |[(Hm & Hr & logs & Hlogs & ->)|(Hm & c & logs & Hlogs & ->)]];
      cbn [snd];
      change (omap (scriptCommand isCommand) [InMessage data])
        with (match scriptCommand isCommand (InMessage data) with
              | Some command => [command]
              | None => []
              end);
      unfold scriptCommand; rewrite Hm, ?Hs;
      rewrite ?dispatched_app, ?posted_app, ?countIf_app,
        ?(posted_logs _ Hlogs), ?(dispatched_logs _ Hlogs), Hd.
    + cbn. rewrite ?app_nil_r, ?Nat.add_0_r. exists (rest ++ [command]).
      split; [reflexivity|]. apply interleaved_snoc_right. exact Hi.
    + cbn. exists (rest ++ [CommandSystemEvent "initialized"]).
      split; [reflexivity|]. rewrite !app_nil_r.
      replace (countIf (isMsg "firstRunCycle") (posted es) + 1)
        with (S (countIf (isMsg "firstRunCycle") (posted es))) by lia.
      rewrite replicate_S_end. apply interleaved_snoc_left. exact Hi.
    + cbn. rewrite ?app_nil_r, ?Nat.add_0_r. exists rest. split; [reflexivity|exact Hi].
  - change (omap (scriptCommand isCommand) [InSettle p o]) with (@nil Value).
    destruct (Engine.reactions e !! p) as [[|]|] eqn:Hp;
      [rewrite (settle_noop p o e Hp)
      |destruct o as [response|reason];
       [rewrite (settle_next_fulfilled p response e Hp)
       |rewrite (settle_next_rejected p reason e Hp)]
      |rewrite (settle_not_pending p o e Hp)];
      cbn [snd];
      try change [ConsoleLog [VStr "next cycle"]; PostMessage (msgNextRunCycle response)]
        with ([ConsoleLog [VStr "next cycle"]] ++ [PostMessage (msgNextRunCycle response)]);
      rewrite ?app_assoc, ?dispatched_app, ?posted_app, ?countIf_app, Hd;
      cbn; rewrite ?app_nil_r, ?Nat.add_0_r; exists rest; (split; [reflexivity|exact Hi]).
Qed.

(** X1.  Whatever events reach the Engine, in whatever order (also events
    that the worker would never send, and repeated calls of [start()]): the
    calls of the Command Handler are, first, the tracking donation of the
    constructor, and then the recognized commands that came in [runCycleDone]
    messages, each once and in the order in which they came, shuffled with
    one system event [initialized] for each [firstRunCycle] posted.  No
    command is dispatched twice and none is dropped.  The number of promises
    the Engine has been given is the number of its calls. *)
Theorem engine_dispatches_each_command_once
    (isCommand : Value -> bool) (sessionId : string) (inputs : list EngineInput) :
  let r := engineRun isCommand sessionId inputs in
  (exists rest,
     dispatched r.2
     = CommandSystemDonate (sessionId +:+ "-tracking") userStartedJson :: rest
     /\ Interleaved
          (replicate (countIf (isMsg "firstRunCycle") (posted r.2))
             (CommandSystemEvent "initialized"))
          (omap (scriptCommand isCommand) inputs)
          rest)
  /\ length (omap (scriptCommand isCommand) inputs)
     = countIf (deliversCommand isCommand) inputs
  /\ length (dispatched r.2)
     = 1 + countIf (isMsg "firstRunCycle") (posted r.2)
       + countIf (deliversCommand isCommand) inputs
  /\ Engine.nextPromise r.1 = length (dispatched r.2).
Proof.
  intros r. pose proof (engine_invariant isCommand sessionId inputs) as H.
  pose proof (engine_dispatch_order isCommand sessionId inputs) as Ho.
  fold r in H, Ho. destruct r as [e es].
  destruct H as (_ & _ & _ & _ & Hd & He & _).
  split; [exact Ho|]. split; [apply scriptCommand_count|]. auto.
Qed.

(** X2.  Whatever events reach the Engine: it has posted exactly one
    [initialise] for each call of [start()], and no more [firstRunCycle]
    messages than [start()] was called, however many [initialiseDone]
    messages arrive; while the promise of the latest [start()] is pending,
    one fewer. *)
Theorem engine_first_cycle_per_start
    (isCommand : Value -> bool) (sessionId : string) (inputs : list EngineInput) :
  let r := engineRun isCommand sessionId inputs in
  countIf (isMsg "initialise") (posted r.2) = countIf isStart inputs
  /\ countIf (isMsg "firstRunCycle") (posted r.2) + awaitingInitialisation r.1
     <= countIf isStart inputs.
Proof.
  intros r. pose proof (engine_invariant isCommand sessionId inputs) as H.
  fold r in H. destruct r as [e es].
  destruct H as (_ & Ha & Hb & _). auto.
Qed.

(** X3.  Whatever events reach the Engine: every message it has posted is
    [initialise], [firstRunCycle] with the session id it was constructed
    with, or [nextRunCycle] with a response with which the Command Handler
    fulfilled a promise; and it has posted no more [nextRunCycle] messages
    than it received recognized commands, the commands still with the
    handler not counted. *)
Theorem engine_posts_only_protocol_messages
    (isCommand : Value -> bool) (sessionId : string) (inputs : list EngineInput) :
  let r := engineRun isCommand sessionId inputs in
  Forall (EngineMessage sessionId inputs) (posted r.2)
  /\ Engine.sessionId r.1 = sessionId
  /\ countIf (isMsg "nextRunCycle") (posted r.2) + outstanding r.1
     <= countIf (deliversCommand isCommand) inputs.
Proof.
  intros r. pose proof (engine_invariant isCommand sessionId inputs) as H.
  fold r in H. destruct r as [e es].
  destruct H as (Hsid & _ & _ & Hc & _ & _ & Hf & _). auto.
Qed.

(** X4.  Whatever events reach the Engine: every command it has handed to
    the Command Handler is its own tracking donation, its own system event
    [initialized], or a command that [isCommand] recognizes and that came as
    the [scriptEvent] of a [runCycleDone] message.  It never dispatches what
    [isCommand] rejects. *)
Theorem engine_dispatches_only_recognized_commands
    (isCommand : Value -> bool) (sessionId : string) (inputs : list EngineInput) :
  let r := engineRun isCommand sessionId inputs in
  Forall (EngineCommand isCommand sessionId inputs) (dispatched r.2).
Proof.
  intros r. pose proof (engine_invariant isCommand sessionId inputs) as H.
  fold r in H. destruct r as [e es].
  destruct H as (_ & _ & _ & _ & _ & _ & _ & Hg). auto.
Qed.

(** ** The worker under any sequence of events *)

Lemma workerRun_snoc py inputs i :
  workerRun py (inputs ++ [i])
  = let '(w, es) := workerRun py inputs in
    let '(_, w', es') := workerReact py i w in
    (w', es ++ es').
Proof.
  unfold workerRun. rewrite fold_left_app. cbn [fold_left].
  destruct (fold_left _ inputs _) as [w es]. reflexivity.
Qed.

Lemma initialiseSettles_nothing_pending py i fulfilled (w : Worker.State py) :
  Worker.initialising w !! i = None ->
  Worker.initialiseSettles py i fulfilled w = (Normal tt, w, []).
Proof.
  intros H. unfold Worker.initialiseSettles. run_js. rewrite H. reflexivity.
Qed.

Lemma worker_invariant py inputs : WorkerInvariant py inputs (workerRun py inputs).
Proof.
  induction inputs as [|i inputs IH] using rev_ind.
  { unfold workerRun, WorkerInvariant. cbn. repeat split; try lia. constructor. }
  rewrite workerRun_snoc.
  destruct (workerRun py inputs) as [w es].
  destruct IH as (Ha & Hb & Hc).
  unfold WorkerInvariant.
  destruct (workerReact py i w) as [[c w'] es'] eqn:Hr.
  rewrite !countIf_app, posted_app, !countIf_app, Forall_app.
  destruct i as [data|k fulfilled]; cbn [workerReact] in Hr;
    cbn [countIf deliversRunCycle deliversInitialise].
  - apply worker_onmessage_turn in Hr.
    inversion Hr as [? ? ? logs Hlen Hlogs|? logs Hev Hlogs
                    |? ? logs scriptEvent Hev Hlen Hlogs| |]; subst.
    + rewrite (posted_logs _ Hlogs), Hlen. cbn.
      repeat split; auto; try (split_ifs; lia).
    + rewrite (posted_logs _ Hlogs), Hev. cbn. rewrite length_app. cbn.
      repeat split; auto; try (split_ifs; lia).
    + rewrite posted_app, (posted_logs _ Hlogs), Hev, Hlen. cbn.
      repeat split; auto; try (split_ifs; lia).
      constructor; [|constructor]. right. eauto.
  - destruct (Worker.initialising w !! k) as [stage|] eqn:Hk.
    + apply (worker_initialiseSettles_turn py k fulfilled stage w c w' es' Hk) in Hr.
      inversion Hr as [? ? ? logs Hlen Hlogs| | |? stage' Hs|? Hs]; subst.
      * rewrite (posted_logs _ Hlogs), Hlen. cbn. repeat split; auto; lia.
      * cbn. rewrite length_delete by eauto. apply lookup_lt_Some in Hs.
        repeat split; auto; lia.
      * cbn. rewrite length_delete by eauto. apply lookup_lt_Some in Hs.
        repeat split; auto; try lia.
        constructor; [|constructor]. left. reflexivity.
    + rewrite (initialiseSettles_nothing_pending py k fulfilled w Hk) in Hr.
      inversion Hr; subst. cbn. repeat split; auto; lia.
Qed.

(** X5.  Whatever messages reach the worker and however its loading stages
    settle: it has posted no more [runCycleDone] messages than it received
    [firstRunCycle] and [nextRunCycle] messages, no more [initialiseDone]
    messages than it received [initialise] messages (the calls of
    [initialise()] still pending not counted), and nothing but
    [initialiseDone] and [runCycleDone] messages.  It never speaks
    unprompted. *)
Theorem worker_replies_at_most_once
    (py : Pyodide) (inputs : list WorkerInput) :
  let r := workerRun py inputs in
  countIf (isMsg "runCycleDone") (posted r.2) <= countIf deliversRunCycle inputs
  /\ countIf (isMsg "initialiseDone") (posted r.2) + length (Worker.initialising r.1)
     <= countIf deliversInitialise inputs
  /\ Forall WorkerMessage (posted r.2).
Proof.
  intros r. pose proof (worker_invariant py inputs) as H.
  fold r in H. destruct r as [w es]. exact H.
Qed.

(** ** Sessions that have come to rest *)

Lemma countIf_all {A} (l : list A) : countIf (fun _ => true) l = length l.
Proof. induction l as [|x l IH]; cbn; [reflexivity|]. rewrite IH. reflexivity. Qed.

Section AtRest.

Variable isCommand : Value -> bool.
Variable py : Pyodide.

Ltac session_counts s Hn :=
  destruct Hn as [c e es Hst Ht|data rest c e es Hq Ht|p o c e es Ht
                 |data rest c w es Hq Ht|i fulfilled c w es Ht];
    cbn [engine worker toWorker toEngine started trace];
    rewrite ?postedBy_app, ?receivedBy_app, ?postedBy_turn, ?receivedBy_turn by exact I;
    rewrite ?countIf_app; cbn [isThread];
    try rewrite Hq in *; inversion Ht; subst; clear Ht;
    rewrite ?posted_app;
    repeat match goal with
           | H : Forall isConsoleLog ?l |- _ => rewrite ?(posted_logs l H); clear H
           end;
    repeat match goal with
           | H : length _ = length _ |- _ => rewrite H; clear H
           end;
    cbn [Worker.initialising Worker.setInitialising];
    rewrite ?length_app, ?outstanding_setResolveInitialized;
  try match goal with
           | H : Worker.initialising _ !! _ = Some _ |- _ =>
               rewrite length_delete by eauto; apply lookup_lt_Some in H
           end;
  try match goal with
           | H : Engine.reactions _ !! _ = Some Engine.RNextRunCycle |- _ =>
               pose proof (outstanding_delete_next _ _ H)
           end;
  try match goal with
           | H : Engine.reactions ?e !! ?p = Some _ |- _ =>
               pose proof (outstanding_delete_le e p)
           end;
  try match goal with
           | |- context [outstanding (Engine.mkEngine ?a ?b (<[?p := ?x]> ?m) ?n)] =>
               pose proof (outstanding_insert_le a b m n p x);
               change (outstanding (Engine.mkEngine a b m n))
                 with (outstanding (engine s)) in *
           end;
  try match goal with
           | |- context [outstanding (Engine.mkEngine ?a ?b (<[?p := Engine.RNoop]> ?m) ?n)] =>
               pose proof (outstanding_insert_noop a b m n p);
               change (outstanding (Engine.mkEngine a b m n))
                 with (outstanding (engine s)) in *
           end;
  unfold isCommandMsg, isRunCycle in *;
  repeat match goal with
           | |- context [receivedBy ?th [?c]] =>
               let r := eval cbn in (receivedBy th [c]) in
               change (receivedBy th [c]) with r
           end;
  cbn [countIf] in *;
  repeat match goal with
           | Hev : getProp ?d "eventType" = Normal (VStr ?a), H : context [isMsg ?ty ?d] |- _ =>
               rewrite (isMsg_of ty d a Hev) in H
           | Hev : getProp ?d "eventType" = Normal (VStr ?a) |- context [isMsg ?ty ?d] =>
               rewrite (isMsg_of ty d a Hev)
           end;
  try match goal with
           | H : isMsg _ _ = true |- _ => rewrite ?H in *
           end;
  repeat match goal with
           | H : getProp ?d "scriptEvent" = Normal _ |- _ => rewrite H; clear H
           | H : isCommand _ = true |- _ => rewrite H; clear H
           end;
  cbn in *;
  split_ifs; repeat split; lia.

Lemma stalledWith_next n m (s s' : System py) :
  StalledWith n m s -> Next isCommand py s s' -> StalledWith n m s'.
Proof.
  intros ((H1 & H2 & H3) & H4 & H5) Hn.
  unfold StalledWith, Stalled, initialisation, inFlight in *.
  session_counts s Hn.
Qed.

Lemma trace_grows (s : System py) more :
  exists rest, trace (fold_left (step isCommand py) more s) = trace s ++ rest.
Proof.
  apply (steps_invariant isCommand py (fun s' => exists rest, trace s' = trace s ++ rest)).
  - intros s1 s2 [rest Hs] Hn.
    destruct Hn; cbn [trace]; rewrite Hs, <- app_assoc; eauto.
  - exists []. rewrite app_nil_r. reflexivity.
Qed.

End AtRest.

(** X6.  A session in which nothing is under way (the initialisation is
    over, no [initialiseDone] waits, no stimulus, command or response is in
    flight) stays so for ever: whatever happens next, neither thread posts
    any further message.  Nothing restarts a cycle that stopped because the
    script's output was not recognized, the Command Handler rejected or a
    response could not be unwrapped. *)
Theorem stalled_session_stays_silent
    (isCommand : Value -> bool) (py : Pyodide) (s : System py) (more : list Step) :
  Stalled s ->
  let s' := fold_left (step isCommand py) more s in
  Stalled s'
  /\ postedBy MainThread (trace s') = postedBy MainThread (trace s)
  /\ postedBy WorkerThread (trace s') = postedBy WorkerThread (trace s).
Proof.
  intros Hs s'.
  assert (H : StalledWith (length (postedBy MainThread (trace s)))
                (length (postedBy WorkerThread (trace s))) s').
  { apply (steps_invariant isCommand py _ (stalledWith_next isCommand py _ _)).
    split; [exact Hs|]. rewrite !countIf_all. auto. }
  destruct H as (Hst & Hn & Hm). rewrite countIf_all in Hn, Hm.
  destruct (trace_grows isCommand py s more) as [rest Hr]. fold s' in Hr.
  split; [exact Hst|].
  rewrite Hr, !postedBy_app in *. rewrite !length_app in *.
  assert (H1 : postedBy MainThread rest = []) by (apply length_zero_iff_nil; lia).
  assert (H2 : postedBy WorkerThread rest = []) by (apply length_zero_iff_nil; lia).
  rewrite H1, H2, !app_nil_r. auto.
Qed.

Lemma stalled_session_stays_silent_witness :
  let py := scriptedPyodide junkScript in
  let s := run isCommandByTag py "123"
             (successfulStart ++ [DeliverToWorker; DeliverToEngine]) in
  let s' := fold_left (step isCommandByTag py)
              [DeliverToWorker; DeliverToEngine; SettleHandler 0 (Fulfilled VNull);
               SettleHandler 1 (Rejected (mkError "Error: no")); CallStart] s in
  Stalled s
  /\ receivedBy MainThread (trace s) = [msgInitialiseDone; msgRunCycleDone (VStr "junk")]
  /\ postedBy MainThread (trace s') = postedBy MainThread (trace s).
Proof.
  intros py s s'.
  assert (Hs : Stalled s) by (vm_compute; repeat split; reflexivity).
  split; [exact Hs|]. split; [vm_compute; reflexivity|].
  apply (stalled_session_stays_silent isCommandByTag py s _ Hs).
Defined.

(** X7.  A session whose initialisation is over without an [initialiseDone]
    (a loading stage failed) never recovers: whatever happens next, the
    worker posts no [initialiseDone] and the Engine no [firstRunCycle].
    There is no retry and no timeout. *)
Theorem failed_initialisation_is_final
    (isCommand : Value -> bool) (py : Pyodide) (s : System py) (more : list Step) :
  Hung s -> Hung (fold_left (step isCommand py) more s).
Proof.
  intros Hs.
  apply (steps_invariant isCommand py Hung (hung_next isCommand py)). exact Hs.
Qed.

Lemma failed_initialisation_is_final_witness :
  let py := scriptedPyodide demoScript in
  let s := run isCommandByTag py "123" failingStart in
  Hung s
  /\ Hung (fold_left (step isCommandByTag py)
             [DeliverToEngine; DeliverToWorker; SettleInitialise 0 true; CallStart] s).
Proof.
  intros py s.
  assert (Hs : Hung s) by (vm_compute; repeat split; reflexivity).
  split; [exact Hs|].
  apply (failed_initialisation_is_final isCommandByTag py s _ Hs).
Defined.

(** ** Edges of the message handlers *)

(** X8.  An [initialiseDone] that arrives before [start()] was ever called
    finds [resolveInitialized] unassigned: the handler throws a [TypeError],
    the Engine is unchanged, and it has neither posted a message nor called
    the Command Handler. *)
Theorem initialiseDone_before_start_throws
    (isCommand : Value -> bool) (e : Engine.State) (data : Value) :
  getProp data "eventType" = Normal (VStr "initialiseDone") ->
  Engine.resolveInitialized e = None ->
  exists logs,
    Engine.onmessage isCommand data e
      = (Abrupt (TypeError "this.resolveInitialized is not a function"), e, logs)
    /\ Forall isConsoleLog logs.
Proof.
  intros Ht Hr. rewrite (onmessage_initialiseDone isCommand data e Ht).
  unfold Engine.callResolveInitialized. run_js. rewrite Hr.
  eexists. split; [reflexivity|]. repeat constructor.
Qed.

Lemma initialiseDone_before_start_throws_witness :
  exists logs,
    Engine.onmessage isCommandByTag msgInitialiseDone demoEngine
      = (Abrupt (TypeError "this.resolveInitialized is not a function"), demoEngine, logs)
    /\ Forall isConsoleLog logs.
Proof.
  apply (initialiseDone_before_start_throws isCommandByTag demoEngine msgInitialiseDone);
    reflexivity.
Defined.

(** X9.  Handling [initialiseDone] is idempotent: after the Engine has
    handled one, in whatever state, handling another leaves the Engine as it
    is, posts nothing and calls no handler.  A duplicated [initialiseDone]
    cannot start the script twice. *)
Theorem initialiseDone_handled_once
    (isCommand : Value -> bool) (e : Engine.State) (data : Value) :
  getProp data "eventType" = Normal (VStr "initialiseDone") ->
  let e1 := (Engine.onmessage isCommand data e).1.2 in
  exists c logs,
    Engine.onmessage isCommand data e1 = (c, e1, logs) /\ Forall isConsoleLog logs.
Proof.
  intros Ht e1. subst e1.
  rewrite !(onmessage_initialiseDone isCommand data _ Ht).
  destruct (Engine.resolveInitialized e) as [[|]|] eqn:Hr.
  - rewrite (callResolveInitialized_pending e Hr). cbn [fst snd].
    unfold Engine.callResolveInitialized. run_js. cbn.
    eexists _, _. split; [reflexivity|]. repeat constructor.
  - unfold Engine.callResolveInitialized. run_js. rewrite Hr. cbn. rewrite Hr.
    eexists _, _. split; [reflexivity|]. repeat constructor.
  - unfold Engine.callResolveInitialized. run_js. rewrite Hr. cbn. rewrite Hr.
    eexists _, _. split; [reflexivity|]. repeat constructor.
Qed.

Lemma initialiseDone_handled_once_witness :
  let e := (Engine.start demoEngine).1.2 in
  let e1 := (Engine.onmessage isCommandByTag msgInitialiseDone e).1.2 in
  posted (Engine.onmessage isCommandByTag msgInitialiseDone e).2
    = [msgFirstRunCycle (VStr "123")]
  /\ exists c logs,
       Engine.onmessage isCommandByTag msgInitialiseDone e1 = (c, e1, logs)
       /\ Forall isConsoleLog logs.
Proof.
  split; [reflexivity|].
  apply (initialiseDone_handled_once isCommandByTag (Engine.start demoEngine).1.2
           msgInitialiseDone eq_refl).
Defined.

(** X10.  A message event whose data is [null] or [undefined]: on both sides
    reading [eventType] throws before anything else happens; the state is
    unchanged and nothing is logged, posted or dispatched. *)
Theorem message_without_data_throws
    (isCommand : Value -> bool) (py : Pyodide) (data : Value)
    (e : Engine.State) (w : Worker.State py) :
  isNullish data = true ->
  (exists error,
     String.prefix "TypeError" (toString error) = true
     /\ Engine.onmessage isCommand data e = (Abrupt error, e, []))
  /\ (exists error,
        String.prefix "TypeError" (toString error) = true
        /\ Worker.onmessage py data w = (Abrupt error, w, [])).
Proof.
  intros H. destruct data; try discriminate.
  - split; eexists; (split; [|reflexivity]); reflexivity.
  - split; eexists; (split; [|reflexivity]); reflexivity.
Qed.

Lemma message_without_data_throws_witness :
  (exists error,
     String.prefix "TypeError" (toString error) = true
     /\ Engine.onmessage isCommandByTag VUndefined demoEngine = (Abrupt error, demoEngine, []))
  /\ (exists error,
        String.prefix "TypeError" (toString error) = true
        /\ Worker.onmessage (scriptedPyodide demoScript) VUndefined demoWorker
           = (Abrupt error, demoWorker, [])).
Proof.
  apply (message_without_data_throws isCommandByTag (scriptedPyodide demoScript)
           VUndefined demoEngine demoWorker eq_refl).
Defined.

(** X11.  Before the interpreter is loaded ([self.pyodide] unset):
    a [firstRunCycle] throws a [TypeError], starts no script and posts
    nothing; a [nextRunCycle] whose response carries a file rejects inside
    [unwrap], so that [runCycle] is not called and nothing is posted. *)
Theorem cycle_before_interpreter_loaded
    (py : Pyodide) (w : Worker.State py) (sessionId file : Value) :
  Worker.pyodide w = None ->
  (exists error,
     String.prefix "TypeError" (toString error) = true
     /\ Worker.onmessage py (msgFirstRunCycle sessionId) w = (Abrupt error, w, []))
  /\ (forall response,
        getProp response "payload" = Normal (PayloadFile file) ->
        exists logs,
          Worker.onmessage py (msgNextRunCycle response) w = (Normal tt, w, logs)
          /\ Forall isConsoleLog logs).
Proof.
  intros Hp. split.
  - eexists. split; [|unfold Worker.onmessage, Worker.self_pyodide; run_js;
                      cbn -[Worker.runCycle]; rewrite Hp; reflexivity].
    reflexivity.
  - intros response Hr. rewrite onmessage_nextRunCycle.
    unfold Worker.unwrap, Worker.newPromise, Worker.copyFileToPyFS, Worker.self_pyodide.
    run_js. rewrite Hr. cbn -[JSON_stringify]. rewrite Hp.
    eexists. split; [reflexivity|]. repeat constructor.
Qed.

Lemma cycle_before_interpreter_loaded_witness :
  exists error,
    String.prefix "TypeError" (toString error) = true
    /\ Worker.onmessage (scriptedPyodide demoScript) (msgFirstRunCycle (VStr "123"))
         (Worker.initial (scriptedPyodide demoScript))
       = (Abrupt error, Worker.initial (scriptedPyodide demoScript), []).
Proof.
  apply (cycle_before_interpreter_loaded (scriptedPyodide demoScript)
           (Worker.initial (scriptedPyodide demoScript)) (VStr "123") VNull eq_refl).
Defined.

(** X12.  A [nextRunCycle] whose response carries a payload that is not a
    file resumes the script with exactly that payload: when the script
    yields a value that converts to [command], the worker keeps the script
    where it stands now and posts one [runCycleDone] with that command. *)
Theorem nextRunCycle_resumes_script
    (py : Pyodide) (w : Worker.State py) (response payload type : Value)
    (sc sc' : Script py) (yielded : PyObject py) (command : Value) :
  getProp response "payload" = Normal payload ->
  getProp payload "__type__" = Normal type ->
  strictEqStr type "PayloadFile" = false ->
  Worker.pyScript w = Some sc ->
  send py sc payload = (Normal yielded, sc') ->
  toJs py yielded = Normal command ->
  Worker.onmessage py (msgNextRunCycle response) w
  = (Normal tt, Worker.setPyScript py (Some sc') w,
     [unwrapLog payload; runCycleLog payload; PostMessage (msgRunCycleDone command)]).
Proof.
  intros Hp Ht Hf Hs Hsend Hjs.
  rewrite onmessage_nextRunCycle.
  rewrite (unwrap_passes_through py response payload type w Hp Ht Hf).
  rewrite (runCycle_yields py w payload sc sc' yielded command Hs Hsend Hjs).
  reflexivity.
Qed.

Lemma nextRunCycle_resumes_script_witness :
  let py := scriptedPyodide demoScript in
  let w := Worker.mkWorker py (Some ∅) (Some demoScript) [] in
  Worker.onmessage py (msgNextRunCycle (VObj [("payload", PayloadString "yes")])) w
  = (Normal tt, Worker.mkWorker py (Some ∅) (Some (tail demoScript)) [],
     [unwrapLog (PayloadString "yes"); runCycleLog (PayloadString "yes");
      PostMessage (msgRunCycleDone
        (VObj [("__type__", VStr "CommandUIRender"); ("page", VNull)]))]).
Proof.
  apply (nextRunCycle_resumes_script (scriptedPyodide demoScript)
           (Worker.mkWorker (scriptedPyodide demoScript) (Some ∅) (Some demoScript) [])
           (VObj [("payload", PayloadString "yes")]) (PayloadString "yes")
           (VStr "PayloadString") demoScript (tail demoScript)
           (VObj [("__type__", VStr "CommandUIRender"); ("page", VNull)])
           (VObj [("__type__", VStr "CommandUIRender"); ("page", VNull)])
           eq_refl eq_refl eq_refl eq_refl eq_refl eq_refl).
Defined.

(** X13.  Two files in a row: [copyFileToPyFS] unmounts [/file-input] and
    mounts the new file alone, so that after the second call the second file
    is there and the first one, if its name differs, is gone; every other
    directory is as it was. *)
Theorem second_file_replaces_first
    (py : Pyodide) (w : Worker.State py) (fs : FS) (name1 content1 name2 content2 : string) :
  Worker.pyodide w = Some fs ->
  fs !! "/file-input" ≠ Some None ->
  exists w1 w2 fs2,
    Worker.copyFileToPyFS py (VFile name1 content1) w
      = (Normal (PayloadString ("/file-input/" +:+ name1)), w1, [])
    /\ Worker.copyFileToPyFS py (VFile name2 content2) w1
       = (Normal (PayloadString ("/file-input/" +:+ name2)), w2, [])
    /\ Worker.pyodide w2 = Some fs2
    /\ FS_readFile "/file-input" name2 fs2 = Some content2
    /\ (name1 ≠ name2 -> FS_readFile "/file-input" name1 fs2 = None)
    /\ (forall dir, dir ≠ "/file-input" -> fs2 !! dir = fs !! dir).
Proof.
  intros Hfs Hdir.
  eexists _, _, _. split; [apply (copyFileToPyFS_mounts py name1 content1 fs w Hfs Hdir)|].
  split.
  { apply copyFileToPyFS_mounts; [reflexivity|].
    rewrite lookup_insert_eq. discriminate. }
  split; [reflexivity|]. split; [|split].
  - unfold FS_readFile. rewrite lookup_insert_eq. cbn. rewrite String.eqb_refl. reflexivity.
  - intros Hne. unfold FS_readFile. rewrite lookup_insert_eq. cbn.
    destruct (String.eqb_spec name2 name1) as [Heq|_]; [congruence|reflexivity].
  - intros dir Hd. rewrite !lookup_insert_ne by auto. reflexivity.
Qed.

Lemma second_file_replaces_first_witness :
  exists w1 w2 fs2,
    Worker.copyFileToPyFS (scriptedPyodide demoScript) (VFile "a.zip" "A") demoWorker
      = (Normal (PayloadString "/file-input/a.zip"), w1, [])
    /\ Worker.copyFileToPyFS (scriptedPyodide demoScript) (VFile "b.zip" "B") w1
       = (Normal (PayloadString "/file-input/b.zip"), w2, [])
    /\ Worker.pyodide w2 = Some fs2
    /\ FS_readFile "/file-input" "b.zip" fs2 = Some "B"
    /\ ("a.zip" ≠ "b.zip" -> FS_readFile "/file-input" "a.zip" fs2 = None)
    /\ (forall dir, dir ≠ "/file-input" -> fs2 !! dir = (∅ : FS) !! dir).
Proof.
  apply (second_file_replaces_first (scriptedPyodide demoScript) demoWorker ∅
           "a.zip" "A" "b.zip" "B" eq_refl).
  rewrite lookup_empty. discriminate.
Defined.

(** ** The donation page *)

(** X14.  [renderFooter] never throws.  It renders no footer exactly when
    [props.footer] is [null] or [undefined]; otherwise the progress bar gets
    the footer's [progressPercentage], or 0 when that is missing, [null] or
    [undefined], so that the percentage it gets is never [null] or
    [undefined], whatever kind of value the footer is. *)
Theorem renderFooter_progress_defined
    (Resolve : Type) (props : DonationPage.Props Resolve) :
  let footer := DonationPage.footer Resolve props in
  (DonationPageView.renderFooter Resolve props = None <-> isNullish footer = true)
  /\ (forall f,
        DonationPageView.renderFooter Resolve props = Some f ->
        isNullish (DonationPageView.percentage f) = false
        /\ (forall p, getProp footer "progressPercentage" = Normal p ->
                      isNullish p = false -> DonationPageView.percentage f = p)
        /\ (forall p, getProp footer "progressPercentage" = Normal p ->
                      isNullish p = true -> DonationPageView.percentage f = VNum 0)).
Proof.
  intros footer. unfold DonationPageView.renderFooter. fold footer.
  destruct (isNullish footer) eqn:Hn; cbn [negb].
  - split; [split; auto|]. intros f Hf. discriminate.
  - split; [split; intros; discriminate|].
    intros f Hf. inversion Hf; subst f. cbn [DonationPageView.percentage].
    unfold nullishCoalesce, DonationPageView.footerProgress.
    destruct (getProp footer "progressPercentage") as [p|err] eqn:Hp.
    + destruct (isNullish p) eqn:Hpn.
      * split; [reflexivity|]. split; intros p' Hp' Hn'; inversion Hp'; subst; congruence.
      * split; [exact Hpn|]. split; intros p' Hp' Hn'; inversion Hp'; subst; congruence.
    + destruct footer; cbn in Hn, Hp; discriminate.
Qed.

(** X15.  The donation page renders exactly when its header is neither
    [null] nor [undefined] and one of the five guards accepts its body.
    What it renders holds the translated title of the header, the prompt
    that [renderBody] gives and the footer that [renderFooter] gives.  A
    nullish header fails first, whatever the body is; with a header, an
    unknown body fails with [TypeError: Unknown body type]. *)
Theorem donationPage_renders_iff
    (Resolve : Type) (isFileInput isConfirm isConsentForm isRadioInput isQuestionnaire
       : Value -> bool) (translate : Value -> string -> string)
    (props : DonationPage.Props Resolve) :
  let page := DonationPageView.DonationPage Resolve isFileInput isConfirm isConsentForm
                isRadioInput isQuestionnaire translate props in
  let render := DonationPage.renderBody Resolve isFileInput isConfirm isConsentForm
                  isRadioInput isQuestionnaire props in
  let header := DonationPage.header Resolve props in
  let body := DonationPage.body props in
  let recognized := isFileInput body || isConfirm body || isConsentForm body
                    || isRadioInput body || isQuestionnaire body in
  ((exists p, page = Normal p) <-> isNullish header = false /\ recognized = true)
  /\ (forall p,
        page = Normal p ->
        render = Normal (DonationPageView.prompt Resolve p)
        /\ DonationPageView.pageFooter Resolve p = DonationPageView.renderFooter Resolve props
        /\ exists title,
             getProp header "title" = Normal title
             /\ DonationPageView.title1 Resolve p = translate title (DonationPage.locale props))
  /\ (isNullish header = true ->
      exists error, page = Abrupt error /\ error <> TypeError "Unknown body type")
  /\ (isNullish header = false -> recognized = false ->
      page = Abrupt (TypeError "Unknown body type")).
Proof.
  intros page render header body recognized.
  subst page. unfold DonationPageView.DonationPage, DonationPageView.prepareCopy.
  fold header. fold render.
  assert (Hr : (exists el, render = Normal el) /\ recognized = true
               \/ render = Abrupt (TypeError "Unknown body type") /\ recognized = false).
  { subst render recognized. unfold DonationPage.renderBody. fold body.
    destruct (isFileInput body), (isConfirm body), (isConsentForm body),
      (isRadioInput body), (isQuestionnaire body); cbn; eauto. }
  destruct (isNullish header) eqn:Hn.
  - split; [split; [intros [p Hp]; discriminate|intros [Hf _]; discriminate]|].
    split; [intros p Hp; discriminate|].
    split; [|intros; discriminate].
    intros _. eexists. split; [reflexivity|].
    unfold TypeError. intros Heq. inversion Heq.
  - destruct (getProp header "title") as [title|err] eqn:Ht.
    2:{ destruct header; cbn in Hn, Ht; discriminate. }
    destruct Hr as [[[el Hel] Hrec]|[Herr Hrec]].
    + rewrite Hel. split; [split; eauto|].
      split; [|split; [intros; discriminate|intros _ Hc; congruence]].
      intros p Hp. inversion Hp; subst p. cbn. eauto.
    + rewrite Herr. split.
      { split; [intros [p Hp]; discriminate|intros [_ Hc]; congruence]. }
      split; [intros p Hp; discriminate|]. split; [intros; discriminate|auto].
Qed.

Lemma donationPage_renders_iff_witness :
  let guard := DonationPage.hasType in
  let page header body :=
    DonationPageView.DonationPage unit (guard "PropsUIPromptFileInput")
      (guard "PropsUIPromptConfirm") (guard "PropsUIPromptConsentForm")
      (guard "PropsUIPromptRadioInput") (guard "PropsUIPromptQuestionnaire")
      (fun text _ => toStr text)
      (DonationPage.mkProps header body VNull "en" tt) in
  page (VObj [("title", VStr "Hello")]) (VObj [("__type__", VStr "PropsUIPromptTable")])
    = Abrupt (TypeError "Unknown body type")
  /\ exists error,
       page VUndefined (VObj [("__type__", VStr "PropsUIPromptTable")]) = Abrupt error
       /\ error <> TypeError "Unknown body type".
Proof.
  split.
  - apply (donationPage_renders_iff unit
             (DonationPage.hasType "PropsUIPromptFileInput")
             (DonationPage.hasType "PropsUIPromptConfirm")
             (DonationPage.hasType "PropsUIPromptConsentForm")
             (DonationPage.hasType "PropsUIPromptRadioInput")
             (DonationPage.hasType "PropsUIPromptQuestionnaire")
             (fun text _ => toStr text)
             (DonationPage.mkProps (VObj [("title", VStr "Hello")])
                (VObj [("__type__", VStr "PropsUIPromptTable")]) VNull "en" tt));
      reflexivity.
  - apply (donationPage_renders_iff unit
             (DonationPage.hasType "PropsUIPromptFileInput")
             (DonationPage.hasType "PropsUIPromptConfirm")
             (DonationPage.hasType "PropsUIPromptConsentForm")
             (DonationPage.hasType "PropsUIPromptRadioInput")
             (DonationPage.hasType "PropsUIPromptQuestionnaire")
             (fun text _ => toStr text)
             (DonationPage.mkProps VUndefined
                (VObj [("__type__", VStr "PropsUIPromptTable")]) VNull "en" tt));
      reflexivity.
Defined.

(** ** [index.tsx] *)

(** X16.  The release platform is never empty, [null] or [undefined]: a
    non-empty [platform] parameter of the URL wins, then a non-empty
    environment variable, and else it is [all]; an empty parameter does not
    hide the environment variable. *)
Theorem releasePlatform_never_empty (param env : Value) :
  truthy (Index.releasePlatform param env) = true
  /\ (truthy param = true -> Index.releasePlatform param env = param)
  /\ (truthy param = false -> truthy env = true -> Index.releasePlatform param env = env)
  /\ (truthy param = false -> truthy env = false ->
      Index.releasePlatform param env = VStr "all")
  /\ Index.releasePlatform (VStr "") env = Index.releasePlatform VNull env.
Proof.
  unfold Index.releasePlatform, jsOr.
  destruct (truthy param) eqn:Hp, (truthy env) eqn:He;
    rewrite ?Hp, ?He; repeat split; auto; try discriminate.
Qed.

Lemma firstPart_no_hyphen s : Index.contains Index.hyphen (Index.firstPart s) = false.
Proof.
  induction s as [|c s IH]; [reflexivity|]. cbn.
  destruct (Ascii.eqb c Index.hyphen) eqn:Hc; [reflexivity|].
  cbn. rewrite Hc, IH. reflexivity.
Qed.

Lemma firstPart_prefix s :
  exists rest,
    s = Index.firstPart s +:+ rest
    /\ (rest = "" \/ exists rest', rest = String Index.hyphen rest').
Proof.
  induction s as [|c s [rest [IH Hrest]]].
  - exists "". auto.
  - cbn. destruct (Ascii.eqb_spec c Index.hyphen) as [->|Hc].
    + exists (String Index.hyphen s). eauto.
    + exists rest. split; [|exact Hrest].
      change (String c s = String c (Index.firstPart s +:+ rest)). congruence.
Qed.

(** X17.  The browser language is never empty and holds no hyphen.  It is
    the part of [navigator.language] before its first hyphen, and [en] when
    that part is empty (an empty language, or one that starts with a
    hyphen). *)
Theorem browserLang_is_a_language_tag (language : string) :
  Index.browserLang language <> ""
  /\ Index.contains Index.hyphen (Index.browserLang language) = false
  /\ (Index.firstPart language = "" -> Index.browserLang language = "en")
  /\ (Index.firstPart language <> "" ->
      exists rest,
        language = Index.browserLang language +:+ rest
        /\ (rest = "" \/ exists rest', rest = String Index.hyphen rest')).
Proof.
  unfold Index.browserLang.
  destruct (String.eqb_spec (Index.firstPart language) "") as [He|Hne]; cbn [negb].
  - rewrite He. repeat split; try discriminate; auto. intros Hc. congruence.
  - repeat split; auto.
    + apply firstPart_no_hyphen.
    + intros Hc. congruence.
    + intros _. apply firstPart_prefix.
Qed.

Lemma browserLang_is_a_language_tag_witness :
  Index.browserLang "en-US" = "en"
  /\ Index.browserLang "" = "en"
  /\ exists rest,
       "nl-NL" = Index.browserLang "nl-NL" +:+ rest
       /\ (rest = "" \/ exists rest', rest = String Index.hyphen rest').
Proof.
  split; [reflexivity|]. split; [reflexivity|].
  apply (browserLang_is_a_language_tag "nl-NL"). discriminate.
Defined.

(** ** The tracking key *)

Lemma append_length (s t : string) :
  String.length (s +:+ t) = String.length s + String.length t.
Proof.
  induction s as [|c s IH]; [reflexivity|].
  change (S (String.length (s +:+ t)) = S (String.length s + String.length t)).
  rewrite IH. reflexivity.
Qed.

Lemma append_cancel_r (s1 s2 t : string) : s1 +:+ t = s2 +:+ t -> s1 = s2.
Proof.
  revert s2. induction s1 as [|c s1 IH]; intros [|c2 s2] H.
  - reflexivity.
  - apply (f_equal String.length) in H. rewrite !append_length in H. cbn in H. lia.
  - apply (f_equal String.length) in H. rewrite !append_length in H. cbn in H. lia.
  - change (String c (s1 +:+ t) = String c2 (s2 +:+ t)) in H.
    inversion H; subst. f_equal. apply IH. assumption.
Qed.

(** X18.  The tracking donation names its session: Engines constructed with
    different session ids call the Command Handler with different keys, so
    that the tracking records of two sessions cannot overwrite each other.
    Each constructor makes one call, with a command whose key is the session
    id followed by [-tracking]; equal calls come from equal session ids. *)
Theorem tracking_key_names_session (sessionId1 sessionId2 : string) :
  (dispatched (Engine.constructor sessionId1).2 = dispatched (Engine.constructor sessionId2).2 ->
   sessionId1 = sessionId2)
  /\ (sessionId1 <> sessionId2 ->
      exists command1 command2 key1 key2,
        dispatched (Engine.constructor sessionId1).2 = [command1]
        /\ dispatched (Engine.constructor sessionId2).2 = [command2]
        /\ getProp command1 "key" = Normal (VStr key1)
        /\ getProp command2 "key" = Normal (VStr key2)
        /\ key1 = sessionId1 +:+ "-tracking"
        /\ key2 = sessionId2 +:+ "-tracking"
        /\ key1 <> key2
        /\ command1 <> command2).
Proof.
  split.
  - cbn. intros H. inversion H as [Hk].
    apply (append_cancel_r sessionId1 sessionId2 "-tracking"). exact Hk.
  - intros Hne. eexists _, _, _, _.
    split; [reflexivity|]. split; [reflexivity|].
    split; [reflexivity|]. split; [reflexivity|].
    split; [reflexivity|]. split; [reflexivity|].
    assert (Hk : sessionId1 +:+ "-tracking" <> sessionId2 +:+ "-tracking").
    { intros Hk. apply Hne. apply (append_cancel_r _ _ _ Hk). }
    split; [exact Hk|].
    intros Hc. apply Hk. unfold CommandSystemDonate in Hc. congruence.
Qed.

Lemma tracking_key_names_session_witness :
  "123" <> "124"
  /\ exists command1 command2 key1 key2,
       dispatched (Engine.constructor "123").2 = [command1]
       /\ dispatched (Engine.constructor "124").2 = [command2]
       /\ getProp command1 "key" = Normal (VStr key1)
       /\ getProp command2 "key" = Normal (VStr key2)
       /\ key1 = "123-tracking"
       /\ key2 = "124-tracking"
       /\ key1 <> key2
       /\ command1 <> command2.
Proof.
  assert (H : "123" <> "124") by discriminate.
  split; [exact H|].
  apply (proj2 (tracking_key_names_session "123" "124") H).
Defined.
